(** * Conversation cost estimation: pricing lookup and cost aggregation

    A shallow embedding of the pricing configuration module
    ([PRICING_CONFIG], [getPricingForDate], [calculateCost], [getModelInfo]),
    of the conversation cost service ([calculateConversationCost],
    [getConversationCostDisplay] with its [formatCost],
    [getMultipleConversationCosts]) and of the cost widget of the client,
    followed by the properties of all three.

    Conventions of the embedding:
    - a JavaScript number that counts tokens is a [Z]; a number that holds a
      price or a cost is read twice: as an exact rational [Q], the value
      that the service approximates, and, in module [B64], as the binary64
      number that the service computes;
    - a [Date] is its time value in milliseconds since the epoch, or the
      invalid date ([None], the time value NaN);
    - a property that may be missing is an [option];
    - a function that can throw returns a [result]; an [async] function is
      read as the function of its awaited values;
    - the pricing table is an object literal: a property access finds its own
      entries and the properties inherited from [Object.prototype];
    - the [Map] that keeps the per-model entries is an insertion-ordered
      association list; the plain object returned by the batch operation is
      a [gmap] of own properties together with its prototype;
    - calls to the logger, and the properties that no computation reads
      ([source], [notes], [_id]), are left out. *)

From Stdlib Require Import ZArith QArith Qround Qabs Lia Lqa List Ascii String.
From Stdlib Require Import SpecFloat.
From stdpp Require Import base option list gmap strings.
Import ListNotations.

Open Scope string_scope.
Open Scope list_scope.
Open Scope Z_scope.

(** ** Exceptions *)

Inductive error : Type :=
| RangeError (msg : string)
| TypeError (msg : string)
| DbError (msg : string).

Inductive result (A : Type) : Type :=
| Ok (a : A)
| Throw (e : error).
Arguments Ok {A} a.
Arguments Throw {A} e.

Definition rbind {A B} (r : result A) (k : A -> result B) : result B :=
  match r with
  | Ok a => k a
  | Throw e => Throw e
  end.

Notation "'let!' x ':=' r 'in' k" := (rbind r (fun x => k))
  (at level 10, x pattern, r at level 100, k at level 200).

Definition returns {A} (r : result A) : bool :=
  match r with Ok _ => true | Throw _ => false end.

(** ** Dates *)

Module JsDate.

(** A [Date] object: [Some t] carries the time value [t] (milliseconds since
    1970-01-01T00:00:00Z), [None] is the invalid date. *)
Abbreviation t := (option Z) (only parsing).

Definition epoch : t := Some 0.

(** Days between the epoch and the civil date [y]-[m]-[d] of the proleptic
    Gregorian calendar. *)
Definition daysFromCivil (y m d : Z) : Z :=
  let y' := if m <=? 2 then y - 1 else y in
  let era := y' / 400 in
  let yoe := y' - era * 400 in
  let mp := (m + 9) mod 12 in
  let doy := (153 * mp + 2) / 5 + d - 1 in
  let doe := yoe * 365 + yoe / 4 - yoe / 100 + doy in
  era * 146097 + doe - 719468.

Definition makeTime (y m d hh mm ss : Z) : Z :=
  (((daysFromCivil y m d * 24 + hh) * 60 + mm) * 60 + ss) * 1000.

Definition digitVal (c : ascii) : option Z :=
  let n := Z.of_nat (nat_of_ascii c) in
  if (48 <=? n) && (n <=? 57) then Some (n - 48) else None.

Fixpoint numeral (acc : Z) (cs : list ascii) : option Z :=
  match cs with
  | [] => Some acc
  | c :: cs' =>
      match digitVal c with
      | Some d => numeral (acc * 10 + d) cs'
      | None => None
      end
  end.

Definition isChar (c : ascii) (cs : list ascii) : bool :=
  match cs with
  | [c'] => if Ascii.ascii_dec c c' then true else false
  | _ => false
  end.

Definition field (from len : nat) (cs : list ascii) : list ascii :=
  firstn len (skipn from cs).

Definition daysInMonth (y m : Z) : Z :=
  if m =? 2 then
    (if ((y mod 4 =? 0) && negb (y mod 100 =? 0)) || (y mod 400 =? 0)
     then 29 else 28)
  else if (m =? 4) || (m =? 6) || (m =? 9) || (m =? 11) then 30 else 31.

(** [Date.parse] on the two ISO forms that occur in the pricing table and in
    the tests: [YYYY-MM-DD] and [YYYY-MM-DDTHH:MM:SSZ], both read as UTC.
    Any other text gives the invalid date. *)
Definition parse (s : string) : t :=
  let cs := list_ascii_of_string s in
  let date_part :=
    match numeral 0 (field 0 4 cs), numeral 0 (field 5 2 cs),
          numeral 0 (field 8 2 cs) with
    | Some y, Some m, Some d =>
        if isChar "-" (field 4 1 cs) && isChar "-" (field 7 1 cs)
           && (1 <=? m) && (m <=? 12) && (1 <=? d) && (d <=? daysInMonth y m)
        then Some (y, m, d) else None
    | _, _, _ => None
    end in
  match date_part with
  | None => None
  | Some (y, m, d) =>
      if Nat.eqb (List.length cs) 10 then Some (makeTime y m d 0 0 0)
      else if Nat.eqb (List.length cs) 20 then
        match numeral 0 (field 11 2 cs), numeral 0 (field 14 2 cs),
              numeral 0 (field 17 2 cs) with
        | Some hh, Some mm, Some ss =>
            if isChar "T" (field 10 1 cs) && isChar ":" (field 13 1 cs)
               && isChar ":" (field 16 1 cs) && isChar "Z" (field 19 1 cs)
               && (hh <=? 23) && (mm <=? 59) && (ss <=? 59)
            then Some (makeTime y m d hh mm ss) else None
        | _, _, _ => None
        end
      else None
  end.

(** [a >= b], [a <= b] and [a > b] on dates compare the time values; every
    comparison with an invalid date is false. *)
Definition geb (a b : t) : bool :=
  match a, b with Some x, Some y => y <=? x | _, _ => false end.
Definition leb (a b : t) : bool :=
  match a, b with Some x, Some y => x <=? y | _, _ => false end.
Definition gtb (a b : t) : bool :=
  match a, b with Some x, Some y => y <? x | _, _ => false end.

(** [toISOString] throws a [RangeError] on the invalid date. The text it
    returns for a valid date is not used by any caller; the time value
    stands for it. *)
Definition toISOString (d : t) : result Z :=
  match d with
  | Some x => Ok x
  | None => Throw (RangeError "Invalid time value")
  end.

End JsDate.

(** ** The pricing table *)

Record CachePricing : Type := mkCache { write : Q; read : Q }.
Record ReasoningPricing : Type := mkReasoning { tokens : Q }.

Record PricingPeriod : Type := mkPeriod {
  effectiveFrom : string;
  effectiveTo : option string;
  prompt : Q;
  completion : Q;
  cache : option CachePricing;
  reasoning : option ReasoningPricing;
}.

Record ModelPricing : Type := mkModel {
  provider : string;
  category : string;
  pricing : list PricingPeriod;
}.

(** A period with only the two mandatory prices. *)
Definition basic (from : string) (p c : Q) : PricingPeriod :=
  mkPeriod from None p c None None.

Definition PRICING_CONFIG : list (string * ModelPricing) := [
  ("gpt-4o", mkModel "OpenAI" "gpt-4o"
     [basic "2024-05-13T00:00:00Z" 5.0 15.0]);
  ("gpt-4o-mini", mkModel "OpenAI" "gpt-4o"
     [basic "2024-07-18T00:00:00Z" 0.15 0.6]);
  ("gpt-4", mkModel "OpenAI" "gpt-4"
     [basic "2024-01-01T00:00:00Z" 30.0 60.0]);
  ("gpt-4-turbo", mkModel "OpenAI" "gpt-4"
     [basic "2024-04-09T00:00:00Z" 10.0 30.0]);
  ("gpt-3.5-turbo", mkModel "OpenAI" "gpt-3.5"
     [basic "2024-01-25T00:00:00Z" 0.5 1.5;
      mkPeriod "2023-11-06T00:00:00Z" (Some "2024-01-24T23:59:59Z") 1.0 2.0
        None None]);
  ("o1", mkModel "OpenAI" "o1"
     [mkPeriod "2024-12-05T00:00:00Z" None 15.0 60.0 None
        (Some (mkReasoning 15.0))]);
  ("o1-mini", mkModel "OpenAI" "o1"
     [mkPeriod "2024-09-12T00:00:00Z" None 3.0 12.0 None
        (Some (mkReasoning 3.0))]);
  ("o1-preview", mkModel "OpenAI" "o1"
     [mkPeriod "2024-09-12T00:00:00Z" None 15.0 60.0 None
        (Some (mkReasoning 15.0))]);
  ("claude-3-5-sonnet", mkModel "Anthropic" "claude-3.5"
     [mkPeriod "2024-06-20T00:00:00Z" None 3.0 15.0
        (Some (mkCache 3.75 0.3)) None]);
  ("claude-3.5-sonnet", mkModel "Anthropic" "claude-3.5"
     [mkPeriod "2024-06-20T00:00:00Z" None 3.0 15.0
        (Some (mkCache 3.75 0.3)) None]);
  ("claude-3-5-haiku", mkModel "Anthropic" "claude-3.5"
     [mkPeriod "2024-11-01T00:00:00Z" None 0.8 4.0
        (Some (mkCache 1.0 0.08)) None]);
  ("claude-3.5-haiku", mkModel "Anthropic" "claude-3.5"
     [mkPeriod "2024-11-01T00:00:00Z" None 0.8 4.0
        (Some (mkCache 1.0 0.08)) None]);
  ("claude-3-opus", mkModel "Anthropic" "claude-3"
     [basic "2024-03-04T00:00:00Z" 15.0 75.0]);
  ("claude-3-sonnet", mkModel "Anthropic" "claude-3"
     [basic "2024-03-04T00:00:00Z" 3.0 15.0]);
  ("claude-3-haiku", mkModel "Anthropic" "claude-3"
     [mkPeriod "2024-03-04T00:00:00Z" None 0.25 1.25
        (Some (mkCache 0.3 0.03)) None]);
  ("gemini-1.5-pro", mkModel "Google" "gemini-1.5"
     [basic "2024-02-15T00:00:00Z" 2.5 10.0]);
  ("gemini-1.5-flash", mkModel "Google" "gemini-1.5"
     [basic "2024-05-14T00:00:00Z" 0.15 0.6]);
  ("gemini-1.5-flash-8b", mkModel "Google" "gemini-1.5"
     [basic "2024-10-03T00:00:00Z" 0.075 0.3]);
  ("mistral-large", mkModel "Mistral" "mistral-large"
     [basic "2024-01-01T00:00:00Z" 2.0 6.0]);
  ("mistral-small", mkModel "Mistral" "mistral-small"
     [basic "2024-01-01T00:00:00Z" 0.2 0.6]);
  ("command-r-plus", mkModel "Cohere" "command-r"
     [basic "2024-04-04T00:00:00Z" 3.0 15.0]);
  ("command-r", mkModel "Cohere" "command-r"
     [basic "2024-03-11T00:00:00Z" 0.5 1.5])
]%Q.

(** The own property of the table under the name [modelId]. *)
Fixpoint lookupModel (table : list (string * ModelPricing)) (modelId : string)
  : option ModelPricing :=
  match table with
  | [] => None
  | (k, v) :: rest => if String.eqb k modelId then Some v else lookupModel rest modelId
  end.

(** The table is an object literal, so its prototype is [Object.prototype]:
    under each of the names below a property access that finds no own
    property yields what the object inherits, a built-in function (the
    prototype object itself for [__proto__]). Such a value is truthy and has
    no property [pricing], [provider] or [category]. *)
Definition objectPrototypeKeys : list string :=
  ["constructor"; "__defineGetter__"; "__defineSetter__"; "hasOwnProperty";
   "__lookupGetter__"; "__lookupSetter__"; "isPrototypeOf";
   "propertyIsEnumerable"; "toString"; "valueOf"; "__proto__"; "toLocaleString"].

Definition inherited (key : string) : bool :=
  existsb (String.eqb key) objectPrototypeKeys.

Inductive Property (A : Type) : Type :=
| Own (a : A)
| Inherited
| Undefined.
Arguments Own {A} a.
Arguments Inherited {A}.
Arguments Undefined {A}.

(** Property access [PRICING_CONFIG[modelId]]. *)
Definition getProperty (table : list (string * ModelPricing)) (modelId : string)
  : Property ModelPricing :=
  match lookupModel table modelId with
  | Some v => Own v
  | None => if inherited modelId then Inherited else Undefined
  end.

(** ** getPricingForDate *)

(** The test of the loop body: [date >= effectiveFrom && (!effectiveTo || date <= effectiveTo)]. *)
Definition periodContains (period : PricingPeriod) (date : JsDate.t) : bool :=
  let from := JsDate.parse (effectiveFrom period) in
  let to :=
    match effectiveTo period with
    | Some s => if String.eqb s "" then None else Some (JsDate.parse s)
    | None => None
    end in
  JsDate.geb date from
  && match to with
     | None => true
     | Some e => JsDate.leb date e
     end.

(** The [for ... of] loop with its early [return]. *)
Fixpoint scanPeriods (periods : list PricingPeriod) (date : JsDate.t)
  : option PricingPeriod :=
  match periods with
  | [] => None
  | period :: rest =>
      if periodContains period date then Some period else scanPeriods rest date
  end.

(** On an inherited value [modelConfig.pricing] is undefined, and the
    [for ... of] loop over it throws a TypeError. *)
Definition getPricingForDateIn (table : list (string * ModelPricing))
    (modelId : string) (date : JsDate.t) : result (option PricingPeriod) :=
  match getProperty table modelId with
  | Undefined => Ok None
  | Inherited => Throw (TypeError "modelConfig.pricing is not iterable")
  | Own modelConfig =>
      Ok match scanPeriods (pricing modelConfig) date with
         | Some period => Some period
         | None => last (pricing modelConfig)
         end
  end.

Definition getPricingForDate (modelId : string) (date : JsDate.t)
  : result (option PricingPeriod) :=
  getPricingForDateIn PRICING_CONFIG modelId date.

(** ** calculateCost *)

(** The [tokenUsage] argument: every property may be missing. *)
Record TokenUsage : Type := mkUsage {
  promptTokens : option Z;
  completionTokens : option Z;
  cacheWriteTokens : option Z;
  cacheReadTokens : option Z;
  reasoningTokens : option Z;
}.

Definition emptyUsage : TokenUsage := mkUsage None None None None None.

Module Costs.
(** The object returned by [calculateCost]. *)
Record t : Type := mk {
  prompt : Q;
  completion : Q;
  cacheWrite : Q;
  cacheRead : Q;
  reasoning : Q;
  total : Q;
  modelId : string;
  pricing : PricingPeriod;
  date : Z;
}.
End Costs.

(** Truthiness of a token count and of a unit price. *)
Definition truthyZ (n : option Z) : bool :=
  match n with Some k => negb (k =? 0) | None => false end.

Definition truthyQ (q : option Q) : bool :=
  match q with Some x => negb (Qeq_bool x 0) | None => false end.

(** [n || 0] *)
Definition orZero (n : option Z) : Z :=
  match n with Some k => k | None => 0 end.

Definition perMillion (n : option Z) (price : Q) : Q :=
  (inject_Z (orZero n) / 1000000 * price)%Q.

(** A parameter with the default value [new Date()]: the argument when it is
    passed, the clock otherwise. *)
Definition orNow (now : Z) (date : option JsDate.t) : JsDate.t :=
  match date with Some d => d | None => Some now end.

Definition calculateCostIn (table : list (string * ModelPricing)) (now : Z)
    (modelId : string) (tokenUsage : TokenUsage) (dateArg : option JsDate.t)
  : result (option Costs.t) :=
  let date := orNow now dateArg in
  let! found := getPricingForDateIn table modelId date in
  match found with
  | None => Ok None
  | Some pricing =>
      let prompt :=
        if truthyZ (promptTokens tokenUsage)
        then perMillion (promptTokens tokenUsage) (prompt pricing) else 0%Q in
      let completion :=
        if truthyZ (completionTokens tokenUsage)
        then perMillion (completionTokens tokenUsage) (completion pricing) else 0%Q in
      let cacheWrite :=
        if truthyZ (cacheWriteTokens tokenUsage) && truthyQ (write <$> cache pricing)
        then perMillion (cacheWriteTokens tokenUsage) (default 0%Q (write <$> cache pricing))
        else 0%Q in
      let cacheRead :=
        if truthyZ (cacheReadTokens tokenUsage) && truthyQ (read <$> cache pricing)
        then perMillion (cacheReadTokens tokenUsage) (default 0%Q (read <$> cache pricing))
        else 0%Q in
      let reasoning :=
        if truthyZ (reasoningTokens tokenUsage) && truthyQ (tokens <$> reasoning pricing)
        then perMillion (reasoningTokens tokenUsage) (default 0%Q (tokens <$> reasoning pricing))
        else 0%Q in
      let total := (prompt + completion + cacheWrite + cacheRead + reasoning)%Q in
      let! iso := JsDate.toISOString date in
      Ok (Some (Costs.mk prompt completion cacheWrite cacheRead reasoning total
                  modelId pricing iso))
  end.

Definition calculateCost : Z -> string -> TokenUsage -> option JsDate.t
                           -> result (option Costs.t) :=
  calculateCostIn PRICING_CONFIG.

(** ** getModelInfo *)

Record ModelInfo : Type := mkInfo {
  info_modelId : string;
  info_provider : string;
  info_category : string;
  supportsCaching : bool;
  supportsReasoning : bool;
}.

(** On an inherited value [config.pricing] is undefined, and the call of its
    [some] throws a TypeError. *)
Definition getModelInfo (modelId : string) : result (option ModelInfo) :=
  match getProperty PRICING_CONFIG modelId with
  | Undefined => Ok None
  | Inherited =>
      Throw (TypeError "Cannot read properties of undefined (reading 'some')")
  | Own config =>
      Ok (Some (mkInfo modelId (provider config) (category config)
                  (existsb (fun p => bool_decide (is_Some (cache p))) (pricing config))
                  (existsb (fun p => bool_decide (is_Some (reasoning p)))
                     (pricing config))))
  end.

Definition getSupportedModels : list string := List.map fst PRICING_CONFIG.

(** ** The conversation cost service *)

(** A stored transaction, as [Transaction.find(...).lean()] hands it over. *)
Record Transaction : Type := mkTx {
  model : option string;
  createdAt : option Z;          (* [None]: the property is missing *)
  tokenType : option string;
  rawAmount : option Z;
  inputTokens : option Z;
  writeTokens : option Z;
  readTokens : option Z;
  tokenValue : option Q;
}.

(** [new Date(transaction.createdAt)]: a missing property gives the invalid date. *)
Definition newDate (createdAt : option Z) : JsDate.t := createdAt.

Record CostBreakdown : Type := mkBreakdown {
  cb_prompt : Q;
  cb_completion : Q;
  cb_cacheWrite : Q;
  cb_cacheRead : Q;
  cb_reasoning : Q;
}.

Module Totals.
(** The running token counters ([tokenUsage] of the summary and of a
    per-model entry). *)
Record t : Type := mk {
  promptTokens : Z;
  completionTokens : Z;
  cacheWriteTokens : Z;
  cacheReadTokens : Z;
  reasoningTokens : Z;
}.
Definition zero : t := mk 0 0 0 0 0.
End Totals.

(** The five [+= currentTokenUsage.x || 0] statements. *)
Definition addUsage (a : Totals.t) (u : TokenUsage) : Totals.t :=
  Totals.mk (Totals.promptTokens a + orZero (promptTokens u))
            (Totals.completionTokens a + orZero (completionTokens u))
            (Totals.cacheWriteTokens a + orZero (cacheWriteTokens u))
            (Totals.cacheReadTokens a + orZero (cacheReadTokens u))
            (Totals.reasoningTokens a + orZero (reasoningTokens u)).

Record ModelData : Type := mkModelData {
  md_modelId : string;
  md_cost : Q;
  md_tokenUsage : Totals.t;
  transactionCount : Z;
}.

(** The [Map] of per-model entries, in insertion order. *)
Definition ModelMap : Type := list (string * ModelData).

Fixpoint mapGet (m : ModelMap) (k : string) : option ModelData :=
  match m with
  | [] => None
  | (k', v) :: rest => if String.eqb k' k then Some v else mapGet rest k
  end.

(** Writing through the reference that [modelBreakdown.get] returned: the
    entry changes in place; [modelBreakdown.set] of a new key appends. *)
Fixpoint mapSet (m : ModelMap) (k : string) (v : ModelData) : ModelMap :=
  match m with
  | [] => [(k, v)]
  | (k', v') :: rest =>
      if String.eqb k' k then (k', v) :: rest else (k', v') :: mapSet rest k v
  end.

Definition newModelData (modelId : string) : ModelData :=
  mkModelData modelId 0 Totals.zero 0.

(** The local variables of [calculateConversationCost] that the loop updates. *)
Record AggState : Type := mkAgg {
  costBreakdown : CostBreakdown;
  tokenUsage : Totals.t;
  modelBreakdown : ModelMap;
  lastUpdated : JsDate.t;
}.

Definition initState : AggState :=
  mkAgg (mkBreakdown 0 0 0 0 0) Totals.zero [] JsDate.epoch.

(** [Math.abs(x || 0)] *)
Definition absOrZero (x : option Z) : option Z := Some (Z.abs (orZero x)).

Definition isType (t : Transaction) (name : string) : bool :=
  match tokenType t with Some s => String.eqb s name | None => false end.

(** The token counts of one transaction ([currentTokenUsage]). *)
Definition currentTokenUsage (t : Transaction) : TokenUsage :=
  if isType t "prompt" then
    match inputTokens t with
    | Some _ =>
        mkUsage (absOrZero (inputTokens t)) None
                (absOrZero (writeTokens t)) (absOrZero (readTokens t)) None
    | None => mkUsage (absOrZero (rawAmount t)) None None None None
    end
  else if isType t "completion" then
    mkUsage None (absOrZero (rawAmount t)) None None None
  else if isType t "reasoning" then
    mkUsage None None None None (absOrZero (rawAmount t))
  else emptyUsage.

(** [Math.abs(transaction.tokenValue || 0) / 1000000] *)
Definition fallbackCost (t : Transaction) : Q :=
  (Qabs (default 0 (tokenValue t)) / 1000000)%Q.

Definition addCosts (b : CostBreakdown) (c : Costs.t) : CostBreakdown :=
  mkBreakdown (cb_prompt b + Costs.prompt c) (cb_completion b + Costs.completion c)
              (cb_cacheWrite b + Costs.cacheWrite c) (cb_cacheRead b + Costs.cacheRead c)
              (cb_reasoning b + Costs.reasoning c)%Q.

Definition addFallback (b : CostBreakdown) (t : Transaction) : CostBreakdown :=
  if isType t "completion"
  then mkBreakdown (cb_prompt b) (cb_completion b + fallbackCost t)
                   (cb_cacheWrite b) (cb_cacheRead b) (cb_reasoning b)
  else mkBreakdown (cb_prompt b + fallbackCost t) (cb_completion b)
                   (cb_cacheWrite b) (cb_cacheRead b) (cb_reasoning b).

(** [!modelId]: no model, or the empty string. *)
Definition modelOf (t : Transaction) : option string :=
  match model t with
  | Some m => if String.eqb m "" then None else Some m
  | None => None
  end.

(** One iteration of the loop over the transactions. *)
Definition processTransaction (now : Z) (st : AggState) (t : Transaction)
  : result AggState :=
  let transactionDate := newDate (createdAt t) in
  let lastUpdated' :=
    if JsDate.gtb transactionDate (lastUpdated st)
    then transactionDate else lastUpdated st in
  match modelOf t with
  | None =>
      Ok (mkAgg (costBreakdown st) (tokenUsage st) (modelBreakdown st) lastUpdated')
  | Some modelId =>
      let modelData0 :=
        default (newModelData modelId) (mapGet (modelBreakdown st) modelId) in
      let modelData :=
        mkModelData (md_modelId modelData0) (md_cost modelData0)
                    (md_tokenUsage modelData0) (transactionCount modelData0 + 1) in
      let usage := currentTokenUsage t in
      let! cost := calculateCost now modelId usage (Some transactionDate) in
      let '(breakdown', modelData') :=
        match cost with
        | Some c =>
            (addCosts (costBreakdown st) c,
             mkModelData (md_modelId modelData) (md_cost modelData + Costs.total c)
                         (addUsage (md_tokenUsage modelData) usage)
                         (transactionCount modelData))
        | None =>
            (addFallback (costBreakdown st) t,
             mkModelData (md_modelId modelData) (md_cost modelData + fallbackCost t)
                         (md_tokenUsage modelData) (transactionCount modelData))
        end in
      Ok (mkAgg breakdown' (addUsage (tokenUsage st) usage)
                (mapSet (modelBreakdown st) modelId modelData') lastUpdated')
  end.

Fixpoint processAll (now : Z) (st : AggState) (transactions : list Transaction)
  : result AggState :=
  match transactions with
  | [] => Ok st
  | t :: rest =>
      let! st' := processTransaction now st t in
      processAll now st' rest
  end.

(** [Math.round] on an exact value: the nearest integer, a tie going up. *)
Definition Math_round (x : Q) : Z := Qfloor (x + (1 # 2))%Q.

(** [Math.round(x * 100000) / 100000] over the rationals; [B64.round5] is
    the same expression in binary64. *)
Definition round5 (x : Q) : Q := (inject_Z (Math_round (x * 100000)) / 100000)%Q.

Record ModelEntry : Type := mkEntry {
  me_data : ModelData;
  me_provider : string;
  me_category : string;
}.

(** [modelInfo?.provider || 'Unknown'] *)
Definition orUnknown (s : option string) : string :=
  match s with
  | Some x => if String.eqb x "" then "Unknown" else x
  | None => "Unknown"
  end.

Definition withModelInfo (m : ModelData) : result ModelEntry :=
  let! modelInfo := getModelInfo (md_modelId m) in
  Ok (mkEntry m (orUnknown (info_provider <$> modelInfo))
                (orUnknown (info_category <$> modelInfo))).

(** [Array.prototype.map] with a callback that can throw: the first exception
    ends the traversal. *)
Fixpoint mapResult {A B} (f : A -> result B) (l : list A) : result (list B) :=
  match l with
  | [] => Ok []
  | x :: rest =>
      let! y := f x in
      let! ys := mapResult f rest in
      Ok (y :: ys)
  end.

(** [.sort((a, b) => b.cost - a.cost)]: a stable sort, the larger cost first. *)
Fixpoint insertByCost (x : ModelEntry) (l : list ModelEntry) : list ModelEntry :=
  match l with
  | [] => [x]
  | y :: l' =>
      if Qle_bool (md_cost (me_data y)) (md_cost (me_data x))
      then x :: y :: l' else y :: insertByCost x l'
  end.

Definition sortByCost (l : list ModelEntry) : list ModelEntry :=
  foldr insertByCost [] l.

Record ConversationCostSummary : Type := mkSummary {
  s_conversationId : string;
  totalCost : Q;
  s_costBreakdown : CostBreakdown;
  s_tokenUsage : Totals.t;
  s_modelBreakdown : list ModelEntry;
  s_lastUpdated : JsDate.t;
}.

Definition sumBreakdown (b : CostBreakdown) : Q :=
  (cb_prompt b + cb_completion b + cb_cacheWrite b + cb_cacheRead b + cb_reasoning b)%Q.

Definition roundBreakdown (b : CostBreakdown) : CostBreakdown :=
  mkBreakdown (round5 (cb_prompt b)) (round5 (cb_completion b))
              (round5 (cb_cacheWrite b)) (round5 (cb_cacheRead b))
              (round5 (cb_reasoning b)).

(** The statements after the loop. *)
Definition summarize (conversationId : string) (st : AggState)
  : result ConversationCostSummary :=
  let totalCost := sumBreakdown (costBreakdown st) in
  let! entries := mapResult withModelInfo (List.map snd (modelBreakdown st)) in
  let modelBreakdownArray := sortByCost entries in
  Ok (mkSummary conversationId (round5 totalCost) (roundBreakdown (costBreakdown st))
                (tokenUsage st) modelBreakdownArray (lastUpdated st)).

(** The loop and what follows it, on the transactions that the query returned. *)
Definition costOfTransactions (now : Z) (conversationId : string)
    (transactions : option (list Transaction))
  : result (option ConversationCostSummary) :=
  match transactions with
  | None | Some [] => Ok None
  | Some txs =>
      let! st := processAll now initState txs in
      let! summary := summarize conversationId st in
      Ok (Some summary)
  end.

(** The persistence layer: [Transaction.find(query).sort({ createdAt: 1 }).lean()]
    yields the stored transactions of a conversation, optionally restricted to
    one user, or fails. *)
Definition Db : Type :=
  string -> option string -> result (option (list Transaction)).

(** [if (userId) query.user = userId] *)
Definition userFilter (userId : option string) : option string :=
  match userId with
  | Some u => if String.eqb u "" then None else Some u
  | None => None
  end.

(** The [catch] block logs and throws the error again. *)
Definition calculateConversationCost (db : Db) (now : Z)
    (conversationId : string) (userId : option string)
  : result (option ConversationCostSummary) :=
  let! transactions := db conversationId (userFilter userId) in
  costOfTransactions now conversationId transactions.

(** ** Display formatting *)

Module Fmt.

Definition digitChar (d : Z) : ascii := ascii_of_nat (Z.to_nat (48 + d mod 10)).

Definition isDigit (c : ascii) : bool :=
  let n := nat_of_ascii c in (Nat.leb 48 n && Nat.leb n 57)%bool.

Fixpoint digitsFuel (fuel : nat) (n : Z) (acc : list ascii) : list ascii :=
  let acc' := digitChar n :: acc in
  match fuel with
  | O => acc'
  | S fuel' => if n / 10 =? 0 then acc' else digitsFuel fuel' (n / 10) acc'
  end.

(** The decimal digits of a natural number, ["0"] for zero. *)
Definition digits (n : Z) : list ascii :=
  digitsFuel (Z.to_nat (Z.log2 n)) n [].

Fixpoint stripZeros (rev_ds : list ascii) : list ascii :=
  match rev_ds with
  | c :: rest => if Ascii.eqb c "0" then stripZeros rest else rev_ds
  | [] => []
  end.

(** [Number::toString] from 10^21 on is exponential notation. Every binary64
    value in that range is an integer; JavaScript prints the shortest digit
    string that reads back as the same binary64, the model prints the exact
    decimal digits, the same text whenever these are at most 15 long. *)
Definition exponential (x : Q) : list ascii :=
  let ds := digits (Qfloor x) in
  let e := digits (Z.of_nat (List.length ds) - 1) in
  match rev (stripZeros (rev ds)) with
  | [] => ds
  | [d] => d :: "e"%char :: "+"%char :: e
  | d :: more => (d :: "."%char :: more ++ "e"%char :: "+"%char :: e)%list
  end.

(** [Number.prototype.toFixed] on a finite number. *)
Definition toFixedChars (x : Q) (f : nat) : list ascii :=
  let sign := if Qle_bool 0 x then [] else ["-"%char] in
  let x := Qabs x in
  if Qle_bool (inject_Z (10 ^ 21)) x then (sign ++ exponential x)%list
  else
    let n := Qfloor (x * inject_Z (10 ^ Z.of_nat f) + (1 # 2))%Q in
    let m := digits n in
    match f with
    | O => (sign ++ m)%list
    | _ =>
        let m := (repeat "0"%char (S f - List.length m)%nat ++ m)%list in
        let k := List.length m in
        (sign ++ firstn (k - f)%nat m ++ "."%char :: skipn (k - f)%nat m)%list
    end.

Definition toFixed (x : Q) (f : nat) : string :=
  string_of_list_ascii (toFixedChars x f).

Definition Qltb (a b : Q) : bool := negb (Qle_bool b a).

Definition formatCost (cost : Q) : string :=
  if Qltb cost 0.001 then "<$0.001"
  else if Qltb cost 0.01 then ("$" ++ toFixed cost 4)%string
  else if Qltb cost 1 then ("$" ++ toFixed cost 3)%string
  else ("$" ++ toFixed cost 2)%string.

Fixpoint takeDigits (cs : list ascii) : list ascii :=
  match cs with
  | c :: rest => if isDigit c then c :: takeDigits rest else []
  | [] => []
  end.

Fixpoint dropDigits (cs : list ascii) : list ascii :=
  match cs with
  | c :: rest => if isDigit c then dropDigits rest else cs
  | [] => []
  end.

(** The text is a dollar sign, one or more digits, a point and exactly [k]
    digits: the pattern [^\$\d+\.\d{k}$]. *)
Definition hasDecimals (k : nat) (s : string) : bool :=
  match list_ascii_of_string s with
  | "$"%char :: rest =>
      match takeDigits rest, dropDigits rest with
      | _ :: _, "."%char :: frac =>
          (forallb isDigit frac && Nat.eqb (List.length frac) k)%bool
      | _, _ => false
      end
  | _ => false
  end.

End Fmt.

(** ** getConversationCostDisplay and getMultipleConversationCosts *)

Record CostDisplay : Type := mkDisplay {
  d_conversationId : string;
  d_totalCost : string;
  totalCostRaw : Q;
  primaryModel : string;
  totalTokens : Z;
  d_lastUpdated : JsDate.t;
}.

(** [costSummary.modelBreakdown[0]?.modelId || 'Unknown'] *)
Definition primaryModelOf (entries : list ModelEntry) : string :=
  orUnknown (md_modelId <$> (me_data <$> head entries)).

Definition displayOf (conversationId : string) (costSummary : ConversationCostSummary)
  : CostDisplay :=
  mkDisplay conversationId (Fmt.formatCost (totalCost costSummary))
            (totalCost costSummary)
            (primaryModelOf (s_modelBreakdown costSummary))
            (Totals.promptTokens (s_tokenUsage costSummary)
             + Totals.completionTokens (s_tokenUsage costSummary))
            (s_lastUpdated costSummary).

(** Every error is caught and answered with [null]. *)
Definition getConversationCostDisplay (db : Db) (now : Z)
    (conversationId : string) (userId : option string) : option CostDisplay :=
  match calculateConversationCost db now conversationId userId with
  | Ok (Some costSummary) => Some (displayOf conversationId costSummary)
  | Ok None => None
  | Throw _ => None
  end.

(** The object [results] of the batch operation: an object literal used as a
    dictionary. Its own properties are the entries of the mapping; its
    prototype is [Object.prototype] until it is replaced. *)
Inductive Prototype : Type :=
| ObjectPrototype
| DisplayObject (cost : CostDisplay)
| NullPrototype.

Record ResultsObject : Type := mkResults {
  own : gmap string (option CostDisplay);
  prototype : Prototype;
}.

(** [{}] *)
Definition emptyObject : ResultsObject := mkResults ∅ ObjectPrototype.

(** The assignment [results[key] = value]. Under every name but [__proto__]
    it writes an own property: what the object inherits under the name, if
    anything, is a writable data property. [__proto__] is an accessor of
    [Object.prototype]: unless the object has an own property of that name,
    or no longer inherits from [Object.prototype], the assignment calls its
    setter, which makes the value, an object or null, the prototype of
    [results] and writes no property. *)
Definition setProperty (o : ResultsObject) (key : string)
    (value : option CostDisplay) : ResultsObject :=
  if String.eqb key "__proto__" then
    match own o !! key, prototype o with
    | Some _, _ | None, NullPrototype => mkResults (<[key := value]> (own o)) (prototype o)
    | None, _ =>
        mkResults (own o)
                  match value with
                  | Some cost => DisplayObject cost
                  | None => NullPrototype
                  end
    end
  else mkResults (<[key := value]> (own o)) (prototype o).

Definition batchSize : nat := 10.

(** One batch: the promises of [batch.map] are awaited together and their
    results written into [results] in the order of the batch. The inner
    [try] surrounds a call that cannot throw, so its [catch] is never taken. *)
Definition runBatch (db : Db) (now : Z) (userId : option string)
    (results : ResultsObject) (batch : list string) : ResultsObject :=
  let batchResults :=
    List.map (fun conversationId =>
                (conversationId, getConversationCostDisplay db now conversationId userId))
             batch in
  foldl (fun acc r => setProperty acc (fst r) (snd r)) results batchResults.

(** The loop [for (i = 0; i < conversationIds.length; i += batchSize)]; [rest]
    is what lies at and after index [i]. One unit of fuel is spent per batch. *)
Fixpoint batchLoop (fuel : nat) (db : Db) (now : Z) (userId : option string)
    (results : ResultsObject) (rest : list string) : ResultsObject :=
  match fuel, rest with
  | _, [] => results
  | O, _ => results
  | S fuel', _ =>
      batchLoop fuel' db now userId
        (runBatch db now userId results (firstn batchSize rest))
        (skipn batchSize rest)
  end.

Definition getMultipleConversationCosts (db : Db) (now : Z)
    (conversationIds : list string) (userId : option string)
  : result ResultsObject :=
  Ok (batchLoop (List.length conversationIds) db now userId emptyObject
        conversationIds).

(** ** The amounts in binary64

    The numbers of the service are binary64 values, and every sum, product
    and quotient rounds to the nearest of them, a tie going to the even
    mantissa. The definitions above read the amounts over the rationals:
    they give the values that the service approximates. Module [B64] gives
    [calculateCost] and [calculateConversationCost] once more with the
    arithmetic of the source, on the binary64 numbers of the standard library
    ([spec_float] at precision 53), for what depends on the rounding.
    Token counts and time values remain integers: binary64 holds them exactly
    below 2^53. *)

Module B64.

Definition prec : Z := 53.
Definition emax : Z := 1024.

Abbreviation float := spec_float (only parsing).

Definition add : float -> float -> float := SFadd prec emax.
Definition sub : float -> float -> float := SFsub prec emax.
Definition mul : float -> float -> float := SFmul prec emax.
Definition div : float -> float -> float := SFdiv prec emax.
Definition abs : float -> float := SFabs.

Definition zero : float := S754_zero false.

(** The binary64 value of an integer. *)
Definition ofZ (n : Z) : float := binary_normalize prec emax n 0 false.

(** The number that a decimal literal of the source, or a stored decimal
    amount, denotes: the binary64 value nearest to it. The division of two
    integers that binary64 holds exactly (below 2^53, as all those of the
    pricing table are) is rounded once, to that value. *)
Definition ofQ (q : Q) : float := div (ofZ (Qnum q)) (ofZ (Zpos (Qden q))).

(** The exact value of a finite number. *)
Definition toQ (x : float) : Q :=
  match x with
  | S754_finite s m e =>
      let n := cond_Zopp s (Zpos m) in
      if 0 <=? e then inject_Z (n * 2 ^ e) else Qmake n (Z.to_pos (2 ^ (- e)))
  | _ => 0%Q
  end.

(** Truthiness of a number: neither a zero nor NaN. *)
Definition truthy (x : float) : bool :=
  match x with
  | S754_zero _ | S754_nan => false
  | _ => true
  end.

(** [a > 0] *)
Definition positive (a : float) : bool := SFltb zero a.

Module Costs.
Record t : Type := mk {
  prompt : float;
  completion : float;
  cacheWrite : float;
  cacheRead : float;
  reasoning : float;
  total : float;
  modelId : string;
  pricing : PricingPeriod;
  date : Z;
}.
End Costs.

(** [(n / 1000000) * price] *)
Definition perMillion (n : option Z) (price : float) : float :=
  mul (div (ofZ (orZero n)) (ofZ 1000000)) price.

(** [pricing.cache?.write] and the like: the price, or undefined. *)
Definition optionalPrice (price : option Q) : option float := ofQ <$> price.

Definition truthyPrice (price : option float) : bool :=
  match price with Some x => truthy x | None => false end.

Definition calculateCost (now : Z) (modelId : string) (tokenUsage : TokenUsage)
    (dateArg : option JsDate.t) : result (option Costs.t) :=
  let date := orNow now dateArg in
  let! found := getPricingForDate modelId date in
  match found with
  | None => Ok None
  | Some pricing =>
      let prompt :=
        if truthyZ (promptTokens tokenUsage)
        then perMillion (promptTokens tokenUsage) (ofQ (prompt pricing)) else zero in
      let completion :=
        if truthyZ (completionTokens tokenUsage)
        then perMillion (completionTokens tokenUsage) (ofQ (completion pricing))
        else zero in
      let write := optionalPrice (write <$> cache pricing) in
      let cacheWrite :=
        if truthyZ (cacheWriteTokens tokenUsage) && truthyPrice write
        then perMillion (cacheWriteTokens tokenUsage) (default zero write)
        else zero in
      let read := optionalPrice (read <$> cache pricing) in
      let cacheRead :=
        if truthyZ (cacheReadTokens tokenUsage) && truthyPrice read
        then perMillion (cacheReadTokens tokenUsage) (default zero read)
        else zero in
      let tokens := optionalPrice (tokens <$> reasoning pricing) in
      let reasoning :=
        if truthyZ (reasoningTokens tokenUsage) && truthyPrice tokens
        then perMillion (reasoningTokens tokenUsage) (default zero tokens)
        else zero in
      let total := add (add (add (add prompt completion) cacheWrite) cacheRead)
                       reasoning in
      let! iso := JsDate.toISOString date in
      Ok (Some (Costs.mk prompt completion cacheWrite cacheRead reasoning total
                  modelId pricing iso))
  end.

Record CostBreakdown : Type := mkBreakdown {
  cb_prompt : float;
  cb_completion : float;
  cb_cacheWrite : float;
  cb_cacheRead : float;
  cb_reasoning : float;
}.

Record ModelData : Type := mkModelData {
  md_modelId : string;
  md_cost : float;
  md_tokenUsage : Totals.t;
  transactionCount : Z;
}.

Definition ModelMap : Type := list (string * ModelData).

Fixpoint mapGet (m : ModelMap) (k : string) : option ModelData :=
  match m with
  | [] => None
  | (k', v) :: rest => if String.eqb k' k then Some v else mapGet rest k
  end.

Fixpoint mapSet (m : ModelMap) (k : string) (v : ModelData) : ModelMap :=
  match m with
  | [] => [(k, v)]
  | (k', v') :: rest =>
      if String.eqb k' k then (k', v) :: rest else (k', v') :: mapSet rest k v
  end.

Definition newModelData (modelId : string) : ModelData :=
  mkModelData modelId zero Totals.zero 0.

Record AggState : Type := mkAgg {
  costBreakdown : CostBreakdown;
  tokenUsage : Totals.t;
  modelBreakdown : ModelMap;
  lastUpdated : JsDate.t;
}.

Definition initState : AggState :=
  mkAgg (mkBreakdown zero zero zero zero zero) Totals.zero [] JsDate.epoch.

(** [Math.abs(transaction.tokenValue || 0) / 1000000] *)
Definition fallbackCost (t : Transaction) : float :=
  let tokenValue := default zero (ofQ <$> tokenValue t) in
  div (abs (if truthy tokenValue then tokenValue else zero)) (ofZ 1000000).

Definition addCosts (b : CostBreakdown) (c : Costs.t) : CostBreakdown :=
  mkBreakdown (add (cb_prompt b) (Costs.prompt c))
              (add (cb_completion b) (Costs.completion c))
              (add (cb_cacheWrite b) (Costs.cacheWrite c))
              (add (cb_cacheRead b) (Costs.cacheRead c))
              (add (cb_reasoning b) (Costs.reasoning c)).

Definition addFallback (b : CostBreakdown) (t : Transaction) : CostBreakdown :=
  if isType t "completion"
  then mkBreakdown (cb_prompt b) (add (cb_completion b) (fallbackCost t))
                   (cb_cacheWrite b) (cb_cacheRead b) (cb_reasoning b)
  else mkBreakdown (add (cb_prompt b) (fallbackCost t)) (cb_completion b)
                   (cb_cacheWrite b) (cb_cacheRead b) (cb_reasoning b).

(** One iteration of the loop over the transactions. *)
Definition processTransaction (now : Z) (st : AggState) (t : Transaction)
  : result AggState :=
  let transactionDate := newDate (createdAt t) in
  let lastUpdated' :=
    if JsDate.gtb transactionDate (lastUpdated st)
    then transactionDate else lastUpdated st in
  match modelOf t with
  | None =>
      Ok (mkAgg (costBreakdown st) (tokenUsage st) (modelBreakdown st) lastUpdated')
  | Some modelId =>
      let modelData0 :=
        default (newModelData modelId) (mapGet (modelBreakdown st) modelId) in
      let modelData :=
        mkModelData (md_modelId modelData0) (md_cost modelData0)
                    (md_tokenUsage modelData0) (transactionCount modelData0 + 1) in
      let usage := currentTokenUsage t in
      let! cost := calculateCost now modelId usage (Some transactionDate) in
      let '(breakdown', modelData') :=
        match cost with
        | Some c =>
            (addCosts (costBreakdown st) c,
             mkModelData (md_modelId modelData)
                         (add (md_cost modelData) (Costs.total c))
                         (addUsage (md_tokenUsage modelData) usage)
                         (transactionCount modelData))
        | None =>
            (addFallback (costBreakdown st) t,
             mkModelData (md_modelId modelData)
                         (add (md_cost modelData) (fallbackCost t))
                         (md_tokenUsage modelData) (transactionCount modelData))
        end in
      Ok (mkAgg breakdown' (addUsage (tokenUsage st) usage)
                (mapSet (modelBreakdown st) modelId modelData') lastUpdated')
  end.

Fixpoint processAll (now : Z) (st : AggState) (transactions : list Transaction)
  : result AggState :=
  match transactions with
  | [] => Ok st
  | t :: rest =>
      let! st' := processTransaction now st t in
      processAll now st' rest
  end.

(** [Math.round]: the integer nearest to the exact value of the argument, a
    tie going up; a result of zero keeps the sign of the argument; the
    infinities, the zeros and NaN are returned as they are. *)
Definition Math_round (x : float) : float :=
  match x with
  | S754_finite s _ _ =>
      let n := Qfloor (toQ x + (1 # 2))%Q in
      if n =? 0 then S754_zero s else ofZ n
  | _ => x
  end.

(** [Math.round(x * 100000) / 100000] *)
Definition round5 (x : float) : float :=
  div (Math_round (mul x (ofZ 100000))) (ofZ 100000).

Record ModelEntry : Type := mkEntry {
  me_data : ModelData;
  me_provider : string;
  me_category : string;
}.

Definition withModelInfo (m : ModelData) : result ModelEntry :=
  let! modelInfo := getModelInfo (md_modelId m) in
  Ok (mkEntry m (orUnknown (info_provider <$> modelInfo))
                (orUnknown (info_category <$> modelInfo))).

(** [.sort((a, b) => b.cost - a.cost)]: a stable sort; [b] goes before [a]
    when the difference is positive. *)
Fixpoint insertByCost (x : ModelEntry) (l : list ModelEntry) : list ModelEntry :=
  match l with
  | [] => [x]
  | y :: l' =>
      if positive (sub (md_cost (me_data y)) (md_cost (me_data x)))
      then y :: insertByCost x l' else x :: y :: l'
  end.

Definition sortByCost (l : list ModelEntry) : list ModelEntry :=
  foldr insertByCost [] l.

Record ConversationCostSummary : Type := mkSummary {
  s_conversationId : string;
  totalCost : float;
  s_costBreakdown : CostBreakdown;
  s_tokenUsage : Totals.t;
  s_modelBreakdown : list ModelEntry;
  s_lastUpdated : JsDate.t;
}.

(** [costBreakdown.prompt + costBreakdown.completion + costBreakdown.cacheWrite
    + costBreakdown.cacheRead + costBreakdown.reasoning] *)
Definition sumBreakdown (b : CostBreakdown) : float :=
  add (add (add (add (cb_prompt b) (cb_completion b)) (cb_cacheWrite b))
           (cb_cacheRead b))
      (cb_reasoning b).

Definition roundBreakdown (b : CostBreakdown) : CostBreakdown :=
  mkBreakdown (round5 (cb_prompt b)) (round5 (cb_completion b))
              (round5 (cb_cacheWrite b)) (round5 (cb_cacheRead b))
              (round5 (cb_reasoning b)).

(** The statements after the loop. *)
Definition summarize (conversationId : string) (st : AggState)
  : result ConversationCostSummary :=
  let totalCost := sumBreakdown (costBreakdown st) in
  let! entries := mapResult withModelInfo (List.map snd (modelBreakdown st)) in
  let modelBreakdownArray := sortByCost entries in
  Ok (mkSummary conversationId (round5 totalCost) (roundBreakdown (costBreakdown st))
                (tokenUsage st) modelBreakdownArray (lastUpdated st)).

Definition costOfTransactions (now : Z) (conversationId : string)
    (transactions : option (list Transaction))
  : result (option ConversationCostSummary) :=
  match transactions with
  | None | Some [] => Ok None
  | Some txs =>
      let! st := processAll now initState txs in
      let! summary := summarize conversationId st in
      Ok (Some summary)
  end.

Definition calculateConversationCost (db : Db) (now : Z)
    (conversationId : string) (userId : option string)
  : result (option ConversationCostSummary) :=
  let! transactions := db conversationId (userFilter userId) in
  costOfTransactions now conversationId transactions.

End B64.

(** ** The cost widget of the client

    The component that computes a cost from the messages held in the client,
    with its own table of average prices. Its [formatCost] is the one of the
    server, word for word, and is not repeated. Model names are read as ASCII
    text. *)

Module Client.

Definition MODEL_PRICING : list (string * Q) := [
  ("gpt-4o", 10.0); ("gpt-4o-mini", 0.375); ("gpt-4-turbo", 20.0);
  ("gpt-4", 45.0); ("gpt-3.5-turbo", 1.0); ("o1", 37.5); ("o1-mini", 7.5);
  ("o1-preview", 37.5);
  ("claude-3-5-sonnet", 9.0); ("claude-3-5-haiku", 2.4); ("claude-3-opus", 45.0);
  ("claude-3-sonnet", 9.0); ("claude-3-haiku", 0.75); ("claude-2.1", 16.0);
  ("claude-2", 16.0);
  ("gemini-1.5-pro", 6.25); ("gemini-1.5-flash", 0.375);
  ("gemini-1.5-flash-8b", 0.1875); ("gemini-pro", 1.0); ("gemini-2.0", 0.375);
  ("default", 1.0)
]%Q.

(** [Object.keys(MODEL_PRICING)], in the order of the literal. *)
Definition keys : list string := List.map fst MODEL_PRICING.

Fixpoint lookupPrice (table : list (string * Q)) (key : string) : option Q :=
  match table with
  | [] => None
  | (k, v) :: rest => if String.eqb k key then Some v else lookupPrice rest key
  end.

Definition lowerChar (c : ascii) : ascii :=
  let n := nat_of_ascii c in
  if (Nat.leb 65 n && Nat.leb n 90)%bool then ascii_of_nat (n + 32) else c.

(** [toLowerCase] on ASCII text. *)
Definition toLowerCase (s : string) : list ascii :=
  List.map lowerChar (list_ascii_of_string s).

Fixpoint startsWith (s sub : list ascii) {struct sub} : bool :=
  match sub, s with
  | [], _ => true
  | c :: sub', d :: s' => (Ascii.eqb c d && startsWith s' sub')%bool
  | _ :: _, [] => false
  end.

(** [s.includes(sub)] *)
Fixpoint includes (s sub : list ascii) : bool :=
  (startsWith s sub
   || match s with
      | [] => false
      | _ :: s' => includes s' sub
      end)%bool.

(** The loop over the keys with its early [return]. *)
Fixpoint firstKeyIn (modelLower : list ascii) (ks : list string) : option string :=
  match ks with
  | [] => None
  | key :: rest =>
      if includes modelLower (toLowerCase key) then Some key
      else firstKeyIn modelLower rest
  end.

Definition getBaseModel (model : option string) : string :=
  match model with
  | None => "default"
  | Some m =>
      if String.eqb m "" then "default"
      else
        let modelLower := toLowerCase m in
        match firstKeyIn modelLower keys with
        | Some key => key
        | None =>
            if includes modelLower (list_ascii_of_string "gpt") then "gpt-3.5-turbo"
            else if includes modelLower (list_ascii_of_string "claude")
            then "claude-3-haiku"
            else if includes modelLower (list_ascii_of_string "gemini")
            then "gemini-1.5-flash"
            else "default"
      end
  end.

Record Usage : Type := mkUsageOf {
  prompt_tokens : option Z;
  completion_tokens : option Z;
}.

Record Tokens : Type := mkTokensOf {
  tk_prompt : option Z;
  tk_completion : option Z;
}.

Record Message : Type := mkMessage {
  msg_tokenCount : option Z;
  msg_usage : option Usage;
  msg_tokens : option Tokens;
  msg_model : option string;
}.

(** The token count that the loop extracts from a message; [None] where the
    callback returns early. *)
Definition tokenCountOf (message : Message) : option Z :=
  if (negb (truthyZ (msg_tokenCount message))
      && negb (bool_decide (is_Some (msg_tokens message)))
      && negb (bool_decide (is_Some (msg_usage message))))%bool
  then None
  else
    let tokenCount :=
      if truthyZ (msg_tokenCount message) then orZero (msg_tokenCount message)
      else match msg_usage message, msg_tokens message with
           | Some u, _ => orZero (prompt_tokens u) + orZero (completion_tokens u)
           | None, Some t => orZero (tk_prompt t) + orZero (tk_completion t)
           | None, None => 0
           end in
    if tokenCount =? 0 then None else Some tokenCount.

(** [message.model || 'default'] *)
Definition modelNameOf (message : Message) : string :=
  match msg_model message with
  | Some m => if String.eqb m "" then "default" else m
  | None => "default"
  end.

(** [MODEL_PRICING[baseModel] || MODEL_PRICING.default] *)
Definition pricePerMillion (baseModel : string) : Q :=
  let fallback := default 0%Q (lookupPrice MODEL_PRICING "default") in
  match lookupPrice MODEL_PRICING baseModel with
  | Some p => if Qeq_bool p 0 then fallback else p
  | None => fallback
  end.

Definition messageCost (model : string) (tokenCount : Z) : Q :=
  (inject_Z tokenCount / 1000000 * pricePerMillion (getBaseModel (Some model)))%Q.

Fixpoint costGet (m : list (string * Q)) (k : string) : option Q :=
  match m with
  | [] => None
  | (k', v) :: rest => if String.eqb k' k then Some v else costGet rest k
  end.

Fixpoint costSet (m : list (string * Q)) (k : string) (v : Q) : list (string * Q) :=
  match m with
  | [] => [(k, v)]
  | (k', v') :: rest =>
      if String.eqb k' k then (k', v) :: rest else (k', v') :: costSet rest k v
  end.

(** [modelCosts.get(model) || 0] *)
Definition costOr0 (m : list (string * Q)) (k : string) : Q :=
  match costGet m k with
  | Some v => v
  | None => 0%Q
  end.

Record Acc : Type := mkAcc {
  acc_totalCost : Q;
  acc_totalTokens : Z;
  modelCosts : list (string * Q);
}.

(** The callback of [messages.forEach]. *)
Definition addMessage (acc : Acc) (message : Message) : Acc :=
  match tokenCountOf message with
  | None => acc
  | Some tokenCount =>
      let model := modelNameOf message in
      let cost := messageCost model tokenCount in
      mkAcc (acc_totalCost acc + cost)%Q (acc_totalTokens acc + tokenCount)
            (costSet (modelCosts acc) model (costOr0 (modelCosts acc) model + cost)%Q)
  end.

(** The callback of [modelCosts.forEach], on the pair of [maxCost] and
    [primaryModel]. *)
Definition pickLarger (best : Q * string) (entry : string * Q) : Q * string :=
  if Fmt.Qltb (fst best) (snd entry) then (snd entry, fst entry) else best.

Definition primaryOf (costs : list (string * Q)) : string :=
  snd (foldl pickLarger (0%Q, "Unknown") costs).

Record CostData : Type := mkCostData {
  cd_totalCost : string;
  cd_totalCostRaw : Q;
  cd_primaryModel : string;
  cd_totalTokens : Z;
  cd_lastUpdated : Z;
}.

(** The body of [useMemo]: null without messages, the cost data otherwise. *)
Definition costData (now : Z) (messages : option (list Message)) : option CostData :=
  match messages with
  | None | Some [] => None
  | Some ms =>
      let acc := foldl addMessage (mkAcc 0 0 []) ms in
      Some (mkCostData (Fmt.formatCost (acc_totalCost acc)) (acc_totalCost acc)
                       (primaryOf (modelCosts acc)) (acc_totalTokens acc) now)
  end.

Definition getCostColorClass (cost : Q) : string :=
  if Fmt.Qltb cost 0.01 then "text-green-600 dark:text-green-400"
  else if Fmt.Qltb cost 0.1 then "text-yellow-600 dark:text-yellow-400"
  else if Fmt.Qltb cost 1 then "text-orange-600 dark:text-orange-400"
  else "text-red-600 dark:text-red-400".

End Client.

(** ** Vocabulary of the statements *)

(** The date lies in the closed interval from [effectiveFrom] to [effectiveTo],
    the interval being unbounded above when there is no [effectiveTo]. *)
Definition inInterval (period : PricingPeriod) (date : JsDate.t) : Prop :=
  exists t from,
    date = Some t /\ JsDate.parse (effectiveFrom period) = Some from /\ from <= t /\
    match effectiveTo period with
    | None => True
    | Some s => s = "" \/ exists e, JsDate.parse s = Some e /\ t <= e
    end.

Definition completionOnly (n : Z) : TokenUsage :=
  mkUsage None (Some n) None None None.

Definition completionTx (m : string) (day : string) (amount : Z) : Transaction :=
  mkTx (Some m) (JsDate.parse day) (Some "completion") (Some amount)
       None None None None.

(** The cost of one category in the words of the specification: the token
    count times the unit price per million tokens when the count is not zero
    and the period has a price for the category, and 0 otherwise. *)
Definition categoryCost (n : option Z) (price : option Q) : Q :=
  match price with
  | Some p => if truthyZ n then (inject_Z (orZero n) * (p / 1000000))%Q else 0%Q
  | None => 0%Q
  end.

(** The per-model entry of [m] as the loop sees it: the stored entry, or the
    fresh one that the loop would create. *)
Definition entryOf (st : AggState) (m : string) : ModelData :=
  default (newModelData m) (mapGet (modelBreakdown st) m).

(** The treatment of a pricing miss in the words of the specification: the
    transaction adds nothing to the total, to the breakdown and to the cost of
    its model, and its token counts are added to the overall totals and to
    the entry of its model. *)
Definition missCostsNothing (now : Z) (st : AggState) (t : Transaction) : Prop :=
  forall m,
    modelOf t = Some m ->
    getPricingForDate m (newDate (createdAt t)) = Ok None ->
    exists st',
      processTransaction now st t = Ok st' /\
      (sumBreakdown (costBreakdown st') == sumBreakdown (costBreakdown st))%Q /\
      (md_cost (entryOf st' m) == md_cost (entryOf st m))%Q /\
      tokenUsage st' = addUsage (tokenUsage st) (currentTokenUsage t) /\
      md_tokenUsage (entryOf st' m)
        = addUsage (md_tokenUsage (entryOf st m)) (currentTokenUsage t).

(** A completion transaction of a model that the pricing table does not know,
    with the value that the ledger stored for it. *)
Definition unknownModelTx : Transaction :=
  mkTx (Some "unknown-model-xyz") (JsDate.parse "2024-06-01") (Some "completion")
       (Some (-1000)) None None None (Some (-1500)%Q).

Definition sumTotals (u : Totals.t) : Z :=
  Totals.promptTokens u + Totals.completionTokens u + Totals.cacheWriteTokens u
  + Totals.cacheReadTokens u + Totals.reasoningTokens u.

Definition sumModelTokens (entries : list ModelEntry) : Z :=
  foldr (fun e acc => sumTotals (md_tokenUsage (me_data e)) + acc) 0 entries.

(** A database that holds the same transactions for every conversation. *)
Definition storing (transactions : list Transaction) : Db :=
  fun _ _ => Ok (Some transactions).

(** A completion transaction of a priced model that lacks [createdAt]. *)
Definition undatedTx : Transaction :=
  mkTx (Some "gpt-4") None (Some "completion") (Some (-1000)) None None None
       (Some (-60000)%Q).

(** A transaction with neither model nor timestamp. *)
Definition bareTx : Transaction :=
  mkTx None None (Some "prompt") (Some (-500)) None None None None.

(** The timestamps that the records carry, in input order. *)
Definition timestamps (transactions : list Transaction) : list Z :=
  omap createdAt transactions.

(** [lastUpdated] in the words of the specification: the maximum timestamp of
    the records, or the current time when no record has one. *)
Definition lastUpdatedAsSpecified (now : Z) (transactions : list Transaction)
    (s : ConversationCostSummary) : Prop :=
  match timestamps transactions with
  | [] => s_lastUpdated s = Some now
  | x :: xs => s_lastUpdated s = Some (foldl Z.max x xs)
  end.

(** Three transactions of one model, the latest in the middle. *)
Definition threeDated : list Transaction :=
  [completionTx "gpt-4" "2024-06-01T10:00:00Z" (-500);
   completionTx "gpt-4" "2024-06-01T15:00:00Z" (-500);
   completionTx "gpt-4" "2024-06-01T12:00:00Z" (-500)].

(** A database in which fetching the conversation [bad] fails and every other
    conversation holds the given transactions. *)
Definition failingAt (bad : string) (transactions : list Transaction) : Db :=
  fun conversationId _ =>
    if String.eqb conversationId bad then Throw (DbError "connection lost")
    else Ok (Some transactions).

(** A transaction dated one day before the epoch. *)
Definition preEpochTx : Transaction := completionTx "gpt-4" "1969-12-31" (-1000).

(** The bounds of a period as the loop of [getPricingForDate] reads them: the
    parsed start, and the parsed end when there is one. A period whose texts
    do not parse has no bounds and matches no date. *)
Definition periodBounds (period : PricingPeriod) : option (Z * option Z) :=
  match JsDate.parse (effectiveFrom period) with
  | None => None
  | Some from =>
      match effectiveTo period with
      | None => Some (from, None)
      | Some s =>
          if String.eqb s "" then Some (from, None)
          else match JsDate.parse s with
               | Some e => Some (from, Some e)
               | None => None
               end
      end
  end.

(** Two periods share no date. *)
Definition disjointPeriods (p q : PricingPeriod) : bool :=
  match periodBounds p, periodBounds q with
  | Some (f1, h1), Some (f2, h2) =>
      match h1 with Some e1 => e1 <? f2 | None => false end
      || match h2 with Some e2 => e2 <? f1 | None => false end
  | _, _ => true
  end.

Fixpoint pairwiseDisjoint (periods : list PricingPeriod) : bool :=
  match periods with
  | [] => true
  | p :: rest => forallb (disjointPeriods p) rest && pairwiseDisjoint rest
  end.

(** The unit prices of a period are not negative. *)
Definition pricesNonNegative (p : PricingPeriod) : bool :=
  Qle_bool 0 (prompt p) && Qle_bool 0 (completion p)
  && match cache p with
     | Some c => Qle_bool 0 (write c) && Qle_bool 0 (read c)
     | None => true
     end
  && match reasoning p with
     | Some r => Qle_bool 0 (tokens r)
     | None => true
     end.

(** The usage object that carries the counts of two usages together. *)
Definition addUsages (u v : TokenUsage) : TokenUsage :=
  mkUsage (Some (orZero (promptTokens u) + orZero (promptTokens v)))
          (Some (orZero (completionTokens u) + orZero (completionTokens v)))
          (Some (orZero (cacheWriteTokens u) + orZero (cacheWriteTokens v)))
          (Some (orZero (cacheReadTokens u) + orZero (cacheReadTokens v)))
          (Some (orZero (reasoningTokens u) + orZero (reasoningTokens v))).

(** No count of the usage is negative. *)
Definition usageNonNegative (u : TokenUsage) : Prop :=
  0 <= orZero (promptTokens u) /\ 0 <= orZero (completionTokens u) /\
  0 <= orZero (cacheWriteTokens u) /\ 0 <= orZero (cacheReadTokens u) /\
  0 <= orZero (reasoningTokens u).

(** The earlier of the two periods of gpt-3.5-turbo. *)
Definition turboUntilJanuary : PricingPeriod :=
  mkPeriod "2023-11-06T00:00:00Z" (Some "2024-01-24T23:59:59Z") 1.0 2.0 None None.

(** Sums over the per-model entries, in the map of the loop and in the array
    of the summary. *)
Definition sumOver (f : ModelData -> Z) (m : ModelMap) : Z :=
  foldr (fun kv acc => f (snd kv) + acc) 0 m.

Definition sumEntries (f : ModelData -> Z) (entries : list ModelEntry) : Z :=
  foldr (fun e acc => f (me_data e) + acc) 0 entries.

(** All the tokens that one usage object counts. *)
Definition usageSum (u : TokenUsage) : Z :=
  orZero (promptTokens u) + orZero (completionTokens u)
  + orZero (cacheWriteTokens u) + orZero (cacheReadTokens u)
  + orZero (reasoningTokens u).

(** The tokens of the transactions that name a model without pricing entry. *)
Definition unpricedTokens (transactions : list Transaction) : Z :=
  foldr (fun t acc =>
           match modelOf t with
           | Some m =>
               match lookupModel PRICING_CONFIG m with
               | Some _ => 0
               | None => usageSum (currentTokenUsage t)
               end
           | None => 0
           end + acc) 0 transactions.

(** The transactions of priced, of unknown and of no model that the examples
    below put together. *)
Definition mixedTransactions : list Transaction :=
  [completionTx "gpt-4" "2024-06-01" (-1000);
   unknownModelTx;
   bareTx;
   mkTx (Some "claude-3-5-sonnet") (JsDate.parse "2024-07-01") (Some "prompt")
        None (Some 2000) (Some 500) (Some 300) None;
   completionTx "gpt-4" "2024-06-02" (-500)].

(** The entries are listed with the larger cost first. *)
Fixpoint descending (entries : list ModelEntry) : Prop :=
  match entries with
  | [] => True
  | x :: rest =>
      Forall (fun y => (md_cost (me_data y) <= md_cost (me_data x))%Q) rest
      /\ descending rest
  end.

(** The entries of a given cost. *)
Definition withCost (q : Q) (entries : list ModelEntry) : list ModelEntry :=
  List.filter (fun e => Qeq_bool (md_cost (me_data e)) q) entries.

(** The model identifiers of the entries of a summary. *)
Definition modelsOf (entries : list ModelEntry) : list string :=
  List.map (fun e => md_modelId (me_data e)) entries.

(** A transaction that names a priced model carries its timestamp. *)
Definition datedIfPriced (t : Transaction) : Prop :=
  forall m, modelOf t = Some m -> is_Some (lookupModel PRICING_CONFIG m) ->
            is_Some (createdAt t).

(** No field of the breakdown, and no token counter, is negative. *)
Definition breakdownNonNegative (b : CostBreakdown) : Prop :=
  (0 <= cb_prompt b /\ 0 <= cb_completion b /\ 0 <= cb_cacheWrite b /\
   0 <= cb_cacheRead b /\ 0 <= cb_reasoning b)%Q.

Definition totalsNonNegative (u : Totals.t) : Prop :=
  0 <= Totals.promptTokens u /\ 0 <= Totals.completionTokens u /\
  0 <= Totals.cacheWriteTokens u /\ 0 <= Totals.cacheReadTokens u /\
  0 <= Totals.reasoningTokens u.

(** What one transaction adds to the token totals. *)
Definition countedUsage (t : Transaction) : TokenUsage :=
  if modelOf t is Some _ then currentTokenUsage t else emptyUsage.

(** Reading back a text of digits, a point and digits as the number it
    denotes; and reading back a displayed cost behind its dollar sign. *)
Definition readDecimal (cs : list ascii) : option Q :=
  match Fmt.dropDigits cs with
  | "."%char :: frac =>
      match JsDate.numeral 0 (Fmt.takeDigits cs ++ frac) with
      | Some n => Some (inject_Z n / inject_Z (10 ^ Z.of_nat (List.length frac)))%Q
      | None => None
      end
  | _ => None
  end.

Definition readCost (s : string) : option Q :=
  match list_ascii_of_string s with
  | "$"%char :: rest => readDecimal rest
  | _ => None
  end.

(** The keys of the client table that contain an earlier key. *)
Definition shadowedKeys : list string :=
  ["gpt-4o-mini"; "o1-mini"; "o1-preview"; "gemini-1.5-flash-8b"].

(** [k0] is listed before [k]. *)
Fixpoint comesBefore (k0 k : string) (ks : list string) : bool :=
  match ks with
  | [] => false
  | x :: rest =>
      if String.eqb x k then false
      else (String.eqb x k0 || comesBefore k0 k rest)%bool
  end.

(** Every message that counts carries a positive number of tokens. *)
Definition positiveCounts (messages : list Client.Message) : Prop :=
  Forall (fun m => forall n, Client.tokenCountOf m = Some n -> 0 < n) messages.

(** Messages for the examples of the client widget. *)
Definition clientMessages : list Client.Message :=
  [Client.mkMessage (Some 500) None None None;
   Client.mkMessage (Some 1000) None None (Some "gpt-4o-mini-2024-07-18");
   Client.mkMessage None (Some (Client.mkUsageOf (Some 300) (Some 700))) None
     (Some "Claude-3-Opus");
   Client.mkMessage None None None (Some "gpt-4")].

(** The model that a transaction names, if any, is not a name that the
    pricing table inherits from [Object.prototype]. *)
Definition properlyNamed (t : Transaction) : Prop :=
  forall m, modelOf t = Some m -> inherited m = false.

(** The entry of the summary for a per-model record, and the summary that the
    statements after the loop build, when no look-up of model information
    throws. *)
Definition entryFor (m : ModelData) : ModelEntry :=
  let config := lookupModel PRICING_CONFIG (md_modelId m) in
  mkEntry m (orUnknown (provider <$> config)) (orUnknown (category <$> config)).

Definition summaryOf (conversationId : string) (st : AggState)
  : ConversationCostSummary :=
  mkSummary conversationId (round5 (sumBreakdown (costBreakdown st)))
            (roundBreakdown (costBreakdown st)) (tokenUsage st)
            (sortByCost (List.map (fun kv => entryFor (snd kv)) (modelBreakdown st)))
            (lastUpdated st).

(** The loop body runs through on the transaction. *)
Definition processable (t : Transaction) : Prop :=
  properlyNamed t /\ datedIfPriced t.

(** What the loop body throws, when it throws. *)
Definition thrownBy (t : Transaction) (e : error) : Prop :=
  (~ properlyNamed t /\ e = TypeError "modelConfig.pricing is not iterable")
  \/ (properlyNamed t /\ ~ datedIfPriced t /\ e = RangeError "Invalid time value").

(** No per-model record carries a name inherited from [Object.prototype]. *)
Definition properNames (st : AggState) : Prop :=
  Forall (fun kv => inherited (md_modelId (snd kv)) = false) (modelBreakdown st).

(** A prompt transaction of the plain kind, with its count in [rawAmount]. *)
Definition promptTx (m : string) (day : string) (amount : Z) : Transaction :=
  mkTx (Some m) (JsDate.parse day) (Some "prompt") (Some amount)
       None None None None.

(** Four transactions of gpt-4o, and the same with the last two exchanged. *)
Definition fourOfGpt4o : list Transaction :=
  [promptTx "gpt-4o" "2024-06-01" (-29); completionTx "gpt-4o" "2024-06-01" (-16);
   promptTx "gpt-4o" "2024-06-01" (-23); promptTx "gpt-4o" "2024-06-01" (-11)].

Definition fourOfGpt4oSwapped : list Transaction :=
  [promptTx "gpt-4o" "2024-06-01" (-29); completionTx "gpt-4o" "2024-06-01" (-16);
   promptTx "gpt-4o" "2024-06-01" (-11); promptTx "gpt-4o" "2024-06-01" (-23)].

(** The treatment of a record without a model in the words of the
    specification: the count that it carries is added to the prompt tokens
    and nothing is added to the completion tokens. *)
Definition countedAsPrompt (now : Z) (st : AggState) (t : Transaction) : Prop :=
  forall n,
    modelOf t = None -> rawAmount t = Some n ->
    exists st',
      processTransaction now st t = Ok st' /\
      Totals.promptTokens (tokenUsage st')
        = Totals.promptTokens (tokenUsage st) + Z.abs n /\
      Totals.completionTokens (tokenUsage st')
        = Totals.completionTokens (tokenUsage st).

(** Two states of the loop that differ at most in [lastUpdated]. *)
Definition sameAmounts (a b : AggState) : Prop :=
  costBreakdown a = costBreakdown b /\ tokenUsage a = tokenUsage b /\
  modelBreakdown a = modelBreakdown b.




(** * Sanity checks on concrete inputs *)

Example parse_2024_05_13 : JsDate.parse "2024-05-13T00:00:00Z" = Some 1715558400000.
Proof. reflexivity. Qed.

Example parse_2023_11_10 : JsDate.parse "2023-11-10" = Some 1699574400000.
Proof. reflexivity. Qed.

Example parse_junk : JsDate.parse "yesterday" = None.
Proof. reflexivity. Qed.

Example toFixed_0003 : Fmt.formatCost 0.003 = "$0.0030".
Proof. vm_compute. reflexivity. Qed.

Example toFixed_006 : Fmt.formatCost 0.06 = "$0.060".
Proof. vm_compute. reflexivity. Qed.

Example toFixed_768 : Fmt.formatCost 7.68 = "$7.68".
Proof. vm_compute. reflexivity. Qed.

Example toFixed_tiny : Fmt.formatCost 0.0002 = "<$0.001".
Proof. vm_compute. reflexivity. Qed.

Example toFixed_round_up : Fmt.formatCost 0.9996 = "$1.000".
Proof. vm_compute. reflexivity. Qed.

Example toFixed_huge : Fmt.formatCost (inject_Z (10 ^ 21)) = "$1e+21".
Proof. vm_compute. reflexivity. Qed.

Example toFixed_huge2 : Fmt.formatCost (inject_Z (125 * 10 ^ 22)) = "$1.25e+24".
Proof. vm_compute. reflexivity. Qed.

Example toFixed_below_huge : Fmt.formatCost (inject_Z (10 ^ 21 - 1)) = "$999999999999999999999.00".
Proof. vm_compute. reflexivity. Qed.

Example backend_historical_pricing :
  match costOfTransactions 0 "c1"
          (Some [completionTx "gpt-3.5-turbo" "2023-11-10" (-1000);
                 completionTx "gpt-3.5-turbo" "2024-06-01" (-1000)]) with
  | Ok (Some s) => Qeq_bool (totalCost s) 0.0035 = true
  | _ => False
  end.
Proof. vm_compute. reflexivity. Qed.

(** * Pricing resolution *)

Lemma periodContains_inInterval period date :
  periodContains period date = true <-> inInterval period date.
Proof.
  unfold periodContains, inInterval, JsDate.geb, JsDate.leb.
  split.
  - intros H. apply andb_prop in H as [Hfrom Hto].
    destruct date as [t|]; [|discriminate].
    destruct (JsDate.parse (effectiveFrom period)) as [from|]; [|discriminate].
    exists t, from. repeat split; [lia|].
    destruct (effectiveTo period) as [s|]; [|exact I].
    destruct (String.eqb_spec s ""); [now left|right].
    destruct (JsDate.parse s) as [e|]; [|discriminate].
    exists e. split; [reflexivity|lia].
  - intros (t & from & -> & -> & Hle & Hto).
    apply andb_true_intro. split; [lia|].
    destruct (effectiveTo period) as [s|]; [|reflexivity].
    destruct (String.eqb_spec s ""); [reflexivity|].
    destruct Hto as [?|(e & -> & ?)]; [contradiction|lia].
Qed.

Lemma scanPeriods_Some periods date period :
  scanPeriods periods date = Some period ->
  exists before after,
    periods = before ++ period :: after /\
    Forall (fun q => ~ inInterval q date) before /\ inInterval period date.
Proof.
  induction periods as [|q rest IH]; simpl; [discriminate|].
  destruct (periodContains q date) eqn:Hq.
  - intros [= ->]. exists [], rest. repeat split; [constructor|].
    now apply periodContains_inInterval.
  - intros H. destruct (IH H) as (before & after & -> & Hb & Hp).
    exists (q :: before), after. repeat split; [|exact Hp].
    constructor; [|exact Hb].
    rewrite <- periodContains_inInterval, Hq. discriminate.
Qed.

Lemma scanPeriods_None periods date :
  scanPeriods periods date = None ->
  Forall (fun q => ~ inInterval q date) periods.
Proof.
  induction periods as [|q rest IH]; simpl; [constructor|].
  destruct (periodContains q date) eqn:Hq; [discriminate|].
  intros H. constructor; [|now apply IH].
  rewrite <- periodContains_inInterval, Hq. discriminate.
Qed.

Lemma every_model_has_a_period :
  Forall (fun kv => pricing (snd kv) <> []) PRICING_CONFIG.
Proof. unfold PRICING_CONFIG. repeat constructor; discriminate. Qed.

Lemma lookupModel_In table modelId cfg :
  lookupModel table modelId = Some cfg -> In (modelId, cfg) table.
Proof.
  induction table as [|[k v] rest IH]; simpl; [discriminate|].
  destruct (String.eqb_spec k modelId) as [->|].
  - intros [= ->]. now left.
  - intros H. right. now apply IH.
Qed.

Lemma getProperty_own table modelId cfg :
  lookupModel table modelId = Some cfg -> getProperty table modelId = Own cfg.
Proof. intros H. unfold getProperty. now rewrite H. Qed.

Lemma getProperty_undefined table modelId :
  lookupModel table modelId = None -> inherited modelId = false ->
  getProperty table modelId = Undefined.
Proof. intros H Hi. unfold getProperty. now rewrite H, Hi. Qed.

Lemma getProperty_inherited table modelId :
  lookupModel table modelId = None -> inherited modelId = true ->
  getProperty table modelId = Inherited.
Proof. intros H Hi. unfold getProperty. now rewrite H, Hi. Qed.

Lemma inherited_not_own modelId :
  inherited modelId = true -> lookupModel PRICING_CONFIG modelId = None.
Proof.
  unfold inherited, objectPrototypeKeys. cbn [existsb].
  intros H. repeat (apply orb_prop in H as [H|H]);
    try discriminate H; apply String.eqb_eq in H; subst; reflexivity.
Qed.

(** C1. For a model with a pricing entry, [getPricingForDate] returns the
    first listed period whose closed interval contains the date, and the last
    listed period when none does. Records of gpt-3.5-turbo dated 2023-11-10
    and 2024-06-01 are priced at 2.0 and 1.5 per million completion tokens, so
    that 1000 completion tokens each cost 0.0035 together. For a model
    without an entry it returns null, unless the name is one that the table
    inherits from [Object.prototype], such as "constructor": there it throws
    a TypeError. *)
Theorem getPricingForDate_first_match :
  (forall (modelId : string) (date : JsDate.t),
     match lookupModel PRICING_CONFIG modelId with
     | None =>
         if inherited modelId
         then getPricingForDate modelId date
              = Throw (TypeError "modelConfig.pricing is not iterable")
         else getPricingForDate modelId date = Ok None
     | Some cfg =>
         (exists period, getPricingForDate modelId date = Ok (Some period)) /\
         ((exists before period after,
              pricing cfg = before ++ period :: after /\
              Forall (fun q => ~ inInterval q date) before /\
              inInterval period date /\
              getPricingForDate modelId date = Ok (Some period))
          \/ (Forall (fun q => ~ inInterval q date) (pricing cfg) /\
              getPricingForDate modelId date = Ok (last (pricing cfg))))
     end) /\
  (lookupModel PRICING_CONFIG "constructor" = None /\
   forall date, getPricingForDate "constructor" date
                = Throw (TypeError "modelConfig.pricing is not iterable")) /\
  (exists old new c_old c_new,
     getPricingForDate "gpt-3.5-turbo" (JsDate.parse "2023-11-10") = Ok (Some old) /\
     getPricingForDate "gpt-3.5-turbo" (JsDate.parse "2024-06-01") = Ok (Some new) /\
     completion old == 2.0 /\ completion new == 1.5 /\
     calculateCost 0 "gpt-3.5-turbo" (completionOnly 1000)
       (Some (JsDate.parse "2023-11-10")) = Ok (Some c_old) /\
     calculateCost 0 "gpt-3.5-turbo" (completionOnly 1000)
       (Some (JsDate.parse "2024-06-01")) = Ok (Some c_new) /\
     Costs.pricing c_old = old /\ Costs.pricing c_new = new /\
     Costs.total c_old + Costs.total c_new == 0.0035)%Q.
Proof.
  split; [|split].
  - intros modelId date.
    unfold getPricingForDate, getPricingForDateIn, getProperty.
    destruct (lookupModel PRICING_CONFIG modelId) as [cfg|] eqn:Hcfg;
      [|destruct (inherited modelId); reflexivity].
    assert (Hne : pricing cfg <> []).
    { apply lookupModel_In in Hcfg.
      pose proof every_model_has_a_period as Hall.
      rewrite List.Forall_forall in Hall. exact (Hall _ Hcfg). }
    destruct (scanPeriods (pricing cfg) date) as [period|] eqn:Hscan.
    + split; [eauto|]. left.
      destruct (scanPeriods_Some _ _ _ Hscan) as (before & after & Heq & Hb & Hp).
      exists before, period, after. auto.
    + split.
      * destruct (pricing cfg) as [|q rest] using rev_ind; [contradiction|].
        rewrite last_snoc. eauto.
      * right. split; [now apply scanPeriods_None|reflexivity].
  - split; [reflexivity|]. intros date. reflexivity.
  - eexists _, _, _, _.
    repeat split; try (vm_compute; reflexivity).
Qed.

(** * Cost of one usage *)

Lemma perMillion_categoryCost n p :
  (perMillion n p == inject_Z (orZero n) * (p / 1000000))%Q.
Proof. unfold perMillion. field. Qed.

Lemma mandatory_price_agrees n p :
  ((if truthyZ n then perMillion n p else 0) == categoryCost n (Some p))%Q.
Proof.
  unfold categoryCost. destruct (truthyZ n); [|reflexivity].
  apply perMillion_categoryCost.
Qed.

Lemma optional_price_agrees n price :
  ((if truthyZ n && truthyQ price then perMillion n (default 0 price) else 0)
   == categoryCost n price)%Q.
Proof.
  unfold categoryCost, truthyQ.
  destruct price as [p|]; simpl.
  - destruct (truthyZ n); simpl; [|reflexivity].
    destruct (Qeq_bool p 0) eqn:Hp; simpl.
    + apply Qeq_bool_eq in Hp. rewrite Hp. field.
    + apply perMillion_categoryCost.
  - now rewrite andb_false_r.
Qed.

(** C2. When the pricing of a model resolves at the date of the call (the
    date passed, or the current time when none is passed), [calculateCost]
    returns the five category costs, each the token count times the unit price
    per million when the count is not zero and the period has that price, and
    0 otherwise, together with a total that is the sum of the five. *)
Theorem calculateCost_categories
    (now : Z) (modelId : string) (usage : TokenUsage) (dateArg : option JsDate.t)
    (t : Z) (period : PricingPeriod) :
  orNow now dateArg = Some t ->
  getPricingForDate modelId (Some t) = Ok (Some period) ->
  exists c,
    calculateCost now modelId usage dateArg = Ok (Some c) /\
    Costs.pricing c = period /\
    (Costs.prompt c == categoryCost (promptTokens usage) (Some (prompt period)) /\
     Costs.completion c
       == categoryCost (completionTokens usage) (Some (completion period)) /\
     Costs.cacheWrite c
       == categoryCost (cacheWriteTokens usage) (write <$> cache period) /\
     Costs.cacheRead c
       == categoryCost (cacheReadTokens usage) (read <$> cache period) /\
     Costs.reasoning c
       == categoryCost (reasoningTokens usage) (tokens <$> reasoning period))%Q /\
    Costs.total c
      = (Costs.prompt c + Costs.completion c + Costs.cacheWrite c
         + Costs.cacheRead c + Costs.reasoning c)%Q.
Proof.
  intros Hd Hp. unfold calculateCost, calculateCostIn. rewrite Hd.
  fold (getPricingForDate modelId (Some t)). rewrite Hp. simpl.
  eexists. split; [reflexivity|]. simpl.
  split; [reflexivity|]. split; [|reflexivity].
  repeat split;
    first [apply mandatory_price_agrees | apply optional_price_agrees].
Qed.

Lemma calculateCost_categories_witness :
  exists c,
    calculateCost 0 "claude-3-5-sonnet"
      (mkUsage None (Some 1000) (Some 500) (Some 300) None)
      (Some (Some 1719792000000)) = Ok (Some c) /\
    (Costs.completion c == 0.015 /\ Costs.cacheWrite c == 0.001875 /\
     Costs.cacheRead c == 0.00009 /\ Costs.total c == 0.016965)%Q.
Proof.
  destruct (calculateCost_categories 0 "claude-3-5-sonnet"
              (mkUsage None (Some 1000) (Some 500) (Some 300) None)
              (Some (Some 1719792000000)) 1719792000000
              (mkPeriod "2024-06-20T00:00:00Z" None 3.0 15.0
                 (Some (mkCache 3.75 0.3)) None) eq_refl eq_refl)
    as (c & Hc & _ & (Hp & Hco & Hw & Hr & Hre) & Ht).
  exists c. split; [exact Hc|].
  rewrite Ht, Hp, Hco, Hw, Hr, Hre. repeat split; vm_compute; reflexivity.
Defined.

(** * The loop body on a pricing miss *)

Lemma mapGet_mapSet_eq m k v : mapGet (mapSet m k v) k = Some v.
Proof.
  induction m as [|[k' v'] rest IH]; simpl.
  - now rewrite String.eqb_refl.
  - destruct (String.eqb k' k) eqn:E; simpl; rewrite E; [reflexivity|exact IH].
Qed.

Lemma mapGet_mapSet_ne m k k' v : k <> k' -> mapGet (mapSet m k v) k' = mapGet m k'.
Proof.
  intros Hne. induction m as [|[k0 v0] rest IH]; simpl.
  - destruct (String.eqb_spec k k'); [contradiction|reflexivity].
  - destruct (String.eqb_spec k0 k) as [->|]; simpl.
    + destruct (String.eqb_spec k k'); [contradiction|reflexivity].
    + destruct (String.eqb k0 k'); [reflexivity|exact IH].
Qed.

Lemma entryOf_mapSet b u mb l m v : entryOf (mkAgg b u (mapSet mb m v) l) m = v.
Proof. unfold entryOf. simpl. now rewrite mapGet_mapSet_eq. Qed.

Lemma calculateCost_miss now m usage date :
  calculateCost now m usage (Some date) = Ok None
  <-> getPricingForDate m date = Ok None.
Proof.
  unfold calculateCost, calculateCostIn, getPricingForDate, orNow.
  destruct (getPricingForDateIn PRICING_CONFIG m date) as [[p|]|e]; simpl.
  - split; [|discriminate].
    destruct (JsDate.toISOString date); simpl; discriminate.
  - split; reflexivity.
  - split; discriminate.
Qed.

Lemma sumBreakdown_addFallback b t :
  (sumBreakdown (addFallback b t) == sumBreakdown b + fallbackCost t)%Q.
Proof.
  unfold addFallback, sumBreakdown.
  destruct (isType t "completion"); simpl; ring.
Qed.

Lemma fallbackCost_absent t : tokenValue t = None -> (fallbackCost t == 0)%Q.
Proof. unfold fallbackCost. intros ->. reflexivity. Qed.

(** What one iteration does when [calculateCost] answers null. *)
Lemma processTransaction_miss now st t m :
  modelOf t = Some m ->
  getPricingForDate m (newDate (createdAt t)) = Ok None ->
  processTransaction now st t
  = Ok (mkAgg (addFallback (costBreakdown st) t)
              (addUsage (tokenUsage st) (currentTokenUsage t))
              (mapSet (modelBreakdown st) m
                 (mkModelData (md_modelId (entryOf st m))
                    (md_cost (entryOf st m) + fallbackCost t)
                    (md_tokenUsage (entryOf st m))
                    (transactionCount (entryOf st m) + 1)))
              (if JsDate.gtb (newDate (createdAt t)) (lastUpdated st)
               then newDate (createdAt t) else lastUpdated st)).
Proof.
  intros Hm Hmiss. unfold processTransaction. rewrite Hm.
  apply (calculateCost_miss now m (currentTokenUsage t)) in Hmiss.
  rewrite Hmiss. reflexivity.
Qed.

(** C3, as the code has it. On a pricing miss the transaction contributes the
    fallback cost |tokenValue| / 1,000,000 (nothing when no value is stored)
    to the total of the breakdown and to the cost of its model; its token
    counts are added to the overall token totals and the transaction is
    counted in the entry of its model. *)
Theorem pricing_miss_contribution
    (now : Z) (st : AggState) (t : Transaction) (m : string) :
  modelOf t = Some m ->
  getPricingForDate m (newDate (createdAt t)) = Ok None ->
  exists st',
    processTransaction now st t = Ok st' /\
    (sumBreakdown (costBreakdown st')
     == sumBreakdown (costBreakdown st) + fallbackCost t)%Q /\
    (md_cost (entryOf st' m) == md_cost (entryOf st m) + fallbackCost t)%Q /\
    (tokenValue t = None -> fallbackCost t == 0)%Q /\
    tokenUsage st' = addUsage (tokenUsage st) (currentTokenUsage t) /\
    transactionCount (entryOf st' m) = transactionCount (entryOf st m) + 1.
Proof.
  intros Hm Hmiss. eexists. split; [exact (processTransaction_miss now st t m Hm Hmiss)|].
  rewrite !entryOf_mapSet. simpl.
  repeat split.
  - apply sumBreakdown_addFallback.
  - apply fallbackCost_absent.
Qed.

Lemma pricing_miss_contribution_witness :
  exists st',
    processTransaction 0 initState unknownModelTx = Ok st' /\
    (sumBreakdown (costBreakdown st') == 0.0015)%Q /\
    Totals.completionTokens (tokenUsage st') = 1000.
Proof.
  destruct (pricing_miss_contribution 0 initState unknownModelTx
              "unknown-model-xyz" eq_refl eq_refl)
    as (st' & Hst & Hsum & _ & _ & Htok & _).
  exists st'. split; [exact Hst|]. split.
  - rewrite Hsum. vm_compute. reflexivity.
  - rewrite Htok. reflexivity.
Defined.

(** C3 as stated fails: the transaction of an unknown model that carries a
    stored value is not free, and its tokens do not reach the entry of its
    model. *)
Lemma pricing_miss_not_free : ~ missCostsNothing 0 initState unknownModelTx.
Proof.
  intros H.
  destruct (H "unknown-model-xyz" eq_refl eq_refl) as (st' & Hst & Hsum & _).
  vm_compute in Hst. injection Hst as <-.
  vm_compute in Hsum. discriminate Hsum.
Qed.

(** C10. When [calculateCost] answers null, the fallback cost
    |tokenValue| / 1,000,000 goes to the completion field of the breakdown if
    the token type is completion and to the prompt field otherwise, and to the
    cost of the model; the token counts go to the overall totals while the
    token usage of the model's entry, and every other entry, stay as they
    were. A conversation can therefore report more tokens overall than its
    per-model entries add up to. *)
Theorem pricing_miss_frame :
  (forall (now : Z) (st : AggState) (t : Transaction) (m : string),
     modelOf t = Some m ->
     calculateCost now m (currentTokenUsage t) (Some (newDate (createdAt t)))
       = Ok None ->
     exists st',
       processTransaction now st t = Ok st' /\
       fallbackCost t = (Qabs (default 0 (tokenValue t)) / 1000000)%Q /\
       costBreakdown st'
         = (let b := costBreakdown st in
            if isType t "completion"
            then mkBreakdown (cb_prompt b) (cb_completion b + fallbackCost t)
                             (cb_cacheWrite b) (cb_cacheRead b) (cb_reasoning b)
            else mkBreakdown (cb_prompt b + fallbackCost t) (cb_completion b)
                             (cb_cacheWrite b) (cb_cacheRead b) (cb_reasoning b)) /\
       md_cost (entryOf st' m) = (md_cost (entryOf st m) + fallbackCost t)%Q /\
       tokenUsage st' = addUsage (tokenUsage st) (currentTokenUsage t) /\
       md_tokenUsage (entryOf st' m) = md_tokenUsage (entryOf st m) /\
       (forall m', m <> m' ->
                   mapGet (modelBreakdown st') m' = mapGet (modelBreakdown st) m')) /\
  (exists s,
     costOfTransactions 0 "c1" (Some [unknownModelTx]) = Ok (Some s) /\
     sumModelTokens (s_modelBreakdown s) < sumTotals (s_tokenUsage s)).
Proof.
  split.
  - intros now st t m Hm Hmiss. apply calculateCost_miss in Hmiss.
    eexists. split; [exact (processTransaction_miss now st t m Hm Hmiss)|].
    rewrite !entryOf_mapSet. simpl.
    repeat split.
    intros m' Hne. now apply mapGet_mapSet_ne.
  - eexists. split; [vm_compute; reflexivity|]. vm_compute. reflexivity.
Qed.

Lemma pricing_miss_frame_witness :
  exists st',
    processTransaction 0 initState unknownModelTx = Ok st' /\
    (cb_completion (costBreakdown st') == 0.0015)%Q /\
    Totals.completionTokens (tokenUsage st') = 1000 /\
    Totals.completionTokens (md_tokenUsage (entryOf st' "unknown-model-xyz")) = 0.
Proof.
  destruct (proj1 pricing_miss_frame 0 initState unknownModelTx
              "unknown-model-xyz" eq_refl eq_refl)
    as (st' & Hst & _ & Hb & _ & Htok & Hmt & _).
  exists st'. split; [exact Hst|]. rewrite Hb, Htok, Hmt.
  repeat split.
Defined.

(** * Absent data *)

Lemma known_model_priced m cfg date :
  lookupModel PRICING_CONFIG m = Some cfg ->
  exists p, getPricingForDate m date = Ok (Some p).
Proof.
  intros Hcfg. unfold getPricingForDate, getPricingForDateIn.
  rewrite (getProperty_own _ _ _ Hcfg).
  destruct (scanPeriods (pricing cfg) date); [eauto|].
  apply lookupModel_In in Hcfg.
  pose proof every_model_has_a_period as Hall.
  rewrite List.Forall_forall in Hall. specialize (Hall _ Hcfg). simpl in Hall.
  destruct (pricing cfg) as [|q rest] using rev_ind; [contradiction|].
  rewrite last_snoc. eauto.
Qed.

Lemma getPricingForDate_returns m date :
  inherited m = false -> returns (getPricingForDate m date) = true.
Proof.
  intros Hi. unfold getPricingForDate, getPricingForDateIn, getProperty.
  rewrite Hi. destruct (lookupModel PRICING_CONFIG m); reflexivity.
Qed.

Lemma getPricingForDate_inherited m date :
  inherited m = true ->
  getPricingForDate m date = Throw (TypeError "modelConfig.pricing is not iterable").
Proof.
  intros Hi. unfold getPricingForDate, getPricingForDateIn.
  now rewrite (getProperty_inherited _ _ (inherited_not_own m Hi) Hi).
Qed.

Lemma calculateCost_dated now m usage (date : JsDate.t) x :
  inherited m = false ->
  date = Some x -> returns (calculateCost now m usage (Some date)) = true.
Proof.
  intros Hi ->. unfold calculateCost, calculateCostIn, orNow.
  pose proof (getPricingForDate_returns m (Some x) Hi) as Hr.
  unfold getPricingForDate in Hr.
  destruct (getPricingForDateIn PRICING_CONFIG m (Some x)) as [[p|]|e];
    [reflexivity|reflexivity|discriminate].
Qed.

Lemma processTransaction_dated now st t x :
  properlyNamed t ->
  createdAt t = Some x -> returns (processTransaction now st t) = true.
Proof.
  intros Hn Hx. unfold processTransaction, newDate. rewrite Hx.
  destruct (modelOf t) as [m|] eqn:Hm; [|reflexivity]. cbv zeta.
  pose proof (calculateCost_dated now m (currentTokenUsage t) (Some x) x
                (Hn m Hm) eq_refl) as Hc.
  destruct (calculateCost now m (currentTokenUsage t) (Some (Some x)))
    as [[c|]|]; [reflexivity|reflexivity|discriminate].
Qed.

Lemma processTransaction_no_model now st t :
  modelOf t = None ->
  processTransaction now st t
  = Ok (mkAgg (costBreakdown st) (tokenUsage st) (modelBreakdown st)
              (if JsDate.gtb (newDate (createdAt t)) (lastUpdated st)
               then newDate (createdAt t) else lastUpdated st)).
Proof. intros Hm. unfold processTransaction. now rewrite Hm. Qed.

(** The loop runs to its end whenever every transaction that names a model
    names it properly and carries a timestamp. *)
Lemma processAll_returns now txs :
  Forall (fun t => modelOf t = None \/ (properlyNamed t /\ is_Some (createdAt t)))
         txs ->
  forall st, returns (processAll now st txs) = true.
Proof.
  induction 1 as [|t rest Ht _ IH]; intros st; simpl; [reflexivity|].
  destruct (processTransaction now st t) as [st'|e] eqn:Hstep; simpl; [apply IH|].
  destruct Ht as [Hm|[Hn [x Hx]]].
  - rewrite (processTransaction_no_model _ _ _ Hm) in Hstep. discriminate.
  - pose proof (processTransaction_dated now st t x Hn Hx) as Hr.
    rewrite Hstep in Hr. discriminate.
Qed.

(** C5. An absent or empty transaction list gives null and a transaction
    without a model is passed over without cost; but a transaction that names
    a priced model and lacks its timestamp makes [calculateCost], and with it
    [calculateConversationCost], throw a RangeError. *)
Theorem undated_transaction_throws :
  (forall now cid, costOfTransactions now cid None = Ok None) /\
  (forall now cid, costOfTransactions now cid (Some []) = Ok None) /\
  (exists s,
     calculateConversationCost (storing [bareTx]) 0 "c1" None = Ok (Some s) /\
     totalCost s == 0 /\ s_modelBreakdown s = [])%Q /\
  (forall now m cfg usage,
     lookupModel PRICING_CONFIG m = Some cfg ->
     calculateCost now m usage (Some None)
       = Throw (RangeError "Invalid time value")) /\
  calculateConversationCost (storing [undatedTx]) 0 "c1" None
    = Throw (RangeError "Invalid time value").
Proof.
  repeat split.
  - eexists. split; [reflexivity|]. split; reflexivity.
  - intros now m cfg usage Hcfg.
    destruct (known_model_priced m cfg None Hcfg) as [p Hp].
    unfold calculateCost, calculateCostIn, orNow.
    fold (getPricingForDate m None). rewrite Hp. reflexivity.
Qed.

Lemma undated_transaction_throws_witness :
  calculateCost 0 "gpt-4" (completionOnly 1000) (Some None)
    = Throw (RangeError "Invalid time value").
Proof.
  refine (proj1 (proj2 (proj2 (proj2 undated_transaction_throws)))
            0 "gpt-4" _ (completionOnly 1000) _).
  reflexivity.
Defined.

(** * The statements after the loop *)

Lemma Forall_mapSet (P : string * ModelData -> Prop) m k v :
  Forall P m -> P (k, v) -> Forall P (mapSet m k v).
Proof.
  intros Hall Hnew. induction Hall as [|[k' v'] rest Hx Hrest IH]; simpl.
  - now constructor.
  - destruct (String.eqb_spec k' k) as [->|]; constructor; auto.
Qed.

Lemma Forall_mapGet (Q : ModelData -> Prop) m k v :
  Forall (fun kv => Q (snd kv)) m -> mapGet m k = Some v -> Q v.
Proof.
  induction 1 as [|[k' v'] rest Hx Hrest IH]; simpl; [discriminate|].
  destruct (String.eqb k' k); [now intros [= <-]|exact IH].
Qed.

Lemma calculateCost_proper now m usage dateArg r :
  calculateCost now m usage dateArg = Ok r -> inherited m = false.
Proof.
  intros Hc. destruct (inherited m) eqn:Hi; [|reflexivity].
  unfold calculateCost, calculateCostIn in Hc.
  fold (getPricingForDate m (orNow now dateArg)) in Hc.
  rewrite (getPricingForDate_inherited _ _ Hi) in Hc. discriminate.
Qed.

(** A model that the loop has processed is not an inherited name: for such
    a name [calculateCost] throws. *)
Lemma processTransaction_properNames now st t st' :
  processTransaction now st t = Ok st' -> properNames st -> properNames st'.
Proof.
  unfold processTransaction, properNames. intros Hstep Hst.
  destruct (modelOf t) as [m|]; [|now injection Hstep as <-].
  cbv zeta in Hstep.
  destruct (calculateCost now m (currentTokenUsage t) (Some (newDate (createdAt t))))
    as [cost|e] eqn:Hc; simpl in Hstep; [|discriminate].
  apply calculateCost_proper in Hc.
  assert (Hid : inherited (md_modelId (default (newModelData m)
                                         (mapGet (modelBreakdown st) m))) = false).
  { destruct (mapGet (modelBreakdown st) m) as [old|] eqn:Hold; [|exact Hc].
    exact (Forall_mapGet (fun d => inherited (md_modelId d) = false) _ _ _ Hst Hold). }
  destruct cost; injection Hstep as <-; cbn [modelBreakdown];
    (apply Forall_mapSet; [exact Hst|exact Hid]).
Qed.

Lemma processAll_properNames now txs : forall st st',
  processAll now st txs = Ok st' -> properNames st -> properNames st'.
Proof.
  induction txs as [|t rest IH]; simpl; intros st st' Hall Hst.
  - now injection Hall as <-.
  - destruct (processTransaction now st t) as [st1|e] eqn:Hstep; simpl in Hall;
      [|discriminate].
    exact (IH _ _ Hall (processTransaction_properNames _ _ _ _ Hstep Hst)).
Qed.

Lemma withModelInfo_entryFor d :
  inherited (md_modelId d) = false -> withModelInfo d = Ok (entryFor d).
Proof.
  intros Hi. unfold withModelInfo, entryFor, getModelInfo, getProperty.
  rewrite Hi. destruct (lookupModel PRICING_CONFIG (md_modelId d)); reflexivity.
Qed.

Lemma mapResult_entryFor l :
  Forall (fun d => inherited (md_modelId d) = false) l ->
  mapResult withModelInfo l = Ok (List.map entryFor l).
Proof.
  induction 1 as [|d rest Hd _ IH]; simpl; [reflexivity|].
  now rewrite (withModelInfo_entryFor d Hd), IH.
Qed.

Lemma summarize_summaryOf cid st :
  properNames st -> summarize cid st = Ok (summaryOf cid st).
Proof.
  intros Hst. unfold summarize, summaryOf.
  rewrite mapResult_entryFor.
  - simpl. now rewrite List.map_map.
  - unfold properNames in Hst. rewrite List.Forall_map. exact Hst.
Qed.

Lemma processAll_summary now cid st :
  forall txs, processAll now initState txs = Ok st ->
              summarize cid st = Ok (summaryOf cid st).
Proof.
  intros txs Hall. apply summarize_summaryOf.
  apply (processAll_properNames now txs initState st Hall). constructor.
Qed.

(** A returned summary is the one built from the state in which the loop
    ends. *)
Lemma summary_state now cid txs s :
  costOfTransactions now cid (Some txs) = Ok (Some s) ->
  exists st, processAll now initState txs = Ok st /\ s = summaryOf cid st.
Proof.
  unfold costOfTransactions. destruct txs as [|t rest]; [discriminate|].
  destruct (processAll now initState (t :: rest)) as [st|e] eqn:Hall; simpl;
    [|discriminate].
  rewrite (processAll_summary now cid st _ Hall). simpl.
  intros [= <-]. eauto.
Qed.

Lemma state_summary now cid txs st :
  txs <> [] -> processAll now initState txs = Ok st ->
  costOfTransactions now cid (Some txs) = Ok (Some (summaryOf cid st)).
Proof.
  intros Hne Hall. unfold costOfTransactions.
  destruct txs as [|t rest]; [contradiction|].
  rewrite Hall. simpl. now rewrite (processAll_summary now cid st _ Hall).
Qed.

(** * lastUpdated *)

Lemma processTransaction_lastUpdated now st t st' a :
  processTransaction now st t = Ok st' ->
  lastUpdated st = Some a ->
  lastUpdated st' = Some (from_option (Z.max a) a (createdAt t)).
Proof.
  unfold processTransaction, newDate. intros Hstep Ha.
  cbv zeta in Hstep. rewrite Ha in Hstep.
  assert (Hlater :
    (if JsDate.gtb (createdAt t) (Some a) then createdAt t else Some a)
    = Some (from_option (Z.max a) a (createdAt t))).
  { destruct (createdAt t) as [x|]; simpl; [|reflexivity].
    destruct (Z.ltb_spec a x); f_equal; lia. }
  rewrite Hlater in Hstep.
  destruct (modelOf t) as [m|].
  - destruct (calculateCost now m (currentTokenUsage t) (Some (createdAt t)))
      as [cost|e]; simpl in Hstep; [|discriminate].
    destruct cost; injection Hstep as <-; reflexivity.
  - injection Hstep as <-. reflexivity.
Qed.

Lemma processAll_lastUpdated now txs : forall st st' a,
  processAll now st txs = Ok st' ->
  lastUpdated st = Some a ->
  lastUpdated st' = Some (foldl Z.max a (timestamps txs)).
Proof.
  induction txs as [|t rest IH]; simpl; intros st st' a Hall Ha.
  - injection Hall as <-. exact Ha.
  - destruct (processTransaction now st t) as [st1|e] eqn:Hstep; simpl in Hall;
      [|discriminate].
    pose proof (processTransaction_lastUpdated _ _ _ _ _ Hstep Ha) as H1.
    rewrite (IH _ _ _ Hall H1). unfold timestamps. simpl.
    destruct (createdAt t); reflexivity.
Qed.

Lemma foldl_max_ge a l : a <= foldl Z.max a l.
Proof.
  revert a. induction l as [|x l IH]; simpl; intros a; [lia|].
  specialize (IH (Z.max a x)). lia.
Qed.

Lemma foldl_max_upper a l : Forall (fun y => y <= foldl Z.max a l) l.
Proof.
  revert a. induction l as [|x l IH]; simpl; intros a; constructor.
  - pose proof (foldl_max_ge (Z.max a x) l). lia.
  - apply IH.
Qed.

Lemma foldl_max_mono a b l : a <= b -> foldl Z.max a l <= foldl Z.max b l.
Proof.
  revert a b. induction l as [|x l IH]; simpl; intros a b Hab; [exact Hab|].
  apply IH. lia.
Qed.

(** Starting the maximum at a value below some element does not change it. *)
Lemma foldl_max_start a l x xs :
  l = x :: xs -> Exists (fun y => a <= y) l -> foldl Z.max a l = foldl Z.max x xs.
Proof.
  intros -> Hex. simpl.
  apply Z.le_antisymm.
  - apply List.Exists_cons in Hex as [Hx|Hex].
    + apply foldl_max_mono. lia.
    + assert (Hmax : Z.max a x <= foldl Z.max x xs).
      { pose proof (foldl_max_ge x xs).
        rewrite List.Exists_exists in Hex. destruct Hex as (y & Hy & Hay).
        pose proof (foldl_max_upper x xs) as Hup.
        rewrite List.Forall_forall in Hup. specialize (Hup y Hy). lia. }
      clear Hex. revert Hmax. generalize (Z.max a x) as b.
      generalize (foldl_max_ge x xs). generalize (foldl_max_upper x xs).
      generalize (foldl Z.max x xs) as M. clear.
      induction xs as [|y ys IH]; simpl; intros M Hup HM b Hb; [exact Hb|].
      inversion Hup; subst. apply IH; [assumption|lia|lia].
  - apply foldl_max_mono. lia.
Qed.

(** C6, as the code has it. Whenever the aggregation returns a summary, its
    [lastUpdated] is the largest of the epoch and the timestamps of the
    records: the maximum timestamp when a record is dated at or after the
    epoch, and the epoch itself when no record carries a timestamp. *)
Theorem lastUpdated_is_latest
    (now : Z) (cid : string) (txs : list Transaction) (s : ConversationCostSummary) :
  costOfTransactions now cid (Some txs) = Ok (Some s) ->
  s_lastUpdated s = Some (foldl Z.max 0 (timestamps txs)) /\
  (forall x xs, timestamps txs = x :: xs -> Exists (fun y => 0 <= y) (timestamps txs) ->
                s_lastUpdated s = Some (foldl Z.max x xs)) /\
  (timestamps txs = [] -> s_lastUpdated s = JsDate.epoch).
Proof.
  intros Hs. destruct (summary_state _ _ _ _ Hs) as (st & Hall & ->).
  cbn [s_lastUpdated summaryOf].
  pose proof (processAll_lastUpdated _ _ _ _ 0 Hall eq_refl) as Hl.
  rewrite Hl. split; [reflexivity|]. split.
  - intros x xs Hts Hex. f_equal. now apply foldl_max_start.
  - intros ->. reflexivity.
Qed.

Lemma lastUpdated_is_latest_witness :
  exists s,
    costOfTransactions 0 "c1" (Some threeDated) = Ok (Some s) /\
    s_lastUpdated s = JsDate.parse "2024-06-01T15:00:00Z".
Proof.
  assert (H : exists s, costOfTransactions 0 "c1" (Some threeDated) = Ok (Some s))
    by (eexists; vm_compute; reflexivity).
  destruct H as [s Hs]. exists s. split; [exact Hs|].
  rewrite (proj1 (lastUpdated_is_latest 0 "c1" threeDated s Hs)).
  vm_compute. reflexivity.
Defined.

(** C6 as stated fails: when no record carries a timestamp the summary is
    dated at the epoch, whatever the current time; and a record dated before
    the epoch does not move [lastUpdated] either. *)
Lemma lastUpdated_not_now :
  (exists s,
     costOfTransactions 1717200000000 "c1" (Some [bareTx]) = Ok (Some s) /\
     s_lastUpdated s = JsDate.epoch /\
     ~ lastUpdatedAsSpecified 1717200000000 [bareTx] s) /\
  (exists s,
     costOfTransactions 1717200000000 "c1" (Some [preEpochTx]) = Ok (Some s) /\
     s_lastUpdated s = JsDate.epoch /\
     ~ lastUpdatedAsSpecified 1717200000000 [preEpochTx] s).
Proof.
  split.
  - eexists. split; [vm_compute; reflexivity|]. split; [reflexivity|].
    unfold lastUpdatedAsSpecified. simpl. discriminate.
  - eexists. split; [vm_compute; reflexivity|]. split; [reflexivity|].
    unfold lastUpdatedAsSpecified. vm_compute. discriminate.
Qed.

(** * Rounding of the summary *)



(** The rounding of the source on binary64 numbers. Seven prompt tokens of
    gpt-4o cost 0.000035 before rounding to binary64; the product with 100000
    is just below 3.5 and is rounded down. The binary64 number nearest to
    0.000165 lies below it, its product with 100000 is 16.5 and is rounded
    up. *)
Example round5_seven_tokens :
  B64.round5 (B64.perMillion (Some 7) (B64.ofQ 5.0)) = B64.ofQ 0.00003.
Proof. vm_compute. reflexivity. Qed.

Example round5_tie_from_below : B64.round5 (B64.ofQ 0.000165) = B64.ofQ 0.00017.
Proof. vm_compute. reflexivity. Qed.

Example Math_round_examples :
  B64.Math_round (B64.ofQ 2.5) = B64.ofZ 3 /\
  B64.Math_round (B64.ofQ (-2.5)) = B64.ofZ (-2) /\
  B64.Math_round (B64.ofQ (-0.5)) = S754_zero true /\
  B64.Math_round (B64.ofQ 0.49999999999999994) = S754_zero false /\
  B64.Math_round (S754_infinity false) = S754_infinity false.
Proof. vm_compute. repeat split. Qed.

(** Sums of binary64 numbers depend on their order, and the rounding to 5
    decimal places can make the difference visible: the same four
    transactions give a prompt cost of 0.00032 in one order and of 0.00031
    in another. *)
Example rounded_cost_depends_on_order :
  match B64.costOfTransactions 0 "c1" (Some fourOfGpt4o),
        B64.costOfTransactions 0 "c1" (Some fourOfGpt4oSwapped) with
  | Ok (Some s), Ok (Some s') =>
      B64.cb_prompt (B64.s_costBreakdown s) = B64.ofQ 0.00032 /\
      B64.cb_prompt (B64.s_costBreakdown s') = B64.ofQ 0.00031
  | _, _ => False
  end.
Proof. vm_compute. split; reflexivity. Qed.

(** The total is summed by category and the cost of a model by transaction:
    after rounding the two can differ in the last place. *)
Example total_and_entry_differ :
  match B64.costOfTransactions 0 "c1"
          (Some [promptTx "gpt-4o" "2024-06-01" (-1);
                 completionTx "gpt-4o" "2024-06-01" (-2);
                 promptTx "gpt-4o" "2024-06-01" (-28)]) with
  | Ok (Some s) =>
      B64.totalCost s = B64.ofQ 0.00018 /\
      B64.round5 <$> (B64.md_cost <$> (B64.me_data <$> head (B64.s_modelBreakdown s)))
      = Some (B64.ofQ 0.00017)
  | _ => False
  end.
Proof. vm_compute. split; reflexivity. Qed.



(** * The batch operation *)

Lemma own_setProperty_ne o k v id :
  id <> k -> own (setProperty o k v) !! id = own o !! id.
Proof.
  intros Hne. unfold setProperty.
  destruct (String.eqb k "__proto__").
  - destruct (own o !! k), (prototype o); cbn [own];
      try reflexivity; now rewrite lookup_insert_ne by congruence.
  - cbn [own]. now rewrite lookup_insert_ne by congruence.
Qed.

Lemma own_setProperty_eq o k v :
  k <> "__proto__" -> own (setProperty o k v) !! k = Some v.
Proof.
  intros Hk. unfold setProperty.
  destruct (String.eqb_spec k "__proto__"); [contradiction|].
  cbn [own]. apply lookup_insert_eq.
Qed.

Lemma prototype_setProperty o k v :
  k <> "__proto__" -> prototype (setProperty o k v) = prototype o.
Proof.
  intros Hk. unfold setProperty.
  destruct (String.eqb_spec k "__proto__"); [contradiction|reflexivity].
Qed.

Section Batch.

Variables (db : Db) (now : Z) (userId : option string).

Let display (conversationId : string) : option CostDisplay :=
  getConversationCostDisplay db now conversationId userId.

Lemma runBatch_lookup (batch : list string) :
  forall (results : ResultsObject) (id : string),
    id <> "__proto__" ->
    own (runBatch db now userId results batch) !! id
    = if decide (id ∈ batch) then Some (display id) else own results !! id.
Proof.
  unfold runBatch.
  induction batch as [|c cs IH]; intros results id Hid; cbn [List.map foldl fst snd].
  - rewrite decide_False; [reflexivity|apply not_elem_of_nil].
  - rewrite IH by exact Hid. destruct (decide (id = c)) as [->|Hne].
    + rewrite own_setProperty_eq by exact Hid.
      rewrite (decide_True (P := c ∈ c :: cs)) by apply list_elem_of_here.
      destruct (decide (c ∈ cs)); reflexivity.
    + rewrite own_setProperty_ne by exact Hne.
      destruct (decide (id ∈ cs)) as [Hin|Hout].
      * rewrite decide_True; [reflexivity|now apply list_elem_of_further].
      * rewrite decide_False; [reflexivity|].
        intros [?|?]%elem_of_cons; contradiction.
Qed.

Lemma runBatch_outside (batch : list string) :
  forall (results : ResultsObject) (id : string),
    id ∉ batch ->
    own (runBatch db now userId results batch) !! id = own results !! id.
Proof.
  unfold runBatch.
  induction batch as [|c cs IH]; intros results id Hid; cbn [List.map foldl fst snd].
  - reflexivity.
  - apply not_elem_of_cons in Hid as [Hne Hout].
    rewrite IH by exact Hout. now apply own_setProperty_ne.
Qed.

Lemma runBatch_prototype (batch : list string) :
  forall (results : ResultsObject),
    "__proto__" ∉ batch ->
    prototype (runBatch db now userId results batch) = prototype results.
Proof.
  unfold runBatch.
  induction batch as [|c cs IH]; intros results Hid; cbn [List.map foldl fst snd].
  - reflexivity.
  - apply not_elem_of_cons in Hid as [Hne Hout].
    rewrite IH by exact Hout. apply prototype_setProperty. congruence.
Qed.

Lemma batch_step (fuel : nat) (results : ResultsObject) (c : string) (cs : list string) :
  batchLoop (S fuel) db now userId results (c :: cs)
  = batchLoop fuel db now userId
      (runBatch db now userId results (firstn batchSize (c :: cs)))
      (skipn batchSize (c :: cs)).
Proof. reflexivity. Qed.

Lemma elem_of_firstn_skipn (id : string) (l : list string) :
  id ∈ l <-> id ∈ firstn batchSize l \/ id ∈ skipn batchSize l.
Proof. rewrite <- elem_of_app. now rewrite firstn_skipn. Qed.

Lemma batchLoop_lookup (fuel : nat) :
  forall (rest : list string) (results : ResultsObject) (id : string),
    (List.length rest <= fuel)%nat ->
    id <> "__proto__" ->
    own (batchLoop fuel db now userId results rest) !! id
    = if decide (id ∈ rest) then Some (display id) else own results !! id.
Proof.
  induction fuel as [|fuel IH]; intros rest results id Hlen Hid.
  - destruct rest; [|simpl in Hlen; lia]. cbn [batchLoop].
    rewrite decide_False; [reflexivity|apply not_elem_of_nil].
  - destruct rest as [|c cs].
    + cbn [batchLoop]. rewrite decide_False; [reflexivity|apply not_elem_of_nil].
    + rewrite batch_step. remember (c :: cs) as l eqn:Hl.
      rewrite IH, runBatch_lookup by
        first [exact Hid | rewrite length_skipn; subst l; simpl in *; unfold batchSize; lia].
      pose proof (elem_of_firstn_skipn id l) as Hsplit.
      destruct (decide (id ∈ skipn batchSize l)), (decide (id ∈ firstn batchSize l)),
        (decide (id ∈ l)); try reflexivity; exfalso; tauto.
Qed.

Lemma batchLoop_outside (fuel : nat) :
  forall (rest : list string) (results : ResultsObject) (id : string),
    id ∉ rest ->
    own (batchLoop fuel db now userId results rest) !! id = own results !! id.
Proof.
  induction fuel as [|fuel IH]; intros rest results id Hid.
  - destruct rest; reflexivity.
  - destruct rest as [|c cs]; [reflexivity|].
    rewrite batch_step. remember (c :: cs) as l eqn:Hl.
    pose proof (elem_of_firstn_skipn id l) as Hsplit.
    rewrite IH, runBatch_outside; [reflexivity|tauto|tauto].
Qed.

Lemma batchLoop_prototype (fuel : nat) :
  forall (rest : list string) (results : ResultsObject),
    "__proto__" ∉ rest ->
    prototype (batchLoop fuel db now userId results rest) = prototype results.
Proof.
  induction fuel as [|fuel IH]; intros rest results Hid.
  - destruct rest; reflexivity.
  - destruct rest as [|c cs]; [reflexivity|].
    rewrite batch_step. remember (c :: cs) as l eqn:Hl.
    pose proof (elem_of_firstn_skipn "__proto__" l) as Hsplit.
    rewrite IH, runBatch_prototype; [reflexivity|tauto|tauto].
Qed.

Lemma getConversationCostDisplay_local (db' : Db) (id : string) :
  (forall u, db' id u = db id u) ->
  getConversationCostDisplay db' now id userId = display id.
Proof.
  intros Hsame. unfold display, getConversationCostDisplay, calculateConversationCost.
  now rewrite Hsame.
Qed.

End Batch.

(** C8. The batch operation returns an object whose own properties are
    entries for input identifiers only. Each identifier other than
    [__proto__] has its entry: the display of its own conversation, which is
    null when fetching or summarizing that conversation fails, and which does
    not depend on what happens to any other conversation. When [__proto__]
    is not among the identifiers the entries are exactly the identifiers. The
    identifier [__proto__] gets no entry: the assignment replaces the
    prototype of the object instead, so that the batch of that single
    identifier returns an object without entries. *)
Theorem batch_isolates_failures
    (db : Db) (now : Z) (ids : list string) (userId : option string) :
  (exists results,
     getMultipleConversationCosts db now ids userId = Ok results /\
     dom (own results) ⊆ list_to_set ids /\
     (forall id, id ∈ ids -> id <> "__proto__" ->
        own results !! id = Some (getConversationCostDisplay db now id userId)) /\
     (forall id e, id ∈ ids -> id <> "__proto__" ->
        calculateConversationCost db now id userId = Throw e ->
        own results !! id = Some None) /\
     (forall (db' : Db) id, id ∈ ids -> id <> "__proto__" ->
        (forall u, db' id u = db id u) ->
        exists results',
          getMultipleConversationCosts db' now ids userId = Ok results' /\
          own results' !! id = own results !! id) /\
     ("__proto__" ∉ ids ->
        dom (own results) = list_to_set ids /\ prototype results = ObjectPrototype)) /\
  (exists results,
     getMultipleConversationCosts db now ["__proto__"] userId = Ok results /\
     own results = ∅ /\ prototype results <> ObjectPrototype).
Proof.
  split.
  - eexists. split; [reflexivity|].
    assert (Hlook : forall d id, id <> "__proto__" ->
              own (batchLoop (List.length ids) d now userId emptyObject ids) !! id
              = if decide (id ∈ ids)
                then Some (getConversationCostDisplay d now id userId) else None).
    { intros d id Hid. rewrite batchLoop_lookup by (lia || exact Hid).
      unfold emptyObject. cbn [own]. now rewrite lookup_empty. }
    assert (Hout : forall id, id ∉ ids ->
              own (batchLoop (List.length ids) db now userId emptyObject ids) !! id
              = None).
    { intros id Hid. rewrite batchLoop_outside by exact Hid.
      unfold emptyObject. cbn [own]. apply lookup_empty. }
    split; [|split; [|split; [|split]]].
    + intros id Hdom. apply elem_of_dom in Hdom. rewrite elem_of_list_to_set.
      destruct (decide (id ∈ ids)) as [Hin|Hnot]; [exact Hin|].
      rewrite (Hout id Hnot) in Hdom. now destruct Hdom.
    + intros id Hin Hid. rewrite Hlook by exact Hid. now rewrite decide_True.
    + intros id e Hin Hid Hthrow. rewrite Hlook, decide_True by done.
      unfold getConversationCostDisplay. now rewrite Hthrow.
    + intros db' id Hin Hid Hsame. eexists. split; [reflexivity|].
      rewrite !Hlook, !decide_True by done.
      f_equal. now apply getConversationCostDisplay_local.
    + intros Hproto. split.
      * apply set_eq. intros id. rewrite elem_of_dom, elem_of_list_to_set.
        destruct (decide (id ∈ ids)) as [Hin|Hnot].
        -- rewrite Hlook, decide_True by (done || congruence). split; eauto.
        -- rewrite (Hout id Hnot). split; [now intros [? [=]]|contradiction].
      * now rewrite batchLoop_prototype.
  - eexists. split; [reflexivity|]. cbn.
    unfold runBatch, setProperty. cbn.
    destruct (getConversationCostDisplay db now "__proto__" userId);
      split; (reflexivity || discriminate).
Qed.

Lemma batch_isolates_failures_witness :
  exists results,
    getMultipleConversationCosts (failingAt "c2" threeDated) 0
      ["c1"; "c2"; "c3"] None = Ok results /\
    own results !! "c2" = Some None /\
    own results !! "c1"
    = Some (getConversationCostDisplay (storing threeDated) 0 "c1" None).
Proof.
  destruct (proj1 (batch_isolates_failures (failingAt "c2" threeDated) 0
                     ["c1"; "c2"; "c3"] None))
    as (results & Hres & _ & Hall & Hfail & _).
  exists results. split; [exact Hres|]. split.
  - apply (Hfail "c2" (DbError "connection lost")); [|discriminate|reflexivity].
    apply list_elem_of_further, list_elem_of_here.
  - rewrite Hall by (apply list_elem_of_here || discriminate). reflexivity.
Defined.

(** * Display formatting *)

Lemma isDigit_digitChar d : Fmt.isDigit (Fmt.digitChar d) = true.
Proof.
  unfold Fmt.isDigit, Fmt.digitChar.
  pose proof (Z.mod_pos_bound d 10 ltac:(lia)) as Hd.
  rewrite nat_ascii_embedding by lia.
  apply andb_true_intro. split; apply Nat.leb_le; lia.
Qed.

Lemma digitsFuel_shape fuel : forall n acc,
  exists ds,
    Fmt.digitsFuel fuel n acc = ds ++ acc /\ ds <> [] /\
    forallb Fmt.isDigit ds = true.
Proof.
  induction fuel as [|fuel IH]; intros n acc; simpl.
  - exists [Fmt.digitChar n]. simpl. rewrite isDigit_digitChar. now repeat split.
  - destruct (n / 10 =? 0).
    + exists [Fmt.digitChar n]. simpl. rewrite isDigit_digitChar. now repeat split.
    + destruct (IH (n / 10) (Fmt.digitChar n :: acc)) as (ds & Heq & Hne & Hall).
      exists (ds ++ [Fmt.digitChar n]). rewrite Heq, <- app_assoc. simpl.
      repeat split.
      * intros Happ. apply app_eq_nil in Happ as [? _]. contradiction.
      * rewrite forallb_app, Hall. simpl. now rewrite isDigit_digitChar.
Qed.

Lemma digits_shape n :
  Fmt.digits n <> [] /\ forallb Fmt.isDigit (Fmt.digits n) = true.
Proof.
  unfold Fmt.digits.
  destruct (digitsFuel_shape (Z.to_nat (Z.log2 n)) n []) as (ds & -> & Hne & Hall).
  rewrite app_nil_r. now split.
Qed.

Lemma forallb_repeat_zero k : forallb Fmt.isDigit (repeat "0"%char k) = true.
Proof. induction k; simpl; [reflexivity|exact IHk]. Qed.

Lemma Qltb_lt a b : Fmt.Qltb a b = true <-> (a < b)%Q.
Proof.
  unfold Fmt.Qltb. rewrite negb_true_iff.
  split.
  - intros H. apply Qnot_le_lt. intros Hle.
    apply Qle_bool_iff in Hle. congruence.
  - intros H. destruct (Qle_bool b a) eqn:E; [|reflexivity].
    apply Qle_bool_iff in E. exfalso. now apply (Qlt_not_le a b).
Qed.

Lemma Qltb_ge a b : Fmt.Qltb a b = false <-> (b <= a)%Q.
Proof.
  unfold Fmt.Qltb. rewrite negb_false_iff. apply Qle_bool_iff.
Qed.

(** Below 10^21 [toFixed] with a positive number of places prints digits, a
    point, and exactly that number of digits. *)
Lemma toFixedChars_shape (x : Q) (f : nat) :
  (0 <= x)%Q -> (x < inject_Z (10 ^ 21))%Q ->
  exists a b,
    Fmt.toFixedChars x (S f) = a ++ "."%char :: b /\ a <> [] /\
    forallb Fmt.isDigit a = true /\ forallb Fmt.isDigit b = true /\
    List.length b = S f.
Proof.
  intros H0 Hbig. unfold Fmt.toFixedChars.
  assert (Hsign : Qle_bool 0 x = true) by now apply Qle_bool_iff.
  rewrite Hsign.
  assert (Hsmall : Qle_bool (inject_Z (10 ^ 21)) (Qabs x) = false).
  { destruct (Qle_bool (inject_Z (10 ^ 21)) (Qabs x)) eqn:E; [|reflexivity].
    apply Qle_bool_iff in E. rewrite (Qabs_pos x H0) in E.
    exfalso. now apply (Qlt_not_le x (inject_Z (10 ^ 21))). }
  rewrite Hsmall. cbn [app].
  set (n := Qfloor _).
  destruct (digits_shape n) as [Hne Hall].
  set (m := repeat "0"%char (S (S f) - List.length (Fmt.digits n)) ++ Fmt.digits n).
  assert (Hlen : (S (S f) <= List.length m)%nat).
  { unfold m. rewrite length_app, repeat_length. lia. }
  assert (Hm : forallb Fmt.isDigit m = true).
  { unfold m. now rewrite forallb_app, forallb_repeat_zero, Hall. }
  exists (firstn (List.length m - S f) m), (skipn (List.length m - S f) m).
  rewrite <- (firstn_skipn (List.length m - S f) m), forallb_app in Hm.
  apply andb_prop in Hm as [Ha Hb].
  repeat split; try assumption.
  - intros Hnil. apply (f_equal (@List.length ascii)) in Hnil.
    rewrite length_firstn in Hnil. simpl in Hnil. lia.
  - rewrite length_skipn. lia.
Qed.

Lemma takeDigits_until_point a b :
  forallb Fmt.isDigit a = true -> Fmt.takeDigits (a ++ "."%char :: b) = a.
Proof.
  induction a as [|c a IH]; simpl; [reflexivity|].
  intros H. apply andb_prop in H as [Hc Ha]. rewrite Hc. f_equal. now apply IH.
Qed.

Lemma dropDigits_until_point a b :
  forallb Fmt.isDigit a = true ->
  Fmt.dropDigits (a ++ "."%char :: b) = "."%char :: b.
Proof.
  induction a as [|c a IH]; simpl; [reflexivity|].
  intros H. apply andb_prop in H as [Hc Ha]. rewrite Hc. now apply IH.
Qed.

Lemma list_ascii_of_dollar s :
  list_ascii_of_string ("$" ++ s)%string = "$"%char :: list_ascii_of_string s.
Proof. reflexivity. Qed.

Lemma hasDecimals_toFixed (x : Q) (f : nat) :
  (0 <= x)%Q -> (x < inject_Z (10 ^ 21))%Q ->
  Fmt.hasDecimals (S f) ("$" ++ Fmt.toFixed x (S f))%string = true.
Proof.
  intros H0 Hbig.
  destruct (toFixedChars_shape x f H0 Hbig) as (a & b & Heq & Hne & Ha & Hb & Hlen).
  unfold Fmt.hasDecimals, Fmt.toFixed.
  rewrite list_ascii_of_dollar, list_ascii_of_string_of_list_ascii, Heq.
  rewrite takeDigits_until_point, dropDigits_until_point by assumption.
  destruct a as [|c a]; [contradiction|].
  rewrite Hb, Hlen. simpl. now rewrite Nat.eqb_refl.
Qed.

(** C9, as the code has it. A non-negative cost below 0.001 is shown as
    "<$0.001"; from 0.001 and below 0.01 it is shown with exactly 4 decimal
    places, from 0.01 and below 1 with exactly 3, and from 1 and below 10^21
    with exactly 2. *)
Theorem formatCost_decimals (cost : Q) :
  (0 <= cost)%Q ->
  ((cost < 0.001)%Q -> Fmt.formatCost cost = "<$0.001") /\
  ((0.001 <= cost)%Q -> (cost < 0.01)%Q ->
     Fmt.hasDecimals 4 (Fmt.formatCost cost) = true) /\
  ((0.01 <= cost)%Q -> (cost < 1)%Q ->
     Fmt.hasDecimals 3 (Fmt.formatCost cost) = true) /\
  ((1 <= cost)%Q -> (cost < inject_Z (10 ^ 21))%Q ->
     Fmt.hasDecimals 2 (Fmt.formatCost cost) = true).
Proof.
  intros H0. unfold Fmt.formatCost.
  assert (H21 : (1 < inject_Z (10 ^ 21))%Q) by reflexivity.
  repeat split.
  - intros Hlt. apply Qltb_lt in Hlt. now rewrite Hlt.
  - intros Hge Hlt. apply Qltb_ge in Hge. apply Qltb_lt in Hlt as Hlt'.
    rewrite Hge, Hlt'. apply hasDecimals_toFixed; [exact H0|]. lra.
  - intros Hge Hlt.
    assert (H1 : Fmt.Qltb cost 0.001 = false) by (apply Qltb_ge; lra).
    apply Qltb_ge in Hge. apply Qltb_lt in Hlt as Hlt'.
    rewrite H1, Hge, Hlt'. apply hasDecimals_toFixed; [exact H0|]. lra.
  - intros Hge Hlt.
    assert (H1 : Fmt.Qltb cost 0.001 = false) by (apply Qltb_ge; lra).
    assert (H2 : Fmt.Qltb cost 0.01 = false) by (apply Qltb_ge; lra).
    apply Qltb_ge in Hge.
    rewrite H1, H2, Hge. now apply hasDecimals_toFixed.
Qed.

Lemma formatCost_decimals_witness :
  Fmt.formatCost 0.0002 = "<$0.001" /\
  Fmt.hasDecimals 4 (Fmt.formatCost 0.003) = true /\
  Fmt.hasDecimals 3 (Fmt.formatCost 0.06) = true /\
  Fmt.hasDecimals 2 (Fmt.formatCost 7.68) = true.
Proof.
  split; [|split; [|split]].
  - apply (proj1 (formatCost_decimals 0.0002 ltac:(discriminate))). reflexivity.
  - apply (proj1 (proj2 (formatCost_decimals 0.003 ltac:(discriminate))));
      [discriminate|reflexivity].
  - apply (proj1 (proj2 (proj2 (formatCost_decimals 0.06 ltac:(discriminate)))));
      [discriminate|reflexivity].
  - apply (proj2 (proj2 (proj2 (formatCost_decimals 7.68 ltac:(discriminate)))));
      [discriminate|reflexivity].
Defined.

(** C9 as stated fails: from 10^21 on the cost is printed in exponential
    notation, without decimal places. *)
Lemma formatCost_exponential :
  (0 <= inject_Z (10 ^ 21))%Q /\ (1 <= inject_Z (10 ^ 21))%Q /\
  Fmt.formatCost (inject_Z (10 ^ 21)) = "$1e+21" /\
  Fmt.hasDecimals 2 (Fmt.formatCost (inject_Z (10 ^ 21))) = false.
Proof.
  split; [discriminate|]. split; [discriminate|].
  split; vm_compute; reflexivity.
Qed.

(** * Records without a model *)

Lemma processAll_app now l1 : forall l2 st,
  processAll now st (l1 ++ l2)
  = let! st1 := processAll now st l1 in processAll now st1 l2.
Proof.
  induction l1 as [|t l1 IH]; intros l2 st; simpl; [reflexivity|].
  destruct (processTransaction now st t) as [st1|e]; simpl; [apply IH|reflexivity].
Qed.

(** The loop body reads [lastUpdated] only to update it. *)
Lemma processTransaction_sameAmounts now a b t a' :
  sameAmounts a b -> processTransaction now a t = Ok a' ->
  exists b', processTransaction now b t = Ok b' /\ sameAmounts a' b'.
Proof.
  intros (Hc & Hu & Hm). unfold processTransaction.
  rewrite Hc, Hu, Hm.
  destruct (modelOf t) as [m|].
  - cbv zeta.
    destruct (calculateCost now m (currentTokenUsage t) (Some (newDate (createdAt t))))
      as [[c|]|e]; simpl; [| |discriminate];
      intros [= <-]; eexists; (split; [reflexivity|]); repeat split.
  - intros [= <-]. eexists. split; [reflexivity|]. repeat split.
Qed.

Lemma processAll_sameAmounts now txs : forall a b a',
  sameAmounts a b -> processAll now a txs = Ok a' ->
  exists b', processAll now b txs = Ok b' /\ sameAmounts a' b'.
Proof.
  induction txs as [|t rest IH]; simpl; intros a b a' Hab Ha.
  - injection Ha as <-. eauto.
  - destruct (processTransaction now a t) as [a1|e] eqn:Hstep; simpl in Ha;
      [|discriminate].
    destruct (processTransaction_sameAmounts now a b t a1 Hab Hstep)
      as (b1 & -> & Hab1).
    simpl. exact (IH a1 b1 a' Hab1 Ha).
Qed.

Lemma backend_passes_over_model_less now st t :
  modelOf t = None ->
  exists st', processTransaction now st t = Ok st' /\ sameAmounts st' st.
Proof.
  intros Hm. rewrite (processTransaction_no_model _ _ _ Hm).
  eexists. split; [reflexivity|]. repeat split.
Qed.

(** C4, as the code has it. The aggregation of the stored transactions passes
    over a record whose model is null or absent: the record adds nothing to
    the token totals, neither to the prompt nor to the completion tokens, and
    nothing to the costs and to the per-model entries. Wherever such a record
    stands in the list, the summary has the total cost, the breakdown, the
    token totals and the entries that it has without the record. *)
Theorem model_less_record_is_skipped :
  (forall (now : Z) (st : AggState) (t : Transaction),
     modelOf t = None ->
     exists st',
       processTransaction now st t = Ok st' /\
       tokenUsage st' = tokenUsage st /\ costBreakdown st' = costBreakdown st /\
       modelBreakdown st' = modelBreakdown st) /\
  (forall (now : Z) (cid : string) (before after : list Transaction)
          (t : Transaction) (s : ConversationCostSummary),
     modelOf t = None -> before ++ after <> [] ->
     costOfTransactions now cid (Some (before ++ t :: after)) = Ok (Some s) ->
     exists s',
       costOfTransactions now cid (Some (before ++ after)) = Ok (Some s') /\
       s_tokenUsage s = s_tokenUsage s' /\ totalCost s = totalCost s' /\
       s_costBreakdown s = s_costBreakdown s' /\
       s_modelBreakdown s = s_modelBreakdown s').
Proof.
  split.
  - intros now st t Hm.
    destruct (backend_passes_over_model_less now st t Hm) as (st' & Hst & Hc & Hu & Hb).
    exists st'. auto.
  - intros now cid before after t s Hm Hne Hs.
    destruct (summary_state _ _ _ _ Hs) as (st & Hall & ->).
    rewrite processAll_app in Hall.
    destruct (processAll now initState before) as [st1|e] eqn:H1; simpl in Hall;
      [|discriminate].
    destruct (backend_passes_over_model_less now st1 t Hm) as (st1' & Hstep & Hsame).
    rewrite Hstep in Hall. simpl in Hall.
    destruct (processAll_sameAmounts now after st1' st1 st Hsame Hall)
      as (st2 & H2 & Hc & Hu & Hb).
    exists (summaryOf cid st2). split.
    + apply state_summary; [exact Hne|].
      rewrite processAll_app, H1. exact H2.
    + unfold summaryOf. cbn [s_tokenUsage totalCost s_costBreakdown s_modelBreakdown].
      now rewrite Hc, Hu, Hb.
Qed.

Lemma model_less_record_is_skipped_witness :
  exists s',
    costOfTransactions 0 "c1" (Some [completionTx "gpt-4" "2024-06-01" (-1000)])
    = Ok (Some s') /\
    Totals.promptTokens (s_tokenUsage s') = 0 /\
    Totals.completionTokens (s_tokenUsage s') = 1000.
Proof.
  assert (H : exists s,
            costOfTransactions 0 "c1"
              (Some ([completionTx "gpt-4" "2024-06-01" (-1000)] ++ bareTx :: []))
            = Ok (Some s) /\
            Totals.promptTokens (s_tokenUsage s) = 0 /\
            Totals.completionTokens (s_tokenUsage s) = 1000)
    by (eexists; split; [vm_compute; reflexivity|split; reflexivity]).
  destruct H as (s & Hs & Hp & Hc).
  destruct (proj2 model_less_record_is_skipped 0 "c1"
              [completionTx "gpt-4" "2024-06-01" (-1000)] [] bareTx s
              eq_refl ltac:(discriminate) Hs)
    as (s' & Hs' & Hu & _).
  exists s'. split; [exact Hs'|]. rewrite <- Hu. now split.
Defined.

(** C4 as stated fails: the 500 tokens of a record without a model are not
    added to the prompt tokens. *)
Lemma model_less_count_not_prompt :
  ~ countedAsPrompt 0 initState bareTx /\
  exists s,
    costOfTransactions 0 "c1" (Some [bareTx]) = Ok (Some s) /\
    Totals.promptTokens (s_tokenUsage s) = 0.
Proof.
  split.
  - intros H. destruct (H (-500) eq_refl eq_refl) as (st' & Hst & Hp & _).
    vm_compute in Hst. injection Hst as <-. discriminate Hp.
  - eexists. split; [vm_compute; reflexivity|reflexivity].
Qed.

(** * Further properties of the pricing module *)

Lemma periodContains_bounds period t :
  periodContains period (Some t) = true <->
  exists from hi,
    periodBounds period = Some (from, hi) /\ from <= t /\
    match hi with Some e => t <= e | None => True end.
Proof.
  unfold periodContains, periodBounds, JsDate.geb, JsDate.leb.
  destruct (JsDate.parse (effectiveFrom period)) as [from|].
  - destruct (effectiveTo period) as [s|].
    + destruct (String.eqb s "").
      * rewrite andb_true_r. split.
        -- intros H. exists from, None. repeat split. lia.
        -- intros (f & hi & [= <- <-] & H & _). lia.
      * destruct (JsDate.parse s) as [e|].
        -- split.
           ++ intros H. apply andb_prop in H as [H1 H2].
              exists from, (Some e). repeat split; lia.
           ++ intros (f & hi & [= <- <-] & H1 & H2).
              apply andb_true_intro. split; lia.
        -- rewrite andb_false_r. split; [discriminate|].
           intros (f & hi & [=] & _).
    + rewrite andb_true_r. split.
      * intros H. exists from, None. repeat split. lia.
      * intros (f & hi & [= <- <-] & H & _). lia.
  - split; [discriminate|]. intros (f & hi & [=] & _).
Qed.

Lemma disjointPeriods_sound p q date :
  disjointPeriods p q = true ->
  periodContains p date = true -> periodContains q date = true -> False.
Proof.
  intros Hd Hp Hq.
  destruct date as [t|]; [|discriminate Hp].
  apply periodContains_bounds in Hp as (f1 & h1 & Hb1 & Hf1 & Hh1).
  apply periodContains_bounds in Hq as (f2 & h2 & Hb2 & Hf2 & Hh2).
  unfold disjointPeriods in Hd. rewrite Hb1, Hb2 in Hd.
  apply orb_prop in Hd as [Hd|Hd].
  - destruct h1 as [e1|]; [|discriminate]. lia.
  - destruct h2 as [e2|]; [|discriminate]. lia.
Qed.

Lemma scanPeriods_unique periods date q :
  pairwiseDisjoint periods = true ->
  In q periods -> periodContains q date = true ->
  scanPeriods periods date = Some q.
Proof.
  induction periods as [|p rest IH]; simpl; [contradiction|].
  intros Hd Hin Hq. apply andb_prop in Hd as [Hp Hrest].
  destruct (periodContains p date) eqn:Hpc.
  - destruct Hin as [->|Hin]; [reflexivity|].
    rewrite forallb_forall in Hp.
    destruct (disjointPeriods_sound p q date (Hp q Hin) Hpc Hq).
  - destruct Hin as [->|Hin]; [congruence|]. now apply IH.
Qed.

Lemma periods_never_overlap :
  Forall (fun kv => pairwiseDisjoint (pricing (snd kv)) = true) PRICING_CONFIG.
Proof. unfold PRICING_CONFIG. repeat constructor. Qed.

(** X1. The periods of every model of the table are disjoint, so the answer
    of [getPricingForDate] does not depend on their order: whenever a period
    of the model contains the date, it is the one returned. *)
Theorem getPricingForDate_unique_match
    (modelId : string) (cfg : ModelPricing) (date : JsDate.t) (q : PricingPeriod) :
  lookupModel PRICING_CONFIG modelId = Some cfg ->
  In q (pricing cfg) ->
  inInterval q date ->
  getPricingForDate modelId date = Ok (Some q).
Proof.
  intros Hcfg Hin Hq. unfold getPricingForDate, getPricingForDateIn.
  rewrite (getProperty_own _ _ _ Hcfg).
  apply lookupModel_In in Hcfg.
  pose proof periods_never_overlap as Hall.
  rewrite List.Forall_forall in Hall. specialize (Hall _ Hcfg). simpl in Hall.
  apply periodContains_inInterval in Hq.
  now rewrite (scanPeriods_unique _ _ _ Hall Hin Hq).
Qed.

Lemma getPricingForDate_unique_match_witness :
  getPricingForDate "gpt-3.5-turbo" (JsDate.parse "2023-12-01")
  = Ok (Some turboUntilJanuary).
Proof.
  apply (getPricingForDate_unique_match "gpt-3.5-turbo" _ _ _ eq_refl).
  - right. left. reflexivity.
  - apply periodContains_inInterval. vm_compute. reflexivity.
Defined.

Lemma getPricingForDate_member m date p :
  getPricingForDate m date = Ok (Some p) ->
  exists cfg, lookupModel PRICING_CONFIG m = Some cfg /\ In p (pricing cfg).
Proof.
  unfold getPricingForDate, getPricingForDateIn, getProperty.
  destruct (lookupModel PRICING_CONFIG m) as [cfg|];
    [|destruct (inherited m); discriminate].
  intros H. injection H as H. exists cfg. split; [reflexivity|].
  destruct (scanPeriods (pricing cfg) date) as [q|] eqn:Hscan.
  - injection H as <-.
    destruct (scanPeriods_Some _ _ _ Hscan) as (b & a & -> & _).
    apply in_or_app. right. now left.
  - apply list_elem_of_In. now apply last_Some_elem_of.
Qed.

Lemma calculateCost_unknown_model now modelId usage dateArg :
  lookupModel PRICING_CONFIG modelId = None -> inherited modelId = false ->
  calculateCost now modelId usage dateArg = Ok None.
Proof.
  intros Hcfg Hi. unfold calculateCost, calculateCostIn, getPricingForDateIn.
  now rewrite (getProperty_undefined _ _ Hcfg Hi).
Qed.

Lemma calculateCost_inherited now modelId usage dateArg :
  inherited modelId = true ->
  calculateCost now modelId usage dateArg
  = Throw (TypeError "modelConfig.pricing is not iterable").
Proof.
  intros Hi. unfold calculateCost, calculateCostIn.
  fold (getPricingForDate modelId (orNow now dateArg)).
  now rewrite (getPricingForDate_inherited _ _ Hi).
Qed.

Lemma calculateCost_known_model now modelId usage dateArg cfg :
  lookupModel PRICING_CONFIG modelId = Some cfg ->
  match orNow now dateArg with
  | None =>
      calculateCost now modelId usage dateArg = Throw (RangeError "Invalid time value")
  | Some _ => exists c, calculateCost now modelId usage dateArg = Ok (Some c)
  end.
Proof.
  intros Hcfg. unfold calculateCost, calculateCostIn.
  fold (getPricingForDate modelId (orNow now dateArg)).
  destruct (known_model_priced modelId cfg (orNow now dateArg) Hcfg) as [p Hp].
  rewrite Hp. destruct (orNow now dateArg) as [t|]; simpl; [|reflexivity].
  eexists. reflexivity.
Qed.

(** X2. [calculateCost] has four outcomes. For a name that is neither a key
    of the table nor inherited from [Object.prototype] it answers null; for
    an inherited name, such as "toString", it throws a TypeError, whatever
    the date; for a key of the table and an invalid date it throws a
    RangeError; and for a key of the table and a valid date it returns a cost
    object that carries the model, the date and the period that
    [getPricingForDate] resolves. *)
Theorem calculateCost_outcome
    (now : Z) (modelId : string) (usage : TokenUsage) (dateArg : option JsDate.t) :
  match lookupModel PRICING_CONFIG modelId, orNow now dateArg with
  | None, _ =>
      if inherited modelId
      then calculateCost now modelId usage dateArg
           = Throw (TypeError "modelConfig.pricing is not iterable")
      else calculateCost now modelId usage dateArg = Ok None
  | Some _, None =>
      calculateCost now modelId usage dateArg = Throw (RangeError "Invalid time value")
  | Some _, Some t =>
      exists c, calculateCost now modelId usage dateArg = Ok (Some c) /\
                Costs.modelId c = modelId /\ Costs.date c = t /\
                getPricingForDate modelId (Some t) = Ok (Some (Costs.pricing c))
  end.
Proof.
  destruct (lookupModel PRICING_CONFIG modelId) as [cfg|] eqn:Hcfg.
  - unfold calculateCost, calculateCostIn.
    fold (getPricingForDate modelId (orNow now dateArg)).
    destruct (known_model_priced modelId cfg (orNow now dateArg) Hcfg) as [p Hp].
    rewrite Hp. destruct (orNow now dateArg) as [t|]; simpl; [|reflexivity].
    eexists. split; [reflexivity|]. simpl. auto.
  - destruct (inherited modelId) eqn:Hi.
    + now apply calculateCost_inherited.
    + now apply calculateCost_unknown_model.
Qed.

(** * Linearity and sign of the cost *)

Lemma mandatory_price_linear n p :
  ((if truthyZ n then perMillion n p else 0) == inject_Z (orZero n) / 1000000 * p)%Q.
Proof.
  unfold truthyZ, perMillion. destruct n as [k|]; simpl.
  - destruct (Z.eqb_spec k 0) as [->|]; simpl; [|reflexivity].
    unfold Qeq. simpl. reflexivity.
  - unfold Qeq. simpl. reflexivity.
Qed.

Lemma optional_price_linear n price :
  ((if truthyZ n && truthyQ price then perMillion n (default 0 price) else 0)
   == inject_Z (orZero n) / 1000000 * default 0 price)%Q.
Proof.
  unfold truthyQ. destruct price as [p|]; simpl.
  - destruct (Qeq_bool p 0) eqn:Hp; simpl.
    + rewrite andb_false_r. apply Qeq_bool_eq in Hp. rewrite Hp. ring.
    + rewrite andb_true_r. apply mandatory_price_linear.
  - rewrite andb_false_r. ring.
Qed.

(** Every field of a returned cost object is the count times the price. *)
Lemma calculateCost_fields now m usage dateArg c :
  calculateCost now m usage dateArg = Ok (Some c) ->
  let p := Costs.pricing c in
  (Costs.prompt c == inject_Z (orZero (promptTokens usage)) / 1000000 * prompt p /\
   Costs.completion c
     == inject_Z (orZero (completionTokens usage)) / 1000000 * completion p /\
   Costs.cacheWrite c
     == inject_Z (orZero (cacheWriteTokens usage)) / 1000000
        * default 0 (write <$> cache p) /\
   Costs.cacheRead c
     == inject_Z (orZero (cacheReadTokens usage)) / 1000000
        * default 0 (read <$> cache p) /\
   Costs.reasoning c
     == inject_Z (orZero (reasoningTokens usage)) / 1000000
        * default 0 (tokens <$> reasoning p))%Q /\
  Costs.total c
    = (Costs.prompt c + Costs.completion c + Costs.cacheWrite c
       + Costs.cacheRead c + Costs.reasoning c)%Q /\
  getPricingForDate m (orNow now dateArg) = Ok (Some p).
Proof.
  unfold calculateCost, calculateCostIn.
  fold (getPricingForDate m (orNow now dateArg)).
  destruct (getPricingForDate m (orNow now dateArg)) as [[p|]|e0]; simpl;
    [|discriminate|discriminate].
  destruct (JsDate.toISOString (orNow now dateArg)) as [iso|e]; simpl; [|discriminate].
  intros [= <-]. simpl. split; [|split; reflexivity].
  repeat split;
    first [apply mandatory_price_linear | apply optional_price_linear].
Qed.

(** X3. At one date the cost is additive in the usage: the cost object of two
    usages taken together carries, field by field and in total, the sum of
    the two cost objects. *)
Theorem calculateCost_additive
    (now : Z) (modelId : string) (u v : TokenUsage) (dateArg : option JsDate.t)
    (cu cv : Costs.t) :
  calculateCost now modelId u dateArg = Ok (Some cu) ->
  calculateCost now modelId v dateArg = Ok (Some cv) ->
  exists c,
    calculateCost now modelId (addUsages u v) dateArg = Ok (Some c) /\
    (Costs.prompt c == Costs.prompt cu + Costs.prompt cv /\
     Costs.completion c == Costs.completion cu + Costs.completion cv /\
     Costs.cacheWrite c == Costs.cacheWrite cu + Costs.cacheWrite cv /\
     Costs.cacheRead c == Costs.cacheRead cu + Costs.cacheRead cv /\
     Costs.reasoning c == Costs.reasoning cu + Costs.reasoning cv /\
     Costs.total c == Costs.total cu + Costs.total cv)%Q.
Proof.
  intros Hu Hv.
  destruct (calculateCost now modelId (addUsages u v) dateArg) as [[c|]|e] eqn:Hc.
  - exists c. split; [reflexivity|].
    apply calculateCost_fields in Hu as ((Hu1 & Hu2 & Hu3 & Hu4 & Hu5) & Hut & Hup).
    apply calculateCost_fields in Hv as ((Hv1 & Hv2 & Hv3 & Hv4 & Hv5) & Hvt & Hvp).
    apply calculateCost_fields in Hc as ((Hc1 & Hc2 & Hc3 & Hc4 & Hc5) & Hct & Hcp).
    assert (Epu : Costs.pricing cu = Costs.pricing c) by congruence.
    assert (Epv : Costs.pricing cv = Costs.pricing c) by congruence.
    rewrite Epu in *. rewrite Epv in *. clear Epu Epv Hup Hvp Hcp.
    simpl in Hc1, Hc2, Hc3, Hc4, Hc5. rewrite !inject_Z_plus in *.
    assert (H1 : (Costs.prompt c == Costs.prompt cu + Costs.prompt cv)%Q)
      by (rewrite Hc1, Hu1, Hv1; field).
    assert (H2 : (Costs.completion c == Costs.completion cu + Costs.completion cv)%Q)
      by (rewrite Hc2, Hu2, Hv2; field).
    assert (H3 : (Costs.cacheWrite c == Costs.cacheWrite cu + Costs.cacheWrite cv)%Q)
      by (rewrite Hc3, Hu3, Hv3; field).
    assert (H4 : (Costs.cacheRead c == Costs.cacheRead cu + Costs.cacheRead cv)%Q)
      by (rewrite Hc4, Hu4, Hv4; field).
    assert (H5 : (Costs.reasoning c == Costs.reasoning cu + Costs.reasoning cv)%Q)
      by (rewrite Hc5, Hu5, Hv5; field).
    repeat split; try assumption.
    rewrite Hct, Hut, Hvt, H1, H2, H3, H4, H5. ring.
  - exfalso. revert Hu Hc. unfold calculateCost, calculateCostIn.
    destruct (getPricingForDateIn PRICING_CONFIG modelId (orNow now dateArg))
      as [[p|]|e0]; simpl; [|discriminate|discriminate].
    destruct (JsDate.toISOString (orNow now dateArg)); simpl; discriminate.
  - exfalso. revert Hu Hc. unfold calculateCost, calculateCostIn.
    destruct (getPricingForDateIn PRICING_CONFIG modelId (orNow now dateArg))
      as [[p|]|e0]; simpl; [|discriminate|discriminate].
    destruct (JsDate.toISOString (orNow now dateArg)); simpl; discriminate.
Qed.

Lemma calculateCost_additive_witness :
  exists c,
    calculateCost 0 "gpt-4o" (addUsages (completionOnly 1000) (completionOnly 500))
      (Some (JsDate.parse "2024-06-01")) = Ok (Some c) /\
    (Costs.total c == 0.0225)%Q.
Proof.
  assert (Hu : exists cu, calculateCost 0 "gpt-4o" (completionOnly 1000)
                            (Some (JsDate.parse "2024-06-01")) = Ok (Some cu)
                          /\ (Costs.total cu == 0.015)%Q)
    by (eexists; split; vm_compute; reflexivity).
  assert (Hv : exists cv, calculateCost 0 "gpt-4o" (completionOnly 500)
                            (Some (JsDate.parse "2024-06-01")) = Ok (Some cv)
                          /\ (Costs.total cv == 0.0075)%Q)
    by (eexists; split; vm_compute; reflexivity).
  destruct Hu as (cu & Hu & Htu). destruct Hv as (cv & Hv & Htv).
  destruct (calculateCost_additive 0 "gpt-4o" _ _ _ cu cv Hu Hv)
    as (c & Hc & _ & _ & _ & _ & _ & Ht).
  exists c. split; [exact Hc|]. rewrite Ht, Htu, Htv. reflexivity.
Defined.

Lemma prices_never_negative :
  Forall (fun kv => forallb pricesNonNegative (pricing (snd kv)) = true)
         PRICING_CONFIG.
Proof. unfold PRICING_CONFIG. repeat constructor. Qed.

Lemma resolved_prices_nonnegative m date p :
  getPricingForDate m date = Ok (Some p) ->
  (0 <= prompt p /\ 0 <= completion p /\
   0 <= default 0 (write <$> cache p) /\ 0 <= default 0 (read <$> cache p) /\
   0 <= default 0 (tokens <$> reasoning p))%Q.
Proof.
  intros Hp. apply getPricingForDate_member in Hp as (cfg & Hcfg & Hin).
  apply lookupModel_In in Hcfg.
  pose proof prices_never_negative as Hall.
  rewrite List.Forall_forall in Hall. specialize (Hall _ Hcfg). simpl in Hall.
  rewrite forallb_forall in Hall. specialize (Hall _ Hin).
  unfold pricesNonNegative in Hall.
  apply andb_prop in Hall as [Hall Hr]. apply andb_prop in Hall as [Hall Hc].
  apply andb_prop in Hall as [Hpr Hco].
  apply Qle_bool_iff in Hpr, Hco.
  repeat split; try assumption.
  - destruct (cache p) as [c|]; simpl; [|apply Qle_refl].
    apply andb_prop in Hc as [Hw _]. now apply Qle_bool_iff.
  - destruct (cache p) as [c|]; simpl; [|apply Qle_refl].
    apply andb_prop in Hc as [_ Hrd]. now apply Qle_bool_iff.
  - destruct (reasoning p) as [r|]; simpl; [|apply Qle_refl].
    now apply Qle_bool_iff.
Qed.

Lemma per_million_nonnegative n p :
  0 <= n -> (0 <= p)%Q -> (0 <= inject_Z n / 1000000 * p)%Q.
Proof.
  intros Hn Hp. apply Qmult_le_0_compat; [|exact Hp].
  apply Qle_shift_div_l; [reflexivity|].
  rewrite Qmult_0_l. change 0%Q with (inject_Z 0). now rewrite <- Zle_Qle.
Qed.

Lemma cost_object_nonnegative
    (now : Z) (modelId : string) (usage : TokenUsage) (dateArg : option JsDate.t)
    (c : Costs.t) :
  usageNonNegative usage ->
  calculateCost now modelId usage dateArg = Ok (Some c) ->
  (0 <= Costs.prompt c /\ 0 <= Costs.completion c /\ 0 <= Costs.cacheWrite c /\
   0 <= Costs.cacheRead c /\ 0 <= Costs.reasoning c /\ 0 <= Costs.total c)%Q.
Proof.
  intros (Hn1 & Hn2 & Hn3 & Hn4 & Hn5) Hc.
  apply calculateCost_fields in Hc as ((H1 & H2 & H3 & H4 & H5) & Ht & Hp).
  apply resolved_prices_nonnegative in Hp as (P1 & P2 & P3 & P4 & P5).
  assert (G1 : (0 <= Costs.prompt c)%Q)
    by (rewrite H1; now apply per_million_nonnegative).
  assert (G2 : (0 <= Costs.completion c)%Q)
    by (rewrite H2; now apply per_million_nonnegative).
  assert (G3 : (0 <= Costs.cacheWrite c)%Q)
    by (rewrite H3; now apply per_million_nonnegative).
  assert (G4 : (0 <= Costs.cacheRead c)%Q)
    by (rewrite H4; now apply per_million_nonnegative).
  assert (G5 : (0 <= Costs.reasoning c)%Q)
    by (rewrite H5; now apply per_million_nonnegative).
  repeat split; try assumption. rewrite Ht. lra.
Qed.

(** X4. For a usage without negative counts no field of the cost object that
    [calculateCost] returns is negative, and neither is its total: the table
    holds no negative price. *)
Theorem calculateCost_nonnegative
    (now : Z) (modelId : string) (usage : TokenUsage) (dateArg : option JsDate.t)
    (c : Costs.t) :
  usageNonNegative usage ->
  calculateCost now modelId usage dateArg = Ok (Some c) ->
  (0 <= Costs.prompt c /\ 0 <= Costs.completion c /\ 0 <= Costs.cacheWrite c /\
   0 <= Costs.cacheRead c /\ 0 <= Costs.reasoning c /\ 0 <= Costs.total c)%Q.
Proof.
  intros Hu Hc. exact (cost_object_nonnegative now modelId usage dateArg c Hu Hc).
Qed.

Lemma calculateCost_nonnegative_witness :
  exists c,
    calculateCost 0 "o1" (mkUsage (Some 500) (Some 1000) None None (Some 2000))
      (Some (JsDate.parse "2024-12-10")) = Ok (Some c) /\
    (0 <= Costs.total c)%Q.
Proof.
  assert (H : exists c, calculateCost 0 "o1"
                (mkUsage (Some 500) (Some 1000) None None (Some 2000))
                (Some (JsDate.parse "2024-12-10")) = Ok (Some c))
    by (eexists; vm_compute; reflexivity).
  destruct H as [c Hc]. exists c. split; [exact Hc|].
  refine (proj2 (proj2 (proj2 (proj2 (proj2
            (calculateCost_nonnegative 0 "o1" _ _ c _ Hc)))))).
  unfold usageNonNegative. simpl. lia.
Defined.

(** * getModelInfo *)

Lemma lookupModel_supported table m :
  is_Some (lookupModel table m) <-> In m (List.map fst table).
Proof.
  induction table as [|[k v] rest IH]; simpl.
  - split; [intros [? [=]]|contradiction].
  - destruct (String.eqb_spec k m) as [->|Hne].
    + split; [now left|eauto].
    + rewrite IH. split; [now right|]. intros [?|?]; [contradiction|assumption].
Qed.

Lemma existsb_false_forall {A} (f : A -> bool) l x :
  existsb f l = false -> In x l -> f x = false.
Proof.
  induction l as [|y l IH]; simpl; [contradiction|].
  intros H [->|Hin]; apply orb_false_elim in H as [Hy Hl]; [exact Hy|now apply IH].
Qed.

(** X5. [getModelInfo] describes exactly the models that [getSupportedModels]
    lists, under their own identifier. A model that it reports without caching
    support is never charged for cache tokens, and one that it reports without
    reasoning support is never charged for reasoning tokens. *)
Theorem getModelInfo_agrees (modelId : string) :
  ((exists info, getModelInfo modelId = Ok (Some info))
   <-> In modelId getSupportedModels) /\
  (forall info,
     getModelInfo modelId = Ok (Some info) ->
     info_modelId info = modelId /\
     forall now usage dateArg c,
       calculateCost now modelId usage dateArg = Ok (Some c) ->
       (supportsCaching info = false ->
        Costs.cacheWrite c == 0 /\ Costs.cacheRead c == 0)%Q /\
       (supportsReasoning info = false -> Costs.reasoning c == 0)%Q).
Proof.
  split.
  - unfold getModelInfo, getSupportedModels, getProperty.
    rewrite <- lookupModel_supported.
    destruct (lookupModel PRICING_CONFIG modelId); [split; eauto|].
    split; [|intros [? [=]]].
    destruct (inherited modelId); intros [? [=]].
  - unfold getModelInfo, getProperty. intros info Hinfo.
    destruct (lookupModel PRICING_CONFIG modelId) as [cfg|] eqn:Hcfg;
      [|destruct (inherited modelId); discriminate].
    injection Hinfo as <-. simpl. split; [reflexivity|].
    intros now usage dateArg c Hc.
    apply calculateCost_fields in Hc as ((_ & _ & H3 & H4 & H5) & _ & Hp).
    apply getPricingForDate_member in Hp as (cfg' & Hcfg' & Hin).
    assert (cfg' = cfg) by congruence. subst cfg'.
    split.
    + intros Hno. apply (existsb_false_forall _ _ _ Hno) in Hin.
      destruct (cache (Costs.pricing c)) as [cp|].
      * apply bool_decide_eq_false in Hin. exfalso. apply Hin. eauto.
      * simpl in H3, H4. rewrite H3, H4. split; ring.
    + intros Hno. apply (existsb_false_forall _ _ _ Hno) in Hin.
      destruct (reasoning (Costs.pricing c)) as [rp|].
      * apply bool_decide_eq_false in Hin. exfalso. apply Hin. eauto.
      * simpl in H5. rewrite H5. ring.
Qed.

Lemma getModelInfo_agrees_witness :
  exists info,
    getModelInfo "gpt-4o" = Ok (Some info) /\ info_modelId info = "gpt-4o" /\
    info_provider info = "OpenAI".
Proof.
  eexists. split; [reflexivity|]. split; [|reflexivity].
  exact (proj1 (proj2 (getModelInfo_agrees "gpt-4o") _ eq_refl)).
Defined.

(** * The three ways through the loop body *)

Lemma processTransaction_priced now st t m c :
  modelOf t = Some m ->
  calculateCost now m (currentTokenUsage t) (Some (newDate (createdAt t)))
    = Ok (Some c) ->
  processTransaction now st t
  = Ok (mkAgg (addCosts (costBreakdown st) c)
              (addUsage (tokenUsage st) (currentTokenUsage t))
              (mapSet (modelBreakdown st) m
                 (mkModelData (md_modelId (entryOf st m))
                    (md_cost (entryOf st m) + Costs.total c)
                    (addUsage (md_tokenUsage (entryOf st m)) (currentTokenUsage t))
                    (transactionCount (entryOf st m) + 1)))
              (if JsDate.gtb (newDate (createdAt t)) (lastUpdated st)
               then newDate (createdAt t) else lastUpdated st)).
Proof.
  intros Hm Hc. unfold processTransaction. rewrite Hm. cbv zeta.
  rewrite Hc. reflexivity.
Qed.

Lemma processTransaction_cases now st t st' :
  processTransaction now st t = Ok st' ->
  (modelOf t = None /\
   st' = mkAgg (costBreakdown st) (tokenUsage st) (modelBreakdown st)
               (if JsDate.gtb (newDate (createdAt t)) (lastUpdated st)
                then newDate (createdAt t) else lastUpdated st))
  \/ (exists m,
        modelOf t = Some m /\ lookupModel PRICING_CONFIG m = None /\
        st' = mkAgg (addFallback (costBreakdown st) t)
                (addUsage (tokenUsage st) (currentTokenUsage t))
                (mapSet (modelBreakdown st) m
                   (mkModelData (md_modelId (entryOf st m))
                      (md_cost (entryOf st m) + fallbackCost t)
                      (md_tokenUsage (entryOf st m))
                      (transactionCount (entryOf st m) + 1)))
                (if JsDate.gtb (newDate (createdAt t)) (lastUpdated st)
                 then newDate (createdAt t) else lastUpdated st))
  \/ (exists m c,
        modelOf t = Some m /\ is_Some (lookupModel PRICING_CONFIG m) /\
        calculateCost now m (currentTokenUsage t) (Some (newDate (createdAt t)))
          = Ok (Some c) /\
        st' = mkAgg (addCosts (costBreakdown st) c)
                (addUsage (tokenUsage st) (currentTokenUsage t))
                (mapSet (modelBreakdown st) m
                   (mkModelData (md_modelId (entryOf st m))
                      (md_cost (entryOf st m) + Costs.total c)
                      (addUsage (md_tokenUsage (entryOf st m)) (currentTokenUsage t))
                      (transactionCount (entryOf st m) + 1)))
                (if JsDate.gtb (newDate (createdAt t)) (lastUpdated st)
                 then newDate (createdAt t) else lastUpdated st)).
Proof.
  intros Hstep.
  destruct (modelOf t) as [m|] eqn:Hm.
  - destruct (calculateCost now m (currentTokenUsage t)
                (Some (newDate (createdAt t)))) as [[c|]|e] eqn:Hc.
    + right. right. exists m, c.
      rewrite (processTransaction_priced now st t m c Hm Hc) in Hstep.
      injection Hstep as <-.
      split; [reflexivity|]. split; [|split; [exact Hc|reflexivity]].
      destruct (lookupModel PRICING_CONFIG m) eqn:Hl; [eauto|].
      pose proof (calculateCost_unknown_model now m (currentTokenUsage t)
                    (Some (newDate (createdAt t))) Hl
                    (calculateCost_proper _ _ _ _ _ Hc)) as Ho.
      congruence.
    + right. left. exists m.
      apply calculateCost_miss in Hc as Hmiss.
      rewrite (processTransaction_miss now st t m Hm Hmiss) in Hstep.
      injection Hstep as <-.
      split; [reflexivity|]. split; [|reflexivity].
      destruct (lookupModel PRICING_CONFIG m) as [cfg|] eqn:Hl; [|reflexivity].
      destruct (known_model_priced m cfg (newDate (createdAt t)) Hl) as [p Hp].
      congruence.
    + unfold processTransaction in Hstep. rewrite Hm in Hstep. cbv zeta in Hstep.
      rewrite Hc in Hstep. discriminate.
  - left. split; [reflexivity|].
    rewrite (processTransaction_no_model now st t Hm) in Hstep.
    now injection Hstep as <-.
Qed.

(** A quantity that every iteration changes by an amount that depends on the
    transaction alone is, after the loop, the sum of these amounts. *)
Lemma processAll_additive now (q : AggState -> Z) (d : Transaction -> Z) :
  (forall st t st', processTransaction now st t = Ok st' -> q st' = q st + d t) ->
  forall txs st st',
    processAll now st txs = Ok st' ->
    q st' = q st + foldr (fun t acc => d t + acc) 0 txs.
Proof.
  intros Hstep. induction txs as [|t rest IH]; simpl; intros st st' Hall.
  - injection Hall as <-. lia.
  - destruct (processTransaction now st t) as [st1|e] eqn:H1; simpl in Hall;
      [|discriminate].
    rewrite (IH _ _ Hall), (Hstep _ _ _ H1). lia.
Qed.

Lemma processAll_invariant now (I : AggState -> Prop) :
  (forall st t st', I st -> processTransaction now st t = Ok st' -> I st') ->
  forall txs st st', I st -> processAll now st txs = Ok st' -> I st'.
Proof.
  intros Hstep. induction txs as [|t rest IH]; simpl; intros st st' Hi Hall.
  - now injection Hall as <-.
  - destruct (processTransaction now st t) as [st1|e] eqn:H1; simpl in Hall;
      [|discriminate].
    eapply IH; [|exact Hall]. eapply Hstep; eauto.
Qed.

Lemma sumOver_mapSet f m k v :
  sumOver f (mapSet m k v)
  = sumOver f m - (if mapGet m k is Some old then f old else 0) + f v.
Proof.
  induction m as [|[k' v'] rest IH]; simpl.
  - lia.
  - destruct (String.eqb k' k); simpl; [lia|]. rewrite IH. lia.
Qed.

Lemma sumEntries_insert f x l :
  sumEntries f (insertByCost x l) = f (me_data x) + sumEntries f l.
Proof.
  induction l as [|y l IH]; simpl; [reflexivity|].
  destruct (Qle_bool _ _); simpl; [reflexivity|]. rewrite IH. lia.
Qed.

Lemma sumEntries_sort f (m : ModelMap) :
  sumEntries f (sortByCost (List.map (fun kv => entryFor (snd kv)) m))
  = sumOver f m.
Proof.
  unfold sortByCost.
  induction m as [|[k v] rest IH]; simpl; [reflexivity|].
  now rewrite sumEntries_insert, IH.
Qed.

(** * Conservation of tokens and of transactions *)

Lemma sumTotals_addUsage a u : sumTotals (addUsage a u) = sumTotals a + usageSum u.
Proof. unfold sumTotals, addUsage, usageSum. simpl. lia. Qed.

Lemma usageSum_currentTokenUsage t : 0 <= usageSum (currentTokenUsage t).
Proof.
  unfold currentTokenUsage, usageSum, emptyUsage, absOrZero.
  destruct (isType t "prompt"); [destruct (inputTokens t)|];
    [| |destruct (isType t "completion"); [|destruct (isType t "reasoning")]];
    simpl.
  all: lia.
Qed.

Lemma unpricedTokens_nonnegative txs : 0 <= unpricedTokens txs.
Proof.
  unfold unpricedTokens.
  induction txs as [|t rest IH]; cbn [foldr]; [lia|].
  pose proof (usageSum_currentTokenUsage t).
  destruct (modelOf t) as [m|]; [destruct (lookupModel PRICING_CONFIG m)|]; lia.
Qed.

Lemma entry_tokens_default st m :
  (if mapGet (modelBreakdown st) m is Some old
   then sumTotals (md_tokenUsage old) else 0)
  = sumTotals (md_tokenUsage (entryOf st m)).
Proof. unfold entryOf. destruct (mapGet (modelBreakdown st) m); reflexivity. Qed.

Lemma entry_count_default st m :
  (if mapGet (modelBreakdown st) m is Some old then transactionCount old else 0)
  = transactionCount (entryOf st m).
Proof. unfold entryOf. destruct (mapGet (modelBreakdown st) m); reflexivity. Qed.

(** X7. The token totals of a summary are the tokens of its per-model entries
    plus the tokens of the transactions whose model has no pricing entry; in
    particular the entries never hold more tokens than the totals, and hold
    all of them when every named model is priced. *)
Theorem tokens_are_conserved
    (now : Z) (cid : string) (txs : list Transaction) (s : ConversationCostSummary) :
  costOfTransactions now cid (Some txs) = Ok (Some s) ->
  sumTotals (s_tokenUsage s)
    = sumModelTokens (s_modelBreakdown s) + unpricedTokens txs /\
  sumModelTokens (s_modelBreakdown s) <= sumTotals (s_tokenUsage s).
Proof.
  intros Hs. destruct (summary_state _ _ _ _ Hs) as (st & Hall & ->).
  cbn [s_tokenUsage s_modelBreakdown summaryOf].
  change (sumModelTokens ?l)
    with (sumEntries (fun d => sumTotals (md_tokenUsage d)) l).
  rewrite sumEntries_sort.
  pose proof (processAll_additive now
    (fun st => sumTotals (tokenUsage st)
               - sumOver (fun d => sumTotals (md_tokenUsage d)) (modelBreakdown st))
    (fun t => match modelOf t with
              | Some m => match lookupModel PRICING_CONFIG m with
                          | Some _ => 0
                          | None => usageSum (currentTokenUsage t)
                          end
              | None => 0
              end)) as Hadd.
  cbv beta in Hadd.
  assert (Hq : sumTotals (tokenUsage st)
               - sumOver (fun d => sumTotals (md_tokenUsage d)) (modelBreakdown st)
               = unpricedTokens txs).
  { assert (H0 : sumTotals (tokenUsage initState)
                 - sumOver (fun d => sumTotals (md_tokenUsage d))
                     (modelBreakdown initState) = 0) by reflexivity.
    unfold unpricedTokens. rewrite <- (Z.add_0_l (foldr _ _ _)), <- H0.
    apply Hadd; [|exact Hall].
    clear. intros st t st' Hstep.
    destruct (processTransaction_cases _ _ _ _ Hstep)
      as [[-> ->]|[(m & -> & -> & ->)|(m & c & -> & [cfg ->] & _ & ->)]];
      cbn [tokenUsage modelBreakdown].
    - lia.
    - rewrite sumOver_mapSet, sumTotals_addUsage. cbn [md_tokenUsage].
      rewrite (entry_tokens_default st m). lia.
    - rewrite sumOver_mapSet, sumTotals_addUsage. cbn [md_tokenUsage].
      rewrite sumTotals_addUsage, (entry_tokens_default st m). lia. }
  pose proof (unpricedTokens_nonnegative txs). lia.
Qed.

Lemma tokens_are_conserved_witness :
  exists s,
    costOfTransactions 0 "c1" (Some mixedTransactions) = Ok (Some s) /\
    sumTotals (s_tokenUsage s) = 5300 /\
    sumModelTokens (s_modelBreakdown s) = 4300.
Proof.
  assert (H : exists s, costOfTransactions 0 "c1" (Some mixedTransactions) = Ok (Some s)
                        /\ sumTotals (s_tokenUsage s) = 5300)
    by (eexists; split; vm_compute; reflexivity).
  destruct H as (s & Hs & Ht). exists s. split; [exact Hs|]. split; [exact Ht|].
  pose proof (proj1 (tokens_are_conserved 0 "c1" mixedTransactions s Hs)) as Hc.
  rewrite Ht in Hc.
  assert (Hu : unpricedTokens mixedTransactions = 1000) by (vm_compute; reflexivity).
  rewrite Hu in Hc. clear - Hc.
  apply (Z.add_cancel_r _ _ 1000). now rewrite <- Hc.
Defined.

(** X8. The transaction counts of the per-model entries of a summary add up
    to the number of transactions that name a model: each of them is counted
    once, whether its pricing resolves or not, and the others are not counted. *)
Theorem transactions_are_counted
    (now : Z) (cid : string) (txs : list Transaction) (s : ConversationCostSummary) :
  costOfTransactions now cid (Some txs) = Ok (Some s) ->
  sumEntries transactionCount (s_modelBreakdown s)
  = Z.of_nat (List.length (omap modelOf txs)).
Proof.
  intros Hs. destruct (summary_state _ _ _ _ Hs) as (st & Hall & ->).
  cbn [s_modelBreakdown summaryOf]. rewrite sumEntries_sort.
  pose proof (processAll_additive now
    (fun st => sumOver transactionCount (modelBreakdown st))
    (fun t => if modelOf t is Some _ then 1 else 0)) as Hadd.
  cbv beta in Hadd. rewrite (Hadd) with (txs := txs) (st := initState); [|
    |exact Hall].
  - cbn [initState modelBreakdown sumOver foldr]. clear.
    induction txs as [|t rest IH]; [reflexivity|].
    change (omap modelOf (t :: rest))
      with (match modelOf t with
            | Some y => y :: omap modelOf rest
            | None => omap modelOf rest
            end).
    cbn [foldr]. destruct (modelOf t); cbn [List.length]; lia.
  - clear. intros st t st' Hstep.
    destruct (processTransaction_cases _ _ _ _ Hstep)
      as [[-> ->]|[(m & -> & _ & ->)|(m & c & -> & _ & _ & ->)]];
      cbn [modelBreakdown].
    + lia.
    + rewrite sumOver_mapSet. cbn [transactionCount].
      rewrite (entry_count_default st m). lia.
    + rewrite sumOver_mapSet. cbn [transactionCount].
      rewrite (entry_count_default st m). lia.
Qed.

Lemma transactions_are_counted_witness :
  exists s,
    costOfTransactions 0 "c1" (Some mixedTransactions) = Ok (Some s) /\
    sumEntries transactionCount (s_modelBreakdown s) = 4.
Proof.
  assert (H : exists s, costOfTransactions 0 "c1" (Some mixedTransactions) = Ok (Some s))
    by (eexists; vm_compute; reflexivity).
  destruct H as (s & Hs). exists s. split; [exact Hs|].
  rewrite (transactions_are_counted 0 "c1" mixedTransactions s Hs).
  reflexivity.
Defined.

(** * The array of per-model entries *)

Lemma insertByCost_perm x l : insertByCost x l ≡ₚ x :: l.
Proof.
  induction l as [|y l IH]; simpl; [reflexivity|].
  destruct (Qle_bool _ _); [reflexivity|].
  rewrite IH. apply perm_swap.
Qed.

Lemma sortByCost_perm l : sortByCost l ≡ₚ l.
Proof.
  unfold sortByCost. induction l as [|x l IH]; simpl; [reflexivity|].
  now rewrite insertByCost_perm, IH.
Qed.

Lemma descending_head_bound x l c :
  descending (x :: l) -> (md_cost (me_data x) <= c)%Q ->
  Forall (fun y => (md_cost (me_data y) <= c)%Q) (x :: l).
Proof.
  intros [Hall _] Hx. constructor; [exact Hx|].
  eapply Forall_impl; [exact Hall|]. intros y Hy. simpl in Hy.
  now apply (Qle_trans _ (md_cost (me_data x))).
Qed.

Lemma insertByCost_descending x l : descending l -> descending (insertByCost x l).
Proof.
  induction l as [|y l IH]; intros Hd.
  - simpl. split; [constructor|exact I].
  - simpl. destruct (Qle_bool (md_cost (me_data y)) (md_cost (me_data x))) eqn:Hle.
    + apply Qle_bool_iff in Hle. split; [|exact Hd].
      now apply descending_head_bound.
    + assert (Hxy : (md_cost (me_data x) <= md_cost (me_data y))%Q).
      { apply Qlt_le_weak, Qnot_le_lt. intros H.
        apply Qle_bool_iff in H. congruence. }
      destruct Hd as [Hall Hd]. split; [|now apply IH].
      rewrite insertByCost_perm. now constructor.
Qed.

Lemma sortByCost_descending l : descending (sortByCost l).
Proof.
  unfold sortByCost. induction l as [|x l IH]; simpl; [exact I|].
  now apply insertByCost_descending.
Qed.

Lemma withCost_insert q x l : withCost q (insertByCost x l) = withCost q (x :: l).
Proof.
  unfold withCost. induction l as [|y l IH]; [reflexivity|].
  cbn [insertByCost].
  destruct (Qle_bool (md_cost (me_data y)) (md_cost (me_data x))) eqn:Hle;
    [reflexivity|].
  cbn [List.filter] in *. rewrite IH.
  destruct (Qeq_bool (md_cost (me_data y)) q) eqn:Hy;
    destruct (Qeq_bool (md_cost (me_data x)) q) eqn:Hx; try reflexivity.
  exfalso. apply Qeq_bool_eq in Hx, Hy.
  assert (H : (md_cost (me_data y) <= md_cost (me_data x))%Q)
    by (rewrite Hx, Hy; apply Qle_refl).
  apply Qle_bool_iff in H. congruence.
Qed.

(** X9. The sort that orders the per-model entries keeps every entry, puts
    the larger cost first, and leaves entries of equal cost in the order in
    which their models first occurred. *)
Theorem sortByCost_stable_descending (entries : list ModelEntry) :
  sortByCost entries ≡ₚ entries /\
  descending (sortByCost entries) /\
  forall q, withCost q (sortByCost entries) = withCost q entries.
Proof.
  split; [apply sortByCost_perm|]. split; [apply sortByCost_descending|].
  intros q. unfold sortByCost.
  induction entries as [|x l IH]; [reflexivity|].
  cbn [foldr]. rewrite withCost_insert. unfold withCost in *. cbn [List.filter].
  now rewrite IH.
Qed.

Lemma mapGet_Some_In m k v : mapGet m k = Some v -> (k, v) ∈ m.
Proof.
  induction m as [|[k' v'] rest IH]; simpl; [discriminate|].
  destruct (String.eqb_spec k' k) as [->|].
  - intros [= ->]. apply list_elem_of_here.
  - intros H. apply list_elem_of_further. now apply IH.
Qed.

Lemma mapGet_None_keys m k : mapGet m k = None -> k ∉ m.*1.
Proof.
  induction m as [|[k' v'] rest IH]; [intros _; apply not_elem_of_nil|].
  cbn [mapGet]. rewrite fmap_cons. cbn [fst].
  destruct (String.eqb_spec k' k) as [->|Hne]; [discriminate|].
  intros H [?|?]%elem_of_cons; [congruence|]. now apply IH.
Qed.

Lemma keys_mapSet m k v :
  (mapSet m k v).*1 = if mapGet m k is Some _ then m.*1 else m.*1 ++ [k].
Proof.
  induction m as [|[k' v'] rest IH]; [reflexivity|].
  cbn [mapSet mapGet].
  destruct (String.eqb k' k); [reflexivity|].
  rewrite !fmap_cons, IH. now destruct (mapGet rest k).
Qed.

(** The keys of the map are distinct and every entry carries its key. *)
Lemma keyed_invariant now : forall txs st st',
  NoDup (modelBreakdown st).*1 /\
  Forall (fun kv => md_modelId kv.2 = kv.1) (modelBreakdown st) ->
  processAll now st txs = Ok st' ->
  NoDup (modelBreakdown st').*1 /\
  Forall (fun kv => md_modelId kv.2 = kv.1) (modelBreakdown st').
Proof.
  apply (processAll_invariant now
    (fun st => NoDup (modelBreakdown st).*1 /\
               Forall (fun kv => md_modelId kv.2 = kv.1) (modelBreakdown st))).
  intros st t st' [Hnd Hid] Hstep.
  assert (Hentry : forall m, md_modelId (entryOf st m) = m).
  { intros m. unfold entryOf.
    destruct (mapGet (modelBreakdown st) m) as [old|] eqn:Hg; [|reflexivity].
    apply mapGet_Some_In in Hg. rewrite Forall_forall in Hid.
    exact (Hid _ Hg). }
  assert (Hset : forall m v, md_modelId v = m ->
            NoDup (mapSet (modelBreakdown st) m v).*1 /\
            Forall (fun kv => md_modelId kv.2 = kv.1)
                   (mapSet (modelBreakdown st) m v)).
  { intros m v Hv. split; [|now apply Forall_mapSet].
    rewrite keys_mapSet.
    destruct (mapGet (modelBreakdown st) m) eqn:Hg; [exact Hnd|].
    apply NoDup_app. split; [exact Hnd|]. split; [|apply NoDup_singleton].
    intros x Hx ->%list_elem_of_singleton.
    now apply (mapGet_None_keys _ _ Hg). }
  destruct (processTransaction_cases _ _ _ _ Hstep)
    as [[_ ->]|[(m & _ & _ & ->)|(m & c & _ & _ & _ & ->)]];
    cbn [modelBreakdown]; [now split| |]; apply Hset; apply Hentry.
Qed.

Lemma keys_grow now : forall txs st st',
  processAll now st txs = Ok st' ->
  forall k, k ∈ (modelBreakdown st').*1 <->
            k ∈ (modelBreakdown st).*1 \/ exists t, t ∈ txs /\ modelOf t = Some k.
Proof.
  induction txs as [|t rest IH]; simpl; intros st st' Hall k.
  - injection Hall as <-. split; [now left|].
    intros [?|(t & Ht & _)]; [assumption|]. now apply elem_of_nil in Ht.
  - destruct (processTransaction now st t) as [st1|e] eqn:Hstep; simpl in Hall;
      [|discriminate].
    rewrite (IH _ _ Hall k).
    assert (H1 : k ∈ (modelBreakdown st1).*1 <->
                 k ∈ (modelBreakdown st).*1 \/ modelOf t = Some k).
    { assert (Hset : forall m v, modelOf t = Some m ->
                k ∈ (mapSet (modelBreakdown st) m v).*1 <->
                k ∈ (modelBreakdown st).*1 \/ modelOf t = Some k).
      { intros m v Hm. rewrite keys_mapSet, Hm.
        destruct (mapGet (modelBreakdown st) m) as [old|] eqn:Hg.
        - split; [now left|]. intros [?|[= <-]]; [assumption|].
          apply mapGet_Some_In in Hg.
          apply list_elem_of_fmap. now exists (m, old).
        - rewrite elem_of_app, list_elem_of_singleton.
          split; (intros [?|?]; [now left|right; congruence]). }
      destruct (processTransaction_cases _ _ _ _ Hstep)
        as [[Hm ->]|[(m & Hm & _ & ->)|(m & c & Hm & _ & _ & ->)]];
        cbn [modelBreakdown]; [|now apply Hset|now apply Hset].
      rewrite Hm. split; [now left|]. now intros [?|[=]]. }
    rewrite H1. split.
    + intros [[?|?]|(t' & Ht' & Hk)]; [now left| |].
      * right. exists t. split; [apply list_elem_of_here|assumption].
      * right. exists t'. split; [now apply list_elem_of_further|assumption].
    + intros [?|(t' & Ht' & Hk)]; [now left; left|].
      apply elem_of_cons in Ht' as [->|Ht']; [now left; right|].
      right. eauto.
Qed.

Lemma models_of_state now cid txs st :
  processAll now initState txs = Ok st ->
  NoDup (modelsOf (s_modelBreakdown (summaryOf cid st))) /\
  forall m, m ∈ modelsOf (s_modelBreakdown (summaryOf cid st)) <->
            exists t, t ∈ txs /\ modelOf t = Some m.
Proof.
  intros Hall.
  cbn [s_modelBreakdown summaryOf].
  destruct (keyed_invariant now txs initState st) as [Hnd Hid];
    [split; constructor|exact Hall|].
  assert (Hperm : modelsOf (sortByCost
                    (List.map (fun kv => entryFor kv.2) (modelBreakdown st)))
                  ≡ₚ (modelBreakdown st).*1).
  { unfold modelsOf. rewrite sortByCost_perm, List.map_map.
    assert (E : List.map (fun kv => md_modelId (me_data (entryFor kv.2)))
                  (modelBreakdown st) = (modelBreakdown st).*1).
    { clear - Hid. induction Hid as [|[k v] rest Hkv _ IH]; [reflexivity|].
      cbn [List.map]. rewrite fmap_cons, IH. simpl in *. now rewrite Hkv. }
    now rewrite E. }
  split; [now rewrite Hperm|].
  intros m. rewrite Hperm, (keys_grow now txs initState st Hall m).
  split; [|now right]. intros [H|H]; [|exact H]. now apply elem_of_nil in H.
Qed.

(** X10. The per-model entries of a summary name each model once, and the
    models they name are exactly those that the transactions name. *)
Theorem entries_are_the_models_named
    (now : Z) (cid : string) (txs : list Transaction) (s : ConversationCostSummary) :
  costOfTransactions now cid (Some txs) = Ok (Some s) ->
  NoDup (modelsOf (s_modelBreakdown s)) /\
  forall m, m ∈ modelsOf (s_modelBreakdown s) <->
            exists t, t ∈ txs /\ modelOf t = Some m.
Proof.
  intros Hs. destruct (summary_state _ _ _ _ Hs) as (st & Hall & ->).
  exact (models_of_state now cid txs st Hall).
Qed.

Lemma entries_are_the_models_named_witness :
  exists s,
    costOfTransactions 0 "c1" (Some mixedTransactions) = Ok (Some s) /\
    "unknown-model-xyz" ∈ modelsOf (s_modelBreakdown s).
Proof.
  assert (H : exists s, costOfTransactions 0 "c1" (Some mixedTransactions) = Ok (Some s))
    by (eexists; vm_compute; reflexivity).
  destruct H as (s & Hs). exists s. split; [exact Hs|].
  apply (proj2 (entries_are_the_models_named 0 "c1" mixedTransactions s Hs)).
  exists unknownModelTx. split; [|reflexivity].
  apply list_elem_of_further, list_elem_of_here.
Defined.

(** * When the aggregation throws *)

Lemma getPricingForDate_undefined m date :
  lookupModel PRICING_CONFIG m = None -> inherited m = false ->
  getPricingForDate m date = Ok None.
Proof.
  intros Hl Hi. unfold getPricingForDate, getPricingForDateIn.
  now rewrite (getProperty_undefined _ _ Hl Hi).
Qed.

Lemma processTransaction_outcome now st t :
  (processable t -> returns (processTransaction now st t) = true) /\
  (~ properlyNamed t ->
   processTransaction now st t
   = Throw (TypeError "modelConfig.pricing is not iterable")) /\
  (properlyNamed t -> ~ datedIfPriced t ->
   processTransaction now st t = Throw (RangeError "Invalid time value")).
Proof.
  unfold processable, properlyNamed, datedIfPriced. split; [|split].
  - intros [Hn Hd]. destruct (modelOf t) as [m|] eqn:Hm.
    + destruct (lookupModel PRICING_CONFIG m) as [cfg|] eqn:Hl.
      * destruct (Hd m eq_refl ltac:(eauto)) as [x Hx].
        apply (processTransaction_dated now st t x); [|exact Hx].
        intros m' Hm'. rewrite Hm in Hm'. injection Hm' as <-. now apply Hn.
      * pose proof (getPricingForDate_undefined m (newDate (createdAt t)) Hl
                      (Hn m eq_refl)) as Hmiss.
        now rewrite (processTransaction_miss now st t m Hm Hmiss).
    + now rewrite (processTransaction_no_model now st t Hm).
  - intros Hn. destruct (modelOf t) as [m|] eqn:Hm.
    + destruct (inherited m) eqn:Hi.
      * unfold processTransaction. rewrite Hm. cbv zeta.
        now rewrite (calculateCost_inherited _ _ _ _ Hi).
      * exfalso. apply Hn. now intros m' [= <-].
    + exfalso. apply Hn. intros m' [=].
  - intros _ Hn. destruct (modelOf t) as [m|] eqn:Hm.
    + destruct (lookupModel PRICING_CONFIG m) as [cfg|] eqn:Hl.
      * destruct (createdAt t) as [x|] eqn:Hx.
        -- exfalso. apply Hn. intros; eauto.
        -- unfold processTransaction. rewrite Hm. cbv zeta.
           pose proof (calculateCost_known_model now m (currentTokenUsage t)
                         (Some (newDate (createdAt t))) cfg Hl) as Ho.
           unfold orNow, newDate in Ho. rewrite Hx in Ho.
           unfold newDate. rewrite Hx, Ho. reflexivity.
      * exfalso. apply Hn. intros m' [= <-] [cfg' Hc']. congruence.
    + exfalso. apply Hn. intros m' [=].
Qed.

Lemma datedIfPriced_dec t : datedIfPriced t \/ ~ datedIfPriced t.
Proof.
  unfold datedIfPriced.
  destruct (createdAt t) as [x|]; [left; eauto|].
  destruct (modelOf t) as [m|]; [|left; intros m' [=]].
  destruct (lookupModel PRICING_CONFIG m) as [cfg|] eqn:Hl.
  - right. intros H. destruct (H m eq_refl ltac:(eauto)) as [? [=]].
  - left. intros m' [= <-] [cfg' Hc']. congruence.
Qed.

Lemma properlyNamed_dec t : properlyNamed t \/ ~ properlyNamed t.
Proof.
  unfold properlyNamed.
  destruct (modelOf t) as [m|]; [|left; intros m' [=]].
  destruct (inherited m) eqn:Hi.
  - right. intros H. specialize (H m eq_refl). congruence.
  - left. now intros m' [= <-].
Qed.

Lemma processTransaction_verdict now st t :
  (processable t /\ returns (processTransaction now st t) = true)
  \/ (exists e, thrownBy t e /\ processTransaction now st t = Throw e).
Proof.
  destruct (processTransaction_outcome now st t) as (Hok & Htype & Hrange).
  destruct (properlyNamed_dec t) as [Hn|Hn].
  - destruct (datedIfPriced_dec t) as [Hd|Hd].
    + left. split; [now split|]. apply Hok. now split.
    + right. eexists. split; [right; eauto|]. now apply Hrange.
  - right. eexists. split; [left; eauto|]. now apply Htype.
Qed.

(** The loop runs to its end exactly on processable transactions; otherwise
    it throws what its first transaction that is not processable throws. *)
Lemma processAll_outcome now txs : forall st,
  (Forall processable txs /\ returns (processAll now st txs) = true)
  \/ (exists before t after e,
        txs = before ++ t :: after /\ Forall processable before /\
        thrownBy t e /\ processAll now st txs = Throw e).
Proof.
  induction txs as [|t rest IH]; intros st; simpl.
  - left. split; [constructor|reflexivity].
  - destruct (processTransaction_verdict now st t) as [[Hp Hok]|(e & He & Hthrow)].
    + destruct (processTransaction now st t) as [st1|e]; [|discriminate]. simpl.
      destruct (IH st1) as [[Hall Hret]|(before & t' & after & e & -> & Hb & He & Hthrow)].
      * left. split; [now constructor|exact Hret].
      * right. exists (t :: before), t', after, e.
        repeat split; try assumption. now constructor.
    + right. exists [], t, rest, e. rewrite Hthrow.
      repeat split; [constructor|exact He].
Qed.

Lemma thrownBy_not_processable t e : thrownBy t e -> ~ processable t.
Proof. intros [[Hn _]|(_ & Hd & _)] [Hn' Hd']; contradiction. Qed.

Lemma not_all_processable before t after e :
  thrownBy t e -> ~ Forall processable (before ++ t :: after).
Proof.
  intros He Hall. apply List.Forall_app in Hall as [_ Hall].
  inversion Hall; subst. now apply (thrownBy_not_processable t e).
Qed.

Lemma costOfTransactions_returns now cid txs :
  Forall processable txs ->
  returns (costOfTransactions now cid (Some txs)) = true.
Proof.
  intros Hall. unfold costOfTransactions.
  destruct txs as [|t rest]; [reflexivity|].
  destruct (processAll_outcome now (t :: rest) initState)
    as [[_ Hok]|(before & t' & after & e & Heq & _ & He & _)].
  - destruct (processAll now initState (t :: rest)) as [st|e] eqn:Hst;
      [|discriminate].
    simpl. now rewrite (processAll_summary now cid st _ Hst).
  - rewrite Heq in Hall. now destruct (not_all_processable _ _ _ _ He Hall).
Qed.

Lemma costOfTransactions_throws now cid txs e :
  costOfTransactions now cid (Some txs) = Throw e ->
  exists before t after,
    txs = before ++ t :: after /\ Forall processable before /\ thrownBy t e.
Proof.
  unfold costOfTransactions. destruct txs as [|t rest]; [discriminate|].
  destruct (processAll_outcome now (t :: rest) initState)
    as [[_ Hok]|(before & t' & after & e' & Heq & Hb & He & Hthrow)].
  - destruct (processAll now initState (t :: rest)) as [st|e'] eqn:Hst;
      [|discriminate].
    simpl. rewrite (processAll_summary now cid st _ Hst). discriminate.
  - rewrite Hthrow. simpl. intros [= <-]. exists before, t', after. auto.
Qed.

Lemma costOfTransactions_processable now cid txs :
  returns (costOfTransactions now cid (Some txs)) = true ->
  Forall processable txs.
Proof.
  intros Hret. unfold costOfTransactions in Hret.
  destruct txs as [|t rest]; [constructor|].
  destruct (processAll_outcome now (t :: rest) initState)
    as [[Hall _]|(before & t' & after & e' & Heq & Hb & He & Hthrow)];
    [exact Hall|].
  rewrite Hthrow in Hret. discriminate.
Qed.

(** X11. The aggregation of a list of transactions returns exactly when every
    transaction that names a model names one that is not inherited from
    [Object.prototype], and carries its timestamp if the model is priced.
    Otherwise it throws what the first other transaction makes
    [calculateCost] throw: the TypeError for an inherited name, the
    RangeError of the invalid date for a priced model without timestamp. *)
Theorem aggregation_throws_exactly
    (now : Z) (cid : string) (txs : list Transaction) :
  (returns (costOfTransactions now cid (Some txs)) = true
   <-> Forall (fun t => properlyNamed t /\ datedIfPriced t) txs) /\
  (forall e, costOfTransactions now cid (Some txs) = Throw e ->
     exists before t after,
       txs = before ++ t :: after /\
       Forall (fun t => properlyNamed t /\ datedIfPriced t) before /\
       ((~ properlyNamed t /\
         e = TypeError "modelConfig.pricing is not iterable")
        \/ (properlyNamed t /\ ~ datedIfPriced t /\
            e = RangeError "Invalid time value"))).
Proof.
  split.
  - split.
    + apply costOfTransactions_processable.
    + apply costOfTransactions_returns.
  - intros e He. exact (costOfTransactions_throws now cid txs e He).
Qed.

Lemma aggregation_throws_exactly_witness :
  returns (costOfTransactions 0 "c1" (Some mixedTransactions)) = true.
Proof.
  apply (proj1 (aggregation_throws_exactly 0 "c1" mixedTransactions)).
  unfold mixedTransactions.
  repeat (constructor;
          [split;
           [intros m Hm;
            first [vm_compute in Hm; discriminate Hm
                  |vm_compute in Hm; injection Hm as <-; reflexivity]
           |intros m Hm Hp;
            first [eexists; vm_compute; reflexivity
                  |vm_compute in Hm; discriminate Hm]]|]).
  constructor.
Defined.

(** * Signs and rounding of the summary *)

Lemma currentTokenUsage_nonnegative t : usageNonNegative (currentTokenUsage t).
Proof.
  unfold currentTokenUsage, usageNonNegative, emptyUsage, absOrZero.
  destruct (isType t "prompt"); [destruct (inputTokens t)|];
    [| |destruct (isType t "completion"); [|destruct (isType t "reasoning")]];
    simpl.
  all: lia.
Qed.

Lemma fallbackCost_nonnegative t : (0 <= fallbackCost t)%Q.
Proof.
  unfold fallbackCost. apply Qle_shift_div_l; [reflexivity|].
  rewrite Qmult_0_l. apply Qabs_nonneg.
Qed.

Lemma addUsage_nonnegative a u :
  totalsNonNegative a -> usageNonNegative u -> totalsNonNegative (addUsage a u).
Proof.
  unfold totalsNonNegative, usageNonNegative, addUsage. simpl. lia.
Qed.

Lemma round5_nonnegative x : (0 <= x)%Q -> (0 <= round5 x)%Q.
Proof.
  intros Hx. unfold round5, Math_round.
  apply Qle_shift_div_l; [reflexivity|]. rewrite Qmult_0_l.
  change 0%Q with (inject_Z 0). rewrite <- Zle_Qle.
  change 0 with (Qfloor 0). apply Qfloor_resp_le. lra.
Qed.

Lemma state_nonnegative now : forall txs st st',
  breakdownNonNegative (costBreakdown st) /\ totalsNonNegative (tokenUsage st) /\
  Forall (fun kv => (0 <= md_cost kv.2)%Q) (modelBreakdown st) ->
  processAll now st txs = Ok st' ->
  breakdownNonNegative (costBreakdown st') /\ totalsNonNegative (tokenUsage st') /\
  Forall (fun kv => (0 <= md_cost kv.2)%Q) (modelBreakdown st').
Proof.
  apply (processAll_invariant now
    (fun st => breakdownNonNegative (costBreakdown st) /\
               totalsNonNegative (tokenUsage st) /\
               Forall (fun kv => (0 <= md_cost kv.2)%Q) (modelBreakdown st))).
  intros st t st' (Hb & Ht & Hm) Hstep.
  pose proof (currentTokenUsage_nonnegative t) as Hu.
  pose proof (fallbackCost_nonnegative t) as Hf.
  assert (Hentry : forall m, (0 <= md_cost (entryOf st m))%Q).
  { intros m. unfold entryOf.
    destruct (mapGet (modelBreakdown st) m) as [old|] eqn:Hg; [|apply Qle_refl].
    apply mapGet_Some_In in Hg. rewrite Forall_forall in Hm. exact (Hm _ Hg). }
  pose proof Hb as (B1 & B2 & B3 & B4 & B5).
  destruct (processTransaction_cases _ _ _ _ Hstep)
    as [[_ ->]|[(m & _ & _ & ->)|(m & c & _ & _ & Hc & ->)]];
    cbn [costBreakdown tokenUsage modelBreakdown].
  - split; [|split]; assumption.
  - split; [|split; [now apply addUsage_nonnegative|]].
    + unfold addFallback, breakdownNonNegative.
      destruct (isType t "completion"); simpl; repeat split; try assumption; lra.
    + apply Forall_mapSet; [exact Hm|]. simpl. specialize (Hentry m). lra.
  - destruct (cost_object_nonnegative _ _ _ _ _ Hu Hc)
      as (C1 & C2 & C3 & C4 & C5 & C6).
    split; [|split; [now apply addUsage_nonnegative|]].
    + unfold addCosts, breakdownNonNegative. simpl. repeat split; lra.
    + apply Forall_mapSet; [exact Hm|]. simpl. specialize (Hentry m). lra.
Qed.

(** X12. Nothing in a summary is negative: neither the total cost, nor a
    field of the breakdown, nor a token total, nor the cost of a per-model
    entry. The amounts of the ledger enter by their absolute value and the
    table holds no negative price. *)
Theorem summary_nonnegative
    (now : Z) (cid : string) (txs : list Transaction) (s : ConversationCostSummary) :
  costOfTransactions now cid (Some txs) = Ok (Some s) ->
  (0 <= totalCost s)%Q /\ breakdownNonNegative (s_costBreakdown s) /\
  totalsNonNegative (s_tokenUsage s) /\
  Forall (fun e => (0 <= md_cost (me_data e))%Q) (s_modelBreakdown s).
Proof.
  intros Hs. destruct (summary_state _ _ _ _ Hs) as (st & Hall & ->).
  destruct (state_nonnegative now txs initState st) as (Hb & Ht & Hm);
    [|exact Hall|].
  { repeat split; try apply Qle_refl; try reflexivity. constructor. }
  destruct Hb as (B1 & B2 & B3 & B4 & B5).
  cbn [totalCost s_costBreakdown s_tokenUsage s_modelBreakdown summaryOf].
  split; [apply round5_nonnegative; unfold sumBreakdown; lra|].
  split; [unfold roundBreakdown, breakdownNonNegative; simpl;
          repeat split; now apply round5_nonnegative|].
  split; [exact Ht|].
  rewrite sortByCost_perm. apply Forall_forall. intros e He.
  apply list_elem_of_In, in_map_iff in He as ([k v] & <- & Hkv).
  apply list_elem_of_In in Hkv. rewrite Forall_forall in Hm. exact (Hm _ Hkv).
Qed.

Lemma summary_nonnegative_witness :
  exists s,
    costOfTransactions 0 "c1" (Some mixedTransactions) = Ok (Some s) /\
    (0 <= totalCost s)%Q.
Proof.
  assert (H : exists s, costOfTransactions 0 "c1" (Some mixedTransactions) = Ok (Some s))
    by (eexists; vm_compute; reflexivity).
  destruct H as (s & Hs). exists s. split; [exact Hs|].
  exact (proj1 (summary_nonnegative 0 "c1" mixedTransactions s Hs)).
Defined.



(** * Independence of the order of the transactions *)

Lemma sumZ_perm {A} (d : A -> Z) l l' :
  l ≡ₚ l' ->
  foldr (fun t acc => d t + acc) 0 l = foldr (fun t acc => d t + acc) 0 l'.
Proof. induction 1; simpl; lia. Qed.

Lemma foldl_max_perm l l' : l ≡ₚ l' -> forall a, foldl Z.max a l = foldl Z.max a l'.
Proof.
  induction 1 as [|x l l' _ IH|x y l|l l' l'' _ IH1 _ IH2]; simpl; intros a.
  - reflexivity.
  - apply IH.
  - f_equal. lia.
  - now rewrite IH1.
Qed.

Lemma step_counted now st t st' :
  processTransaction now st t = Ok st' ->
  tokenUsage st' = addUsage (tokenUsage st) (countedUsage t) /\
  lastUpdated st'
  = (if JsDate.gtb (newDate (createdAt t)) (lastUpdated st)
     then newDate (createdAt t) else lastUpdated st).
Proof.
  intros Hstep. unfold countedUsage.
  destruct (processTransaction_cases _ _ _ _ Hstep)
    as [[-> ->]|[(m & -> & _ & ->)|(m & c & -> & _ & _ & ->)]];
    cbn [tokenUsage lastUpdated]; split; try reflexivity.
  unfold addUsage, emptyUsage. simpl. destruct (tokenUsage st). simpl.
  f_equal; lia.
Qed.

Lemma tokens_after now (g : Totals.t -> Z) (f : TokenUsage -> option Z) :
  (forall a u, g (addUsage a u) = g a + orZero (f u)) ->
  forall txs st st',
    processAll now st txs = Ok st' ->
    g (tokenUsage st')
    = g (tokenUsage st) + foldr (fun t acc => orZero (f (countedUsage t)) + acc) 0 txs.
Proof.
  intros Hg. apply (processAll_additive now (fun st => g (tokenUsage st))
                      (fun t => orZero (f (countedUsage t)))).
  intros st t st' Hstep. destruct (step_counted _ _ _ _ Hstep) as [-> _].
  apply Hg.
Qed.

(** X14. The token totals, [lastUpdated] and the models of the summary do not
    depend on the order in which the transactions arrive: on a rearranged
    list the aggregation returns as well, with the same token totals, the
    same [lastUpdated] and entries for the same models. *)
Theorem summary_order_independent
    (now : Z) (cid : string) (txs txs' : list Transaction)
    (s : ConversationCostSummary) :
  txs ≡ₚ txs' ->
  costOfTransactions now cid (Some txs) = Ok (Some s) ->
  exists s',
    costOfTransactions now cid (Some txs') = Ok (Some s') /\
    s_tokenUsage s' = s_tokenUsage s /\
    s_lastUpdated s' = s_lastUpdated s /\
    modelsOf (s_modelBreakdown s') ≡ₚ modelsOf (s_modelBreakdown s).
Proof.
  intros Hperm Hs.
  destruct (summary_state _ _ _ _ Hs) as (st & Hall & ->).
  assert (Hret : returns (costOfTransactions now cid (Some txs')) = true).
  { apply costOfTransactions_returns. rewrite <- Hperm.
    apply (costOfTransactions_processable now cid). now rewrite Hs. }
  destruct (costOfTransactions now cid (Some txs')) as [[s'|]|e] eqn:Hs';
    [|exfalso|discriminate Hret].
  2:{ assert (Hnil : txs' = []).
      { unfold costOfTransactions in Hs'. destruct txs' as [|t' rest']; [reflexivity|].
        destruct (processAll now initState (t' :: rest')) as [st2|e] eqn:H2;
          simpl in Hs'; [|discriminate].
        rewrite (processAll_summary now cid st2 _ H2) in Hs'. discriminate. }
      subst txs'. apply Permutation_nil_r in Hperm. subst txs. discriminate Hs. }
  destruct (summary_state _ _ _ _ Hs') as (st2 & Hall2 & ->).
  eexists. split; [reflexivity|].
  cbn [s_tokenUsage s_lastUpdated summaryOf].
  split; [|split].
  - pose proof (fun g f Hg => tokens_after now g f Hg _ _ _ Hall) as T1.
    pose proof (fun g f Hg => tokens_after now g f Hg _ _ _ Hall2) as T2.
    pose proof (fun f => sumZ_perm (fun t => orZero (f (countedUsage t))) _ _ Hperm)
      as P.
    assert (F1 := T1 Totals.promptTokens promptTokens (fun a u => eq_refl)).
    assert (F2 := T1 Totals.completionTokens completionTokens (fun a u => eq_refl)).
    assert (F3 := T1 Totals.cacheWriteTokens cacheWriteTokens (fun a u => eq_refl)).
    assert (F4 := T1 Totals.cacheReadTokens cacheReadTokens (fun a u => eq_refl)).
    assert (F5 := T1 Totals.reasoningTokens reasoningTokens (fun a u => eq_refl)).
    assert (G1 := T2 Totals.promptTokens promptTokens (fun a u => eq_refl)).
    assert (G2 := T2 Totals.completionTokens completionTokens (fun a u => eq_refl)).
    assert (G3 := T2 Totals.cacheWriteTokens cacheWriteTokens (fun a u => eq_refl)).
    assert (G4 := T2 Totals.cacheReadTokens cacheReadTokens (fun a u => eq_refl)).
    assert (G5 := T2 Totals.reasoningTokens reasoningTokens (fun a u => eq_refl)).
    rewrite <- (P promptTokens) in G1. rewrite <- (P completionTokens) in G2.
    rewrite <- (P cacheWriteTokens) in G3. rewrite <- (P cacheReadTokens) in G4.
    rewrite <- (P reasoningTokens) in G5.
    clear T1 T2 P.
    destruct (tokenUsage st), (tokenUsage st2). simpl in *. f_equal; congruence.
  - rewrite (processAll_lastUpdated now _ _ _ 0 Hall eq_refl).
    rewrite (processAll_lastUpdated now _ _ _ 0 Hall2 eq_refl).
    f_equal. apply foldl_max_perm. unfold timestamps. now rewrite Hperm.
  - destruct (models_of_state now cid txs st Hall) as [Hnd1 Hin1].
    destruct (models_of_state now cid txs' st2 Hall2) as [Hnd2 Hin2].
    apply NoDup_Permutation; [exact Hnd2|exact Hnd1|].
    intros m. rewrite Hin1, Hin2.
    split; intros (t & Ht & Hm); exists t; (split; [|exact Hm]).
    + now rewrite Hperm.
    + now rewrite <- Hperm.
Qed.

Lemma summary_order_independent_witness :
  exists s',
    costOfTransactions 0 "c1" (Some (rev mixedTransactions)) = Ok (Some s') /\
    sumTotals (s_tokenUsage s') = 5300.
Proof.
  assert (H : exists s, costOfTransactions 0 "c1" (Some mixedTransactions) = Ok (Some s)
                        /\ sumTotals (s_tokenUsage s) = 5300)
    by (eexists; split; vm_compute; reflexivity).
  destruct H as (s & Hs & Ht).
  destruct (summary_order_independent 0 "c1" mixedTransactions (rev mixedTransactions)
              s (Permutation_rev _) Hs) as (s' & Hs' & Htok & _).
  exists s'. split; [exact Hs'|]. now rewrite Htok.
Defined.

(** * Reading a displayed cost back *)

Lemma digitVal_digitChar d : JsDate.digitVal (Fmt.digitChar d) = Some (d mod 10).
Proof.
  unfold JsDate.digitVal, Fmt.digitChar.
  pose proof (Z.mod_pos_bound d 10 ltac:(lia)) as Hd.
  rewrite nat_ascii_embedding by lia. rewrite Z2Nat.id by lia.
  destruct (Z.leb_spec 48 (48 + d mod 10)); [|lia].
  destruct (Z.leb_spec (48 + d mod 10) 57); [|lia].
  simpl. f_equal. lia.
Qed.

Lemma numeral_app ds1 : forall a ds2,
  JsDate.numeral a (ds1 ++ ds2)
  = match JsDate.numeral a ds1 with
    | Some v => JsDate.numeral v ds2
    | None => None
    end.
Proof.
  induction ds1 as [|c ds1 IH]; intros a ds2; simpl; [reflexivity|].
  destruct (JsDate.digitVal c); [apply IH|reflexivity].
Qed.

Lemma numeral_zeros k : forall a,
  JsDate.numeral a (repeat "0"%char k) = Some (a * 10 ^ Z.of_nat k).
Proof.
  induction k as [|k IH]; intros a.
  - simpl. f_equal. lia.
  - cbn [repeat JsDate.numeral].
    change (JsDate.digitVal "0"%char) with (Some 0). cbv iota.
    rewrite IH. f_equal.
    rewrite Nat2Z.inj_succ, Z.pow_succ_r by lia. lia.
Qed.

Lemma digitsFuel_value fuel : forall n acc,
  0 <= n < 10 ^ Z.of_nat (S fuel) ->
  exists ds,
    Fmt.digitsFuel fuel n acc = ds ++ acc /\
    forall a, JsDate.numeral a ds = Some (a * 10 ^ Z.of_nat (List.length ds) + n).
Proof.
  assert (Hone : forall n, 0 <= n < 10 ->
            forall a, JsDate.numeral a [Fmt.digitChar n]
                      = Some (a * 10 ^ Z.of_nat (List.length [Fmt.digitChar n]) + n)).
  { intros n Hn a. cbn [JsDate.numeral List.length].
    rewrite digitVal_digitChar, Z.mod_small by lia. f_equal. }
  induction fuel as [|fuel IH]; intros n acc Hn.
  - exists [Fmt.digitChar n]. split; [reflexivity|].
    apply Hone. change (10 ^ Z.of_nat 1) with 10 in Hn. exact Hn.
  - cbn [Fmt.digitsFuel]. destruct (Z.eqb_spec (n / 10) 0) as [Hz|Hz].
    + exists [Fmt.digitChar n]. split; [reflexivity|].
      apply Hone. pose proof (Z.div_mod n 10 ltac:(lia)).
      pose proof (Z.mod_pos_bound n 10 ltac:(lia)). lia.
    + assert (Hdiv : 0 <= n / 10 < 10 ^ Z.of_nat (S fuel)).
      { split; [apply Z.div_pos; lia|].
        apply Z.div_lt_upper_bound; [lia|].
        rewrite (Nat2Z.inj_succ (S fuel)), Z.pow_succ_r in Hn by lia. lia. }
      destruct (IH (n / 10) (Fmt.digitChar n :: acc) Hdiv) as (ds & Heq & Hval).
      exists (ds ++ [Fmt.digitChar n]). split.
      * rewrite Heq, <- app_assoc. reflexivity.
      * intros a. rewrite numeral_app, Hval. cbn [JsDate.numeral].
        rewrite digitVal_digitChar. f_equal.
        rewrite length_app. cbn [List.length].
        rewrite Nat2Z.inj_add, Z.pow_add_r by lia.
        change (10 ^ Z.of_nat 1) with 10.
        pose proof (Z.div_mod n 10 ltac:(lia)). lia.
Qed.

(** The digits of a natural number denote it. *)
Lemma digits_value n :
  0 <= n -> JsDate.numeral 0 (Fmt.digits n) = Some n.
Proof.
  intros Hn. unfold Fmt.digits.
  assert (Hfuel : 0 <= n < 10 ^ Z.of_nat (S (Z.to_nat (Z.log2 n)))).
  { split; [exact Hn|].
    rewrite Nat2Z.inj_succ, Z2Nat.id by apply Z.log2_nonneg.
    destruct (Z.eq_dec n 0) as [->|Hne].
    - reflexivity.
    - pose proof (Z.log2_spec n ltac:(lia)) as [_ Hlt].
      pose proof (Z.log2_nonneg n).
      assert (2 ^ Z.succ (Z.log2 n) <= 10 ^ Z.succ (Z.log2 n))
        by (apply Z.pow_le_mono_l; lia).
      lia. }
  destruct (digitsFuel_value _ n [] Hfuel) as (ds & -> & Hval).
  rewrite app_nil_r, Hval. f_equal.
Qed.

Lemma readDecimal_toFixed (x : Q) (f : nat) :
  (0 <= x)%Q -> (x < inject_Z (10 ^ 21))%Q ->
  readDecimal (Fmt.toFixedChars x (S f))
  = Some (inject_Z (Qfloor (x * inject_Z (10 ^ Z.of_nat (S f)) + (1 # 2)))
          / inject_Z (10 ^ Z.of_nat (S f)))%Q.
Proof.
  intros H0 Hbig. unfold Fmt.toFixedChars.
  assert (Hsign : Qle_bool 0 x = true) by now apply Qle_bool_iff.
  rewrite Hsign.
  assert (Hsmall : Qle_bool (inject_Z (10 ^ 21)) (Qabs x) = false).
  { destruct (Qle_bool (inject_Z (10 ^ 21)) (Qabs x)) eqn:E; [|reflexivity].
    apply Qle_bool_iff in E. rewrite (Qabs_pos x H0) in E.
    exfalso. now apply (Qlt_not_le x (inject_Z (10 ^ 21))). }
  rewrite Hsmall. cbn [app].
  assert (Hfloor : Qfloor (Qabs x * inject_Z (10 ^ Z.of_nat (S f)) + (1 # 2))
                   = Qfloor (x * inject_Z (10 ^ Z.of_nat (S f)) + (1 # 2))).
  { apply Qfloor_comp. now rewrite (Qabs_pos x H0). }
  rewrite Hfloor. set (n := Qfloor _).
  assert (Hn : 0 <= n).
  { unfold n. change 0 with (Qfloor 0). apply Qfloor_resp_le.
    assert (0 <= x * inject_Z (10 ^ Z.of_nat (S f)))%Q; [|lra].
    apply Qmult_le_0_compat; [exact H0|].
    change 0%Q with (inject_Z 0). rewrite <- Zle_Qle.
    apply Z.pow_nonneg. lia. }
  destruct (digits_shape n) as [Hne Hall].
  set (m := repeat "0"%char (S (S f) - List.length (Fmt.digits n)) ++ Fmt.digits n).
  assert (Hlen : (S (S f) <= List.length m)%nat).
  { unfold m. rewrite length_app, repeat_length. lia. }
  assert (Hm : forallb Fmt.isDigit m = true).
  { unfold m. now rewrite forallb_app, forallb_repeat_zero, Hall. }
  assert (Hval : JsDate.numeral 0 m = Some n).
  { unfold m. rewrite numeral_app, numeral_zeros. simpl (0 * _).
    now apply digits_value. }
  rewrite <- (firstn_skipn (List.length m - S f) m) in Hm, Hval.
  rewrite forallb_app in Hm. apply andb_prop in Hm as [Ha Hb].
  unfold readDecimal.
  rewrite takeDigits_until_point, dropDigits_until_point by assumption.
  rewrite Hval.
  assert (Hl : List.length (skipn (List.length m - S f) m) = S f)
    by (rewrite length_skipn; lia).
  now rewrite Hl.
Qed.

Lemma readCost_toFixed (x : Q) (f : nat) :
  (0 <= x)%Q -> (x < inject_Z (10 ^ 21))%Q ->
  readCost ("$" ++ Fmt.toFixed x (S f))%string
  = Some (inject_Z (Qfloor (x * inject_Z (10 ^ Z.of_nat (S f)) + (1 # 2)))
          / inject_Z (10 ^ Z.of_nat (S f)))%Q.
Proof.
  intros H0 Hbig. unfold readCost, Fmt.toFixed.
  rewrite list_ascii_of_dollar, list_ascii_of_string_of_list_ascii.
  now apply readDecimal_toFixed.
Qed.

Lemma nearest_multiple (x p : Q) :
  (0 < p)%Q ->
  (Qabs (inject_Z (Qfloor (x * p + (1 # 2))) / p - x) <= (1 # 2) / p)%Q.
Proof.
  intros Hp.
  pose proof (Qfloor_le (x * p + (1 # 2))) as Hle.
  pose proof (Qlt_floor (x * p + (1 # 2))) as Hlt.
  rewrite inject_Z_plus in Hlt. change (inject_Z 1) with 1%Q in Hlt.
  set (k := inject_Z (Qfloor (x * p + (1 # 2)))) in *.
  apply Qabs_case; intros _; (apply Qle_shift_div_l; [exact Hp|]).
  - assert (E : ((k / p - x) * p == k - x * p)%Q) by (field; lra).
    rewrite E. lra.
  - assert (E : (- (k / p - x) * p == x * p - k)%Q) by (field; lra).
    rewrite E. lra.
Qed.

(** X15. A displayed cost reads back as a number close to the cost itself:
    within half a unit of the fourth decimal from 0.001 and below 0.01, of the
    third decimal from 0.01 and below 1, and of the second decimal from 1 and
    below 10^21. *)
Theorem displayed_cost_reads_back (cost : Q) :
  ((0.001 <= cost)%Q -> (cost < 0.01)%Q ->
     exists v, readCost (Fmt.formatCost cost) = Some v /\
               (Qabs (v - cost) <= 0.00005)%Q) /\
  ((0.01 <= cost)%Q -> (cost < 1)%Q ->
     exists v, readCost (Fmt.formatCost cost) = Some v /\
               (Qabs (v - cost) <= 0.0005)%Q) /\
  ((1 <= cost)%Q -> (cost < inject_Z (10 ^ 21))%Q ->
     exists v, readCost (Fmt.formatCost cost) = Some v /\
               (Qabs (v - cost) <= 0.005)%Q).
Proof.
  assert (H21 : (1 < inject_Z (10 ^ 21))%Q) by reflexivity.
  unfold Fmt.formatCost. repeat split.
  - intros Hge Hlt. apply Qltb_ge in Hge as Hge'. apply Qltb_lt in Hlt as Hlt'.
    rewrite Hge', Hlt'. eexists. split; [apply readCost_toFixed; lra|].
    eapply Qle_trans;
      [apply (nearest_multiple cost (inject_Z (10 ^ Z.of_nat 4))); reflexivity|].
    apply Qle_bool_iff. reflexivity.
  - intros Hge Hlt.
    assert (H1 : Fmt.Qltb cost 0.001 = false) by (apply Qltb_ge; lra).
    apply Qltb_ge in Hge as Hge'. apply Qltb_lt in Hlt as Hlt'.
    rewrite H1, Hge', Hlt'. eexists. split; [apply readCost_toFixed; lra|].
    eapply Qle_trans;
      [apply (nearest_multiple cost (inject_Z (10 ^ Z.of_nat 3))); reflexivity|].
    apply Qle_bool_iff. reflexivity.
  - intros Hge Hlt.
    assert (H1 : Fmt.Qltb cost 0.001 = false) by (apply Qltb_ge; lra).
    assert (H2 : Fmt.Qltb cost 0.01 = false) by (apply Qltb_ge; lra).
    apply Qltb_ge in Hge as Hge'.
    rewrite H1, H2, Hge'. eexists. split; [apply readCost_toFixed; lra|].
    eapply Qle_trans;
      [apply (nearest_multiple cost (inject_Z (10 ^ Z.of_nat 2))); reflexivity|].
    apply Qle_bool_iff. reflexivity.
Qed.

Lemma displayed_cost_reads_back_witness :
  exists v, readCost (Fmt.formatCost 0.06) = Some v /\
            (Qabs (v - 0.06) <= 0.0005)%Q.
Proof.
  apply (proj1 (proj2 (displayed_cost_reads_back 0.06)));
    [discriminate|reflexivity].
Defined.

(** * The client widget *)

Lemma startsWith_spec sub : forall s,
  Client.startsWith s sub = true <-> exists post, s = sub ++ post.
Proof.
  induction sub as [|c sub IH]; intros s; simpl.
  - split; [intros _; now exists s|reflexivity].
  - destruct s as [|d s].
    + split; [discriminate|]. intros [post [=]].
    + rewrite andb_true_iff, IH. split.
      * intros [Hc [post ->]]. apply Ascii.eqb_eq in Hc as ->. eauto.
      * intros [post [= -> ->]]. split; [apply Ascii.eqb_refl|eauto].
Qed.

Lemma includes_spec s : forall sub,
  Client.includes s sub = true <-> exists pre post, s = pre ++ sub ++ post.
Proof.
  induction s as [|d s IH]; intros sub; simpl.
  - rewrite orb_false_r, startsWith_spec. split.
    + intros [post H]. exists [], post. exact H.
    + intros (pre & post & H). destruct pre; [eauto|discriminate].
  - rewrite orb_true_iff, startsWith_spec, IH. split.
    + intros [[post H]|(pre & post & ->)].
      * exists [], post. exact H.
      * exists (d :: pre), post. reflexivity.
    + intros (pre & post & H). destruct pre as [|c pre].
      * left. eauto.
      * right. injection H as -> ->. eauto.
Qed.

Lemma includes_trans s a b :
  Client.includes s a = true -> Client.includes a b = true ->
  Client.includes s b = true.
Proof.
  rewrite !includes_spec. intros (p1 & q1 & ->) (p2 & q2 & ->).
  exists (p1 ++ p2), (q2 ++ q1). now rewrite <- !app_assoc.
Qed.

Lemma firstKeyIn_In ml ks k : Client.firstKeyIn ml ks = Some k -> In k ks.
Proof.
  induction ks as [|x rest IH]; simpl; [discriminate|].
  destruct (Client.includes ml (Client.toLowerCase x)).
  - intros [= ->]. now left.
  - intros H. right. now apply IH.
Qed.

Lemma firstKeyIn_match ml ks k :
  Client.firstKeyIn ml ks = Some k ->
  Client.includes ml (Client.toLowerCase k) = true.
Proof.
  induction ks as [|x rest IH]; simpl; [discriminate|].
  destruct (Client.includes ml (Client.toLowerCase x)) eqn:Hx.
  - now intros [= <-].
  - exact IH.
Qed.

Lemma firstKeyIn_skips ml ks k k0 :
  Client.firstKeyIn ml ks = Some k -> comesBefore k0 k ks = true ->
  Client.includes ml (Client.toLowerCase k0) = false.
Proof.
  induction ks as [|x rest IH]; simpl; [discriminate|].
  destruct (Client.includes ml (Client.toLowerCase x)) eqn:Hx.
  - intros [= ->]. now rewrite String.eqb_refl.
  - intros Hk. destruct (String.eqb x k); [discriminate|].
    destruct (String.eqb_spec x k0) as [->|]; simpl; [now intros _|].
    now apply IH.
Qed.

(** A key that contains an earlier key is never the first match. *)
Lemma shadowed_never_first ml k k0 :
  comesBefore k0 k Client.keys = true ->
  Client.includes (Client.toLowerCase k) (Client.toLowerCase k0) = true ->
  Client.firstKeyIn ml Client.keys <> Some k.
Proof.
  intros Hb Hsub Hk.
  pose proof (firstKeyIn_match _ _ _ Hk) as Hin.
  pose proof (firstKeyIn_skips _ _ _ _ Hk Hb) as Hout.
  rewrite (includes_trans _ _ _ Hin Hsub) in Hout. discriminate.
Qed.

Lemma fallback_keys_listed k :
  In k ["default"; "gpt-3.5-turbo"; "claude-3-haiku"; "gemini-1.5-flash"] ->
  In k Client.keys /\ ~ In k shadowedKeys.
Proof.
  intros [<-|[<-|[<-|[<-|[]]]]];
    (split; [vm_compute; tauto|]);
    intros H; repeat (destruct H as [H|H]; [discriminate H|]); exact H.
Qed.

(** X16. Whatever the model name, [getBaseModel] answers with a key of the
    price table, and never with gpt-4o-mini, o1-mini, o1-preview or
    gemini-1.5-flash-8b, each of which contains a key listed before it; every
    other key is the answer for its own name. *)
Theorem getBaseModel_range :
  (forall model,
     In (Client.getBaseModel model) Client.keys /\
     ~ In (Client.getBaseModel model) shadowedKeys) /\
  (forall k, In k Client.keys -> ~ In k shadowedKeys ->
             Client.getBaseModel (Some k) = k).
Proof.
  split.
  - intros model. unfold Client.getBaseModel.
    destruct model as [m|]; [|apply fallback_keys_listed; now left].
    destruct (String.eqb m ""); [apply fallback_keys_listed; now left|].
    cbv zeta. set (ml := Client.toLowerCase m).
    destruct (Client.firstKeyIn ml Client.keys) as [k|] eqn:Hk.
    + split; [now apply firstKeyIn_In in Hk|].
      intros [<-|[<-|[<-|[<-|[]]]]].
      * refine (shadowed_never_first ml _ "gpt-4o" _ _ Hk); vm_compute; reflexivity.
      * refine (shadowed_never_first ml _ "o1" _ _ Hk); vm_compute; reflexivity.
      * refine (shadowed_never_first ml _ "o1" _ _ Hk); vm_compute; reflexivity.
      * refine (shadowed_never_first ml _ "gemini-1.5-flash" _ _ Hk);
          vm_compute; reflexivity.
    + destruct (Client.includes ml _);
        [apply fallback_keys_listed; right; now left|].
      destruct (Client.includes ml _);
        [apply fallback_keys_listed; right; right; now left|].
      destruct (Client.includes ml _);
        [apply fallback_keys_listed; right; right; right; now left|].
      apply fallback_keys_listed; now left.
  - intros k Hin Hns.
    unfold Client.keys, Client.MODEL_PRICING in Hin. cbn [List.map fst] in Hin.
    repeat (destruct Hin as [<-|Hin];
            [first [vm_compute; reflexivity
                   |exfalso; apply Hns; vm_compute; tauto]|]).
    destruct Hin.
Qed.

Lemma getBaseModel_range_witness :
  Client.getBaseModel (Some "claude-3-opus") = "claude-3-opus" /\
  In (Client.getBaseModel (Some "gpt-4o-mini-2024-07-18")) Client.keys.
Proof.
  split.
  - apply (proj2 getBaseModel_range).
    + vm_compute. tauto.
    + intros H; repeat (destruct H as [H|H]; [discriminate H|]); exact H.
  - exact (proj1 (proj1 getBaseModel_range (Some "gpt-4o-mini-2024-07-18"))).
Defined.

Example getBaseModel_mini :
  Client.getBaseModel (Some "gpt-4o-mini-2024-07-18") = "gpt-4o" /\
  Client.getBaseModel (Some "O1-Mini") = "o1" /\
  Client.getBaseModel (Some "my-gpt-model") = "gpt-3.5-turbo" /\
  Client.getBaseModel (Some "llama-3") = "default".
Proof. repeat split; vm_compute; reflexivity. Qed.

Lemma pickLarger_fold costs : forall b name r,
  foldl Client.pickLarger (b, name) costs = r ->
  (b <= fst r)%Q /\
  Forall (fun kv => (snd kv <= fst r)%Q) costs /\
  ((r = (b, name) /\ Forall (fun kv => (snd kv <= b)%Q) costs)
   \/ (In (snd r, fst r) costs /\ (b < fst r)%Q)).
Proof.
  induction costs as [|[k v] rest IH]; intros b name r Hr; cbn [foldl] in Hr.
  - subst r. cbn [fst snd]. split; [apply Qle_refl|]. split; [constructor|].
    left. now split.
  - unfold Client.pickLarger at 2 in Hr. cbn [fst snd] in Hr.
    destruct (Fmt.Qltb b v) eqn:Hlt.
    + apply Qltb_lt in Hlt.
      destruct (IH v k r Hr) as (Hge & Hall & Hcase).
      split; [lra|]. split; [constructor; [exact Hge|exact Hall]|].
      right. destruct Hcase as [[Hr' _]|[Hin Hlt']].
      * rewrite Hr'. cbn [fst snd]. split; [now left|exact Hlt].
      * split; [now right|lra].
    + apply Qltb_ge in Hlt.
      destruct (IH b name r Hr) as (Hge & Hall & Hcase).
      split; [exact Hge|].
      split; [constructor; [cbn [snd]; lra|exact Hall]|].
      destruct Hcase as [[Hr' Hle]|[Hin Hlt']].
      * left. split; [exact Hr'|]. now constructor.
      * right. split; [now right|exact Hlt'].
Qed.

(** X17. The primary model of the widget is "Unknown" when no model has
    accumulated a positive cost; otherwise it is a model of positive cost that
    no other model exceeds. *)
Theorem primaryOf_is_largest (costs : list (string * Q)) :
  (Forall (fun kv => (snd kv <= 0)%Q) costs -> Client.primaryOf costs = "Unknown") /\
  (Exists (fun kv => (0 < snd kv)%Q) costs ->
   exists c, In (Client.primaryOf costs, c) costs /\ (0 < c)%Q /\
             Forall (fun kv => (snd kv <= c)%Q) costs).
Proof.
  unfold Client.primaryOf.
  destruct (pickLarger_fold costs 0%Q "Unknown" _ eq_refl) as (Hge & Hall & Hcase).
  set (r := foldl Client.pickLarger (0%Q, "Unknown") costs) in *.
  split.
  - intros Hle. destruct Hcase as [[-> _]|[Hin Hlt]]; [reflexivity|].
    exfalso. rewrite List.Forall_forall in Hle. specialize (Hle _ Hin).
    simpl in Hle. lra.
  - intros Hex. destruct Hcase as [[_ Hle]|[Hin Hlt]].
    + exfalso. apply List.Exists_exists in Hex as (kv & Hkv & Hpos).
      rewrite List.Forall_forall in Hle. specialize (Hle _ Hkv). lra.
    + exists (fst r). split; [exact Hin|]. split; [exact Hlt|exact Hall].
Qed.

Lemma primaryOf_is_largest_witness :
  Client.primaryOf [("gpt-4", 0.045%Q); ("default", 0.0005%Q)] = "gpt-4" /\
  Client.primaryOf [("gpt-4", 0%Q)] = "Unknown".
Proof.
  split.
  - reflexivity.
  - apply (proj1 (primaryOf_is_largest [("gpt-4", 0%Q)])).
    constructor; [discriminate|constructor].
Defined.

Lemma getBaseModel_listed model : In (Client.getBaseModel model) Client.keys.
Proof.
  unfold Client.getBaseModel.
  destruct model as [m|]; [|apply fallback_keys_listed; now left].
  destruct (String.eqb m ""); [apply fallback_keys_listed; now left|].
  cbv zeta. set (ml := Client.toLowerCase m).
  destruct (Client.firstKeyIn ml Client.keys) as [k|] eqn:Hk;
    [now apply firstKeyIn_In in Hk|].
  destruct (Client.includes ml _);
    [apply fallback_keys_listed; right; now left|].
  destruct (Client.includes ml _);
    [apply fallback_keys_listed; right; right; now left|].
  destruct (Client.includes ml _);
    [apply fallback_keys_listed; right; right; right; now left|].
  apply fallback_keys_listed; now left.
Qed.

Lemma listed_price_positive k :
  In k Client.keys -> (0 < Client.pricePerMillion k)%Q.
Proof.
  unfold Client.keys, Client.MODEL_PRICING. cbn [List.map fst].
  intros Hin.
  repeat (destruct Hin as [<-|Hin]; [reflexivity|]).
  destruct Hin.
Qed.

Lemma messageCost_positive model n :
  0 < n -> (0 < Client.messageCost model n)%Q.
Proof.
  intros Hn. unfold Client.messageCost.
  pose proof (listed_price_positive _ (getBaseModel_listed (Some model))) as Hp.
  apply Qmult_lt_0_compat; [|exact Hp].
  apply Qlt_shift_div_l; [reflexivity|]. rewrite Qmult_0_l.
  change 0%Q with (inject_Z 0). now rewrite <- Zlt_Qlt.
Qed.

Lemma Forall_costSet (P : string * Q -> Prop) m k v :
  Forall P m -> P (k, v) -> Forall P (Client.costSet m k v).
Proof.
  intros Hall Hnew. induction Hall as [|[k' v'] rest Hx Hrest IH]; simpl.
  - now constructor.
  - destruct (String.eqb_spec k' k) as [->|]; constructor; auto.
Qed.

Lemma costSet_nonempty m k v : Client.costSet m k v <> [].
Proof. destruct m as [|[k' v'] rest]; simpl; [|destruct (String.eqb k' k)]; discriminate. Qed.

Lemma costOr0_nonnegative m k :
  Forall (fun kv => (0 < snd kv)%Q) m -> (0 <= Client.costOr0 m k)%Q.
Proof.
  unfold Client.costOr0. induction 1 as [|[k' v'] rest Hx _ IH]; simpl.
  - apply Qle_refl.
  - destruct (String.eqb k' k); [now apply Qlt_le_weak|exact IH].
Qed.

Lemma client_fold_invariant all : forall ms acc,
  Forall (fun m => In m all) ms ->
  positiveCounts ms ->
  ((0 <= Client.acc_totalCost acc)%Q /\ 0 <= Client.acc_totalTokens acc /\
   ((0 < Client.acc_totalCost acc)%Q <-> 0 < Client.acc_totalTokens acc) /\
   Forall (fun kv => (0 < snd kv)%Q /\
                     exists m, In m all /\ Client.modelNameOf m = fst kv)
          (Client.modelCosts acc) /\
   (0 < Client.acc_totalTokens acc <-> Client.modelCosts acc <> [])) ->
  let acc' := foldl Client.addMessage acc ms in
  (0 <= Client.acc_totalCost acc')%Q /\ 0 <= Client.acc_totalTokens acc' /\
  ((0 < Client.acc_totalCost acc')%Q <-> 0 < Client.acc_totalTokens acc') /\
  Forall (fun kv => (0 < snd kv)%Q /\
                    exists m, In m all /\ Client.modelNameOf m = fst kv)
         (Client.modelCosts acc') /\
  (0 < Client.acc_totalTokens acc' <-> Client.modelCosts acc' <> []).
Proof.
  induction ms as [|m rest IH]; intros acc Hin Hpos Hinv; [exact Hinv|].
  cbn [foldl]. inversion Hin as [|? ? Hm Hrest]; subst.
  inversion Hpos as [|? ? Hn Hposrest]; subst.
  apply IH; [exact Hrest|exact Hposrest|].
  destruct Hinv as (Hc & Ht & Hiff & Hall & Hne).
  unfold Client.addMessage.
  destruct (Client.tokenCountOf m) as [n|] eqn:Htc;
    [|exact (conj Hc (conj Ht (conj Hiff (conj Hall Hne))))].
  specialize (Hn n eq_refl).
  pose proof (messageCost_positive (Client.modelNameOf m) n Hn) as Hcost.
  cbn [Client.acc_totalCost Client.acc_totalTokens Client.modelCosts].
  split; [lra|]. split; [lia|]. split; [split; intros _; [lia|lra]|].
  split; [|split; intros _; [apply costSet_nonempty|lia]].
  apply Forall_costSet; [exact Hall|]. cbn [fst snd]. split; [|eauto].
  assert (0 <= Client.costOr0 (Client.modelCosts acc) (Client.modelNameOf m))%Q.
  { apply costOr0_nonnegative. eapply Forall_impl; [exact Hall|].
    now intros kv [H _]. }
  lra.
Qed.

(** X18. When every counted message carries a positive number of tokens, the
    cost data of the widget show a cost that is positive exactly when tokens
    were counted; without tokens the primary model is "Unknown", and with
    tokens it is the model name of one of the messages. *)
Theorem client_cost_follows_tokens
    (now : Z) (messages : list Client.Message) (d : Client.CostData) :
  positiveCounts messages ->
  Client.costData now (Some messages) = Some d ->
  (0 <= Client.cd_totalCostRaw d)%Q /\ 0 <= Client.cd_totalTokens d /\
  ((0 < Client.cd_totalCostRaw d)%Q <-> 0 < Client.cd_totalTokens d) /\
  (Client.cd_totalTokens d = 0 -> Client.cd_primaryModel d = "Unknown") /\
  (0 < Client.cd_totalTokens d ->
   exists m, In m messages /\ Client.cd_primaryModel d = Client.modelNameOf m).
Proof.
  intros Hpos Hd.
  pose proof (client_fold_invariant messages messages (Client.mkAcc 0 0 [])) as Hinv.
  cbv zeta in Hinv.
  unfold Client.costData in Hd.
  destruct messages as [|m0 rest]; [discriminate|].
  remember (foldl Client.addMessage (Client.mkAcc 0 0 []) (m0 :: rest)) as acc
    eqn:Hacc.
  injection Hd as <-.
  cbn [Client.cd_totalCostRaw Client.cd_totalTokens Client.cd_primaryModel].
  destruct Hinv as (Hc & Ht & Hiff & Hall & Hne).
  { apply List.Forall_forall. auto. }
  { exact Hpos. }
  { cbn [Client.acc_totalCost Client.acc_totalTokens Client.modelCosts].
    split; [apply Qle_refl|]. split; [lia|].
    split; [split; intros H; [lra|lia]|].
    split; [constructor|]. split; [lia|congruence]. }
  split; [exact Hc|]. split; [exact Ht|]. split; [exact Hiff|].
  unfold Client.primaryOf.
  destruct (foldl Client.pickLarger (0%Q, "Unknown") (Client.modelCosts acc))
    as [best name] eqn:Hr.
  destruct (pickLarger_fold _ _ _ _ Hr) as (Hge & Hle & Hcase).
  cbn [fst snd] in *.
  split.
  - intros Hz. destruct Hcase as [[[= _ <-] _]|[Hin Hlt]]; [reflexivity|].
    exfalso. destruct (Client.modelCosts acc) as [|kv l]; [destruct Hin|].
    assert (0 < Client.acc_totalTokens acc) by (apply Hne; discriminate). lia.
  - intros Hp. destruct Hcase as [[_ Hnone]|[Hin Hlt]].
    + exfalso. apply Hne in Hp.
      destruct (Client.modelCosts acc) as [|kv l]; [contradiction|].
      inversion Hall as [|? ? [Hkv _] _]; subst.
      inversion Hnone as [|? ? Hkv' _]; subst. lra.
    + rewrite List.Forall_forall in Hall.
      destruct (Hall _ Hin) as [_ (m & Hm & Hname)]. exists m. split; [exact Hm|].
      cbn [fst] in Hname. now rewrite Hname.
Qed.

Lemma client_cost_follows_tokens_witness :
  exists d,
    Client.costData 0 (Some clientMessages) = Some d /\
    Client.cd_totalTokens d = 2500 /\ (0 < Client.cd_totalCostRaw d)%Q.
Proof.
  assert (H : exists d, Client.costData 0 (Some clientMessages) = Some d /\
                        Client.cd_totalTokens d = 2500)
    by (eexists; split; vm_compute; reflexivity).
  destruct H as (d & Hd & Ht). exists d. split; [exact Hd|]. split; [exact Ht|].
  assert (Hpos : positiveCounts clientMessages).
  { unfold positiveCounts, clientMessages.
    repeat (constructor;
            [intros n Hn; vm_compute in Hn;
             first [discriminate Hn|injection Hn as <-; reflexivity]|]).
    constructor. }
  apply (proj1 (proj2 (proj2 (client_cost_follows_tokens 0 clientMessages d Hpos Hd)))).
  rewrite Ht. reflexivity.
Defined.

(** * The primary model of the display *)

Lemma modelOf_nonempty t m : modelOf t = Some m -> m <> "".
Proof.
  unfold modelOf. destruct (model t) as [x|]; [|discriminate].
  destruct (String.eqb_spec x ""); [discriminate|]. now intros [= <-].
Qed.

Lemma orUnknown_nonempty x : x <> "" -> orUnknown (Some x) = x.
Proof.
  intros Hx. unfold orUnknown. now destruct (String.eqb_spec x "").
Qed.

(** X19. The primary model that the display reports is "Unknown" when no
    transaction names a model; otherwise it is a model that the transactions
    name, and the entry at the head of the breakdown is its entry, which no
    other entry exceeds in cost. *)
Theorem display_primary_model
    (db : Db) (now : Z) (cid : string) (userId : option string)
    (txs : list Transaction) (d : CostDisplay) :
  db cid (userFilter userId) = Ok (Some txs) ->
  getConversationCostDisplay db now cid userId = Some d ->
  (Forall (fun t => modelOf t = None) txs -> primaryModel d = "Unknown") /\
  (Exists (fun t => is_Some (modelOf t)) txs ->
   (exists t, t ∈ txs /\ modelOf t = Some (primaryModel d)) /\
   exists s e rest,
     costOfTransactions now cid (Some txs) = Ok (Some s) /\
     s_modelBreakdown s = e :: rest /\
     md_modelId (me_data e) = primaryModel d /\
     Forall (fun e' => (md_cost (me_data e') <= md_cost (me_data e))%Q) rest).
Proof.
  intros Hdb Hd. unfold getConversationCostDisplay, calculateConversationCost in Hd.
  rewrite Hdb in Hd. cbn [rbind] in Hd.
  destruct (costOfTransactions now cid (Some txs)) as [[s|]|e] eqn:Hs;
    [|discriminate|discriminate].
  injection Hd as <-. cbn [primaryModel displayOf]. unfold primaryModelOf.
  pose proof (summary_state _ _ _ _ Hs) as (st & Hall & Hsum).
  destruct (keyed_invariant now txs initState st) as [Hnd Hid];
    [split; constructor|exact Hall|].
  pose proof (keys_grow now txs initState st Hall) as Hkeys.
  assert (Hmodels : forall e, e ∈ s_modelBreakdown s ->
            exists t, t ∈ txs /\ modelOf t = Some (md_modelId (me_data e))).
  { intros e He. rewrite Hsum in He. cbn [s_modelBreakdown summaryOf] in He.
    rewrite sortByCost_perm in He.
    apply list_elem_of_In, in_map_iff in He as ([k v] & <- & Hkv).
    apply list_elem_of_In in Hkv.
    rewrite Forall_forall in Hid. pose proof (Hid _ Hkv) as Hk. cbn in Hk.
    assert (Hin : k ∈ (modelBreakdown st).*1)
      by (apply list_elem_of_fmap; now exists (k, v)).
    apply Hkeys in Hin as [Hin|Hin]; [now apply elem_of_nil in Hin|].
    unfold entryFor. cbn [me_data snd]. now rewrite Hk. }
  split.
  - intros Hnone.
    destruct (s_modelBreakdown s) as [|e rest] eqn:Hb; [reflexivity|].
    destruct (Hmodels e ltac:(apply list_elem_of_here)) as (t & Ht & Hm).
    rewrite Forall_forall in Hnone. rewrite (Hnone t Ht) in Hm. discriminate.
  - intros Hex.
    destruct (s_modelBreakdown s) as [|e rest] eqn:Hb.
    + exfalso. apply List.Exists_exists in Hex as (t & Ht & [m Hm]).
      assert (Hin : m ∈ (modelBreakdown st).*1).
      { apply Hkeys. right. exists t. split; [now apply list_elem_of_In|exact Hm]. }
      rewrite Hsum in Hb. cbn [s_modelBreakdown summaryOf] in Hb.
      apply (f_equal (@List.length ModelEntry)) in Hb.
      rewrite (Permutation_length (sortByCost_perm _)), length_map in Hb.
      destruct (modelBreakdown st); [now apply elem_of_nil in Hin|discriminate Hb].
    + cbn [head fmap option_fmap option_map].
      destruct (Hmodels e ltac:(apply list_elem_of_here)) as (t & Ht & Hm).
      rewrite (orUnknown_nonempty _ (modelOf_nonempty _ _ Hm)).
      split; [eauto|]. exists s, e, rest.
      split; [reflexivity|]. split; [exact Hb|]. split; [reflexivity|].
      pose proof (sortByCost_descending
                    (List.map (fun kv => entryFor kv.2) (modelBreakdown st)))
        as Hdesc.
      rewrite Hsum in Hb. cbn [s_modelBreakdown summaryOf] in Hb.
      rewrite Hb in Hdesc. exact (proj1 Hdesc).
Qed.

Lemma display_primary_model_witness :
  exists d,
    getConversationCostDisplay (storing mixedTransactions) 0 "c1" None = Some d /\
    exists t, t ∈ mixedTransactions /\ modelOf t = Some (primaryModel d).
Proof.
  assert (H : exists d, getConversationCostDisplay (storing mixedTransactions)
                          0 "c1" None = Some d)
    by (eexists; vm_compute; reflexivity).
  destruct H as (d & Hd). exists d. split; [exact Hd|].
  apply (proj2 (display_primary_model (storing mixedTransactions) 0 "c1" None
                  mixedTransactions d eq_refl Hd)).
  apply Exists_cons_hd. eexists. reflexivity.
Defined.

(** * Colour and format of the widget *)

Lemma hasDecimals_toFixed_places (x : Q) (f k : nat) :
  (0 <= x)%Q -> (x < inject_Z (10 ^ 21))%Q ->
  Fmt.hasDecimals k ("$" ++ Fmt.toFixed x (S f))%string = Nat.eqb (S f) k.
Proof.
  intros H0 Hbig.
  destruct (toFixedChars_shape x f H0 Hbig) as (a & b & Heq & Hne & Ha & Hb & Hlen).
  unfold Fmt.hasDecimals, Fmt.toFixed.
  rewrite list_ascii_of_dollar, list_ascii_of_string_of_list_ascii, Heq.
  rewrite takeDigits_until_point, dropDigits_until_point by assumption.
  destruct a as [|c a]; [contradiction|].
  now rewrite Hb, Hlen.
Qed.

(** X20. For a non-negative cost below 10^21 the widget uses the red class
    exactly when the cost is displayed with two decimals, and the green class
    exactly when it is displayed as "<$0.001" or with four decimals. *)
Theorem colour_matches_format (cost : Q) :
  (0 <= cost)%Q -> (cost < inject_Z (10 ^ 21))%Q ->
  (Client.getCostColorClass cost = "text-red-600 dark:text-red-400"
   <-> Fmt.hasDecimals 2 (Fmt.formatCost cost) = true) /\
  (Client.getCostColorClass cost = "text-green-600 dark:text-green-400"
   <-> Fmt.formatCost cost = "<$0.001"
       \/ Fmt.hasDecimals 4 (Fmt.formatCost cost) = true).
Proof.
  intros H0 Hbig. unfold Client.getCostColorClass, Fmt.formatCost.
  destruct (Fmt.Qltb cost 0.001) eqn:E1.
  - apply Qltb_lt in E1.
    assert (E2 : Fmt.Qltb cost 0.01 = true) by (apply Qltb_lt; lra).
    rewrite E2. split; [split; discriminate|]. split; [now left|reflexivity].
  - apply Qltb_ge in E1. destruct (Fmt.Qltb cost 0.01) eqn:E2.
    + rewrite !hasDecimals_toFixed_places by assumption.
      split; [split; discriminate|]. split; [now right|reflexivity].
    + apply Qltb_ge in E2. destruct (Fmt.Qltb cost 1) eqn:E3.
      * rewrite !hasDecimals_toFixed_places by assumption.
        destruct (Fmt.Qltb cost 0.1);
          (split; [split; discriminate|]); split; try discriminate;
          intros [H|H]; discriminate H.
      * assert (E4 : Fmt.Qltb cost 0.1 = false)
          by (apply Qltb_ge; apply Qltb_ge in E3; lra).
        rewrite E4, !hasDecimals_toFixed_places by assumption.
        split; [split; reflexivity|]. split; [discriminate|].
        intros [H|H]; discriminate H.
Qed.

Lemma colour_matches_format_witness :
  Client.getCostColorClass 7.68 = "text-red-600 dark:text-red-400".
Proof.
  apply (proj1 (colour_matches_format 7.68 ltac:(discriminate) ltac:(reflexivity))).
  vm_compute. reflexivity.
Defined.

(** * The run over the rationals and the run in binary64 *)








